(** * Markov reward and decision processes: a shallow embedding

    This development embeds the two process classes of the repository,
    [MRP] (src/process/mrp.py) and [MDP] (src/process/mdp.py), and proves
    properties of their construction pipeline and of their queries.

    Conventions of the embedding.
    - A Python [dict] is an insertion-ordered association list
      ([Dict.dict]); [Dict.get] is [d.get(k)], [Dict.update] is
      [d.update({k: v})].  A dict coming from the caller has distinct keys,
      which statements that need it assume as [NoDup (Dict.keys d)].
    - Python exceptions are the constructors of [exn]; a computation that
      can raise returns [res X]; a computation that also prints returns
      [io X], the printed items together with the outcome.
    - Numbers are the members of an abstract type [num] carrying the
      operations the code applies to them ([Numeric]); nothing is assumed
      about floating-point arithmetic.  numpy and the random generators are
      not part of the repository and are taken as parameters ([Runtime]). *)

From Stdlib Require Import QArith.
From stdpp Require Import base list strings.

(** ** Exceptions and outcomes *)

Inductive exn : Type :=
  | StopIteration
  | KeyError
  | AttributeError
  | TypeError
  | IndexError
  | ValueError
  | UnboundLocalError (var : string)
  | LinAlgError (msg : string)
  | OtherError (name : string).

Inductive res (X : Type) : Type :=
  | Ok (x : X)
  | Raise (e : exn).
Arguments Ok {X} x.
Arguments Raise {X} e.

Definition res_bind {X Y : Type} (k : X → res Y) (c : res X) : res Y :=
  match c with
  | Ok x => k x
  | Raise e => Raise e
  end.

#[global] Instance res_mbind : MBind res := @res_bind.
#[global] Instance res_mret : MRet res := @Ok.

(** [obj.m(...)] on the result of a [get] that found nothing:
    attribute access on [None]. *)
Definition attr_of {X : Type} (o : option X) : res X :=
  match o with
  | Some x => Ok x
  | None => Raise AttributeError
  end.

(** [obj[i]] and [for _ in obj] on the result of a [get] that found nothing:
    [None] is neither subscriptable nor iterable. *)
Definition item_of {X : Type} (o : option X) : res X :=
  match o with
  | Some x => Ok x
  | None => Raise TypeError
  end.

(** ** Python dictionaries *)

Module Dict.
Section dict.
Context {K V : Type} `{EqDecision K}.

Definition dict : Type := list (K * V).

Definition keys (d : dict) : list K := d.*1.
Definition values (d : dict) : list V := d.*2.

(** [d.get(k)] *)
Fixpoint get (k : K) (d : dict) : option V :=
  match d with
  | [] => None
  | (k', v) :: d' => if decide (k = k') then Some v else get k d'
  end.

(** [d.update({k: v})]: an existing key keeps its position. *)
Fixpoint update (k : K) (v : V) (d : dict) : dict :=
  match d with
  | [] => [(k, v)]
  | (k', v') :: d' =>
      if decide (k = k') then (k', v) :: d' else (k', v') :: update k v d'
  end.

(** [d[k]] *)
Definition getitem (k : K) (d : dict) : res V :=
  match get k d with
  | Some v => Ok v
  | None => Raise KeyError
  end.

(** [next(iter(d))] *)
Definition first_key (d : dict) : res K :=
  match d with
  | [] => Raise StopIteration
  | (k, _) :: _ => Ok k
  end.
End dict.
Arguments dict : clear implicits.
End Dict.

Import Dict.

(** ** Numbers and the runtime *)

(** The operations the code applies to its numbers (Python [int] and
    [float] values).  [is_one x] is [x == 1], [fzero] is [0] and [0.0],
    [fpow x n] is [x ** n], [round5 x] is [round(x, 5)]. *)
Class Numeric := {
  num : Type;
  is_one : num → bool;
  fzero : num;
  fadd : num → num → num;
  fmul : num → num → num;
  fpow : num → nat → num;
  round5 : num → num;
}.

(** numpy and the random generators.  [linalg_solve gamma P R] is
    [np.linalg.solve(np.eye(sz) - gamma * P, R)] and [linalg_lstsq gamma P R]
    is [np.linalg.lstsq(np.eye(sz) - gamma * P, R, rcond=None)[0]];
    [nditer V] is the sequence [np.nditer(V)] yields;
    [random_choice g n] is the index [random.choice] draws in a list of
    length [n > 0], and [np_random_choice g n pr] the index
    [np.random.choice] draws in a list of length [n] under the weights [pr]. *)
Class Runtime `{Numeric} := {
  linalg_solve : num → list (list num) → list num → res (list num);
  linalg_lstsq : num → list (list num) → list num → res (list num);
  nditer : list num → res (list num);
  rng : Type;
  random_choice : rng → nat → nat * rng;
  np_random_choice : rng → nat → list num → res (nat * rng);
}.

(** [needle in hay] on strings *)
Fixpoint contains (needle hay : string) : bool :=
  String.prefix needle hay ||
  match hay with
  | EmptyString => false
  | String _ hay' => contains needle hay'
  end.

(** ** Printing *)

Section io.
Context {State : Type} `{Numeric}.

(** What the code passes to [print]. *)
Inductive printed : Type :=
  | PrintR (R : list num)
  | PrintStateList (l : list State)
  | PrintP (P : list (list num))
  | PrintA (gamma : num) (P : list (list num))
  | PrintText (msg : string)
  | PrintStates (l : list State)
  | PrintProbs (l : list num).

(** The items printed so far and the outcome. *)
Definition io (X : Type) : Type := list printed * res X.

Definition io_bind {X Y : Type} (k : X → io Y) (c : io X) : io Y :=
  match c with
  | (out, Ok x) => let '(out', r) := k x in (out ++ out', r)
  | (out, Raise e) => (out, Raise e)
  end.

Definition print (p : printed) : io unit := ([p], Ok ()).
Definition lift {X : Type} (c : res X) : io X := ([], c).
End io.
Arguments printed : clear implicits.
Arguments printed State {_}.
Arguments io : clear implicits.
Arguments io State {_} X.

#[global] Instance io_mbind {State} `{Numeric} : MBind (io State) := @io_bind State _.
#[global] Instance io_mret {State} `{Numeric} : MRet (io State) := λ X x, ([], Ok x).

(** ** The Markov reward process, src/process/mrp.py

    [State] is the type variable [S] of the source. *)

Module MRP.
Section mrp.
Context {State : Type} `{EqDecision State} `{Runtime}.

(** The two input encodings, [Union[SSTff, STSff]]:
    source -> {destination: (probability, reward)} and
    source -> ({destination: probability}, reward). *)
Inductive mrp_input : Type :=
  | SSTff (d : dict State (dict State (num * num)))
  | STSff (d : dict State (dict State num * num)).

(** [mrp_input.keys()] *)
Definition input_keys (inp : mrp_input) : list State :=
  match inp with
  | SSTff d => keys d
  | STSff d => keys d
  end.

Record t : Type := {
  type_indicator : bool;
  gamma : num;
  terminal_states : list State;
  non_terminal_states : list State;
  state_transition_matrix : dict State (dict State num);
  reward_matrix : dict State (dict State num);
  reward_function : dict State num;
  value_function : dict State num;
}.

(** [input_type]: [True] if SSTff, [False] if STSff; the first value is
    a [dict] exactly in the first encoding.  The methods below branch on
    [self.type_indicator]; as it is [True] exactly on [SSTff], that
    branch is the match on the encoding. *)
Definition input_type (inp : mrp_input) : res bool :=
  match inp with
  | SSTff d => _ ← first_key d; Ok true
  | STSff d => _ ← first_key d; Ok false
  end.

(** The test of [_categorize_states] on one state:
    [mrp_input.get(s).get(s) is not None and mrp_input.get(s).get(s)[0] == 1],
    respectively [mrp_input.get(s)[0].get(s, 0) == 1]. *)
Definition self_loop (inp : mrp_input) (s : State) : res bool :=
  match inp with
  | SSTff d =>
      row ← attr_of (get s d);
      Ok (match get s row with
          | Some (p, _) => is_one p
          | None => false
          end)
  | STSff d =>
      '(row, _) ← item_of (get s d);
      Ok (match get s row with
          | Some p => is_one p
          | None => false (* 0 == 1 *)
          end)
  end.

Fixpoint categorize_loop (inp : mrp_input) (all_states : list State)
    (terminal non_terminal : list State) : res (list State * list State) :=
  match all_states with
  | [] => Ok (terminal, non_terminal)
  | s :: rest =>
      b ← self_loop inp s;
      if b : bool then categorize_loop inp rest (terminal ++ [s]) non_terminal
      else categorize_loop inp rest terminal (non_terminal ++ [s])
  end.

Definition _categorize_states (inp : mrp_input) : res (list State * list State) :=
  let all_states := input_keys inp in
  categorize_loop inp all_states [] [].

(** The inner loop of the first branch of [_assign_transition_matrix]:
    [for s2 in mrp_input.get(s1)]. *)
Fixpoint split_row (row : dict State (num * num)) (dests : list State)
    (state_value reward_value : dict State num)
    : res (dict State num * dict State num) :=
  match dests with
  | [] => Ok (state_value, reward_value)
  | s2 :: rest =>
      '(p, r) ← item_of (get s2 row);
      split_row row rest (update s2 p state_value) (update s2 r reward_value)
  end.

(** The inner loop of the second branch: [for s2 in mrp_input], over the
    source keys of the whole input. *)
Fixpoint shared_row (d : dict State (dict State num * num)) (s1 : State)
    (sources : list State) (reward_value : dict State num)
    : res (dict State num) :=
  match sources with
  | [] => Ok reward_value
  | s2 :: rest =>
      '(_, r) ← item_of (get s1 d);
      shared_row d s1 rest (update s2 r reward_value)
  end.

Fixpoint assign_loop (inp : mrp_input) (non_terminal : list State)
    (stm rm : dict State (dict State num))
    : res (dict State (dict State num) * dict State (dict State num)) :=
  match non_terminal with
  | [] => Ok (stm, rm)
  | s1 :: rest =>
      match inp with
      | SSTff d =>
          row ← item_of (get s1 d);
          '(state_value, reward_value) ← split_row row (keys row) [] [];
          assign_loop inp rest (update s1 state_value stm) (update s1 reward_value rm)
      | STSff d =>
          '(row, _) ← item_of (get s1 d);
          let stm := update s1 row stm in
          reward_value ← shared_row d s1 (keys d) [];
          assign_loop inp rest stm (update s1 reward_value rm)
      end
  end.

Definition _assign_transition_matrix (inp : mrp_input) (non_terminal : list State)
    : res (dict State (dict State num) * dict State (dict State num)) :=
  assign_loop inp non_terminal [] [].

(** The inner loop of [_assign_reward_function]. *)
Fixpoint expected_loop (stm rm : dict State (dict State num))
    (current_state : State) (nexts : list State) (expected_reward : num) : res num :=
  match nexts with
  | [] => Ok expected_reward
  | next_state :: rest =>
      prow ← attr_of (get current_state stm);
      rrow ← attr_of (get current_state rm);
      expected_loop stm rm current_state rest
        (fadd expected_reward
           (fmul (default fzero (get next_state prow))
                 (default fzero (get next_state rrow))))
  end.

Fixpoint reward_loop (stm rm : dict State (dict State num))
    (currents : list State) (reward_list : dict State num) : res (dict State num) :=
  match currents with
  | [] => Ok reward_list
  | current_state :: rest =>
      prow ← item_of (get current_state stm);
      expected_reward ← expected_loop stm rm current_state (keys prow) fzero;
      reward_loop stm rm rest (update current_state (round5 expected_reward) reward_list)
  end.

Definition _assign_reward_function (stm rm : dict State (dict State num))
    : res (dict State num) :=
  reward_loop stm rm (keys rm) [].

(** [P[index1, index2]] of [_assign_value_function] *)
Fixpoint P_row (prow : dict State num) (cols : list State) : list num :=
  match cols with
  | [] => []
  | s2 :: rest => default fzero (get s2 prow) :: P_row prow rest
  end.

Fixpoint P_rows (stm : dict State (dict State num)) (rows cols : list State)
    : res (list (list num)) :=
  match rows with
  | [] => Ok []
  | s1 :: rest =>
      prow ← attr_of (get s1 stm);
      m ← P_rows stm rest cols;
      Ok (P_row prow cols :: m)
  end.

Definition P_matrix (stm : dict State (dict State num)) (non_terminal : list State)
    : res (list (list num)) :=
  P_rows stm non_terminal non_terminal.

(** [{state: float(value) for state, value in zip(states, values)}] *)
Fixpoint dict_of_zip (states : list State) (values : list num)
    (vf : dict State num) : dict State num :=
  match states, values with
  | state :: states', value :: values' =>
      dict_of_zip states' values' (update state value vf)
  | _, _ => vf
  end.

Definition singular_warning : string :=
  "matrix not invertible, will use least square, but most likely result may be incorrect".

(** The errors the handler recovers from: a [LinAlgError] whose text
    has ['Singular matrix'] in it. *)
Definition is_singular_error (e : exn) : bool :=
  match e with
  | LinAlgError msg => contains "Singular matrix" msg
  | _ => false
  end.

(** The [try ... except np.linalg.LinAlgError as err] of
    [_assign_value_function]. *)
Definition solve_or_lstsq (g : num) (P : list (list num)) (R : list num)
    : io State (list num) :=
  match linalg_solve g P R with
  | Ok V => mret V
  | Raise (LinAlgError msg) =>
      if contains "Singular matrix" msg then
        _ ← print (PrintText singular_warning);
        lift (linalg_lstsq g P R)
      else lift (Raise (LinAlgError msg))
  | Raise e => lift (Raise e)
  end.

Definition _assign_value_function (g : num) (non_terminal : list State)
    (stm : dict State (dict State num)) (rf : dict State num)
    : io State (dict State num) :=
  let R := values rf in
  _ ← print (PrintR R);
  _ ← print (PrintStateList non_terminal);
  P ← lift (P_matrix stm non_terminal);
  _ ← print (PrintP P);
  _ ← print (PrintA g P);
  V ← solve_or_lstsq g P R;
  it ← lift (nditer V);
  mret (dict_of_zip non_terminal it []).

Definition __init__ (inp : mrp_input) (discount_factor : num) : io State t :=
  ti ← lift (input_type inp);
  '(terminal, non_terminal) ← lift (_categorize_states inp);
  '(stm, rm) ← lift (_assign_transition_matrix inp non_terminal);
  rf ← lift (_assign_reward_function stm rm);
  vf ← _assign_value_function discount_factor non_terminal stm rf;
  mret {| type_indicator := ti; gamma := discount_factor;
          terminal_states := terminal; non_terminal_states := non_terminal;
          state_transition_matrix := stm; reward_matrix := rm;
          reward_function := rf; value_function := vf |}.

(** The destinations the input records for a source state. *)
Definition destinations (inp : mrp_input) (s : State) : option (list State) :=
  match inp with
  | SSTff d => option_map keys (get s d)
  | STSff d => option_map (λ v, keys v.1) (get s d)
  end.

(** The undeclared successors in the words of the specification: every
    destination that is not a source key is a terminal state. *)
Definition successors_terminal (inp : mrp_input) (self : t) : Prop :=
  ∀ s s1 dests, destinations inp s = Some dests → s1 ∈ dests →
    s1 ∉ input_keys inp → s1 ∈ terminal_states self.

(** The full state set of the process in the words of the specification:
    the source keys of the input and, with them, the destinations of its
    entries. *)
Definition full_state_set (inp : mrp_input) (s : State) : Prop :=
  s ∈ input_keys inp ∨ ∃ s0 dests, destinations inp s0 = Some dests ∧ s ∈ dests.

(** The partition in the words of the specification: the two lists have
    no duplicates, share no state, and their union is the full state set. *)
Definition partition_of_full_state_set (inp : mrp_input) (self : t) : Prop :=
  NoDup (terminal_states self)
  ∧ NoDup (non_terminal_states self)
  ∧ (∀ s, s ∈ terminal_states self → s ∉ non_terminal_states self)
  ∧ (∀ s, full_state_set inp s ↔
          s ∈ terminal_states self ∨ s ∈ non_terminal_states self).

(** *** Queries and sampling *)

(** R(s) *)
Definition get_expected_reward (self : t) (state : State) : option num :=
  get state (reward_function self).

(** r(s, s') *)
Definition get_state_transition_reward (self : t) (current_state next_state : State)
    : res num :=
  row ← attr_of (get current_state (reward_matrix self));
  Ok (default fzero (get next_state row)).

(** v(s) *)
Definition get_value (self : t) (state : State) : option num :=
  get state (value_function self).

(** One turn of the [while] loop of [get_random_sample]: the state drawn,
    the return so far and the generator. *)
Definition sample_step (self : t) (g : rng) (state : State) (ret : num) (ts : nat)
    : io State (State * num * rng) :=
  r ← lift (item_of (get_expected_reward self state));
  let ret := fadd ret (fmul (fpow (gamma self) ts) r) in
  row ← lift (attr_of (get state (state_transition_matrix self)));
  let next_state_lst := keys row in
  _ ← print (PrintStates next_state_lst);
  let pr_list := values row in
  _ ← print (PrintProbs pr_list);
  '(i, g) ← lift (np_random_choice g (length next_state_lst) pr_list);
  next ← lift (match next_state_lst !! i with
               | Some s => Ok s
               | None => Raise ValueError
               end);
  mret (next, ret, g).

(** The [while] loop, bounded by [fuel] turns: [None] when the bound is
    reached with the state still non-terminal. *)
Fixpoint sample_loop (fuel : nat) (self : t) (g : rng) (state : State)
    (sample : list State) (ret : num) (ts : nat)
    : option (io State (list State * num)) :=
  if decide (state ∈ non_terminal_states self) then
    match fuel with
    | O => None
    | S fuel' =>
        let sample := sample ++ [state] in
        match sample_step self g state ret ts with
        | (out, Raise e) => Some (out, Raise e)
        | (out, Ok (next, ret, g)) =>
            match sample_loop fuel' self g next sample ret (S ts) with
            | Some (out', r) => Some (out ++ out', r)
            | None => None
            end
        end
    end
  else Some (mret (sample ++ [state], ret)).

Definition get_random_sample (fuel : nat) (self : t) (g : rng)
    (initial_state : option State) : option (io State (list State * num)) :=
  match initial_state with
  | Some state => sample_loop fuel self g state [] fzero 0
  | None =>
      let candidates := non_terminal_states self ++ terminal_states self in
      let '(i, g) := random_choice g (length candidates) in
      match candidates !! i with
      | Some state => sample_loop fuel self g state [] fzero 0
      | None => Some (lift (Raise IndexError))
      end
  end.
End mrp.
End MRP.

(** ** The Markov decision process, src/process/mdp.py

    [State] and [Action] are the type variables [S] and [A] of the source. *)

Module MDP.
Section mdp.
Context {State Action : Type} `{EqDecision State} `{EqDecision Action} `{Numeric}.

(** The two input encodings, [Union[SASTff, SATSff]]. *)
Inductive mdp_input : Type :=
  | SASTff (d : dict (State * Action) (dict State (num * num)))
  | SATSff (d : dict (State * Action) (dict State num * num)).

(** [for sa_tuple in mdp_input] *)
Definition input_keys (inp : mdp_input) : list (State * Action) :=
  match inp with
  | SASTff d => keys d
  | SATSff d => keys d
  end.

(** The tuples the code uses as keys of the stored matrices: the pair
    [(s, a)] when it fills and queries them, the triple [(s, a, s1)] in
    [get_mrp].  Tuples of different lengths are different keys. *)
Inductive tuple_key : Type :=
  | Pair (s : State) (a : Action)
  | Triple (s : State) (a : Action) (s1 : State).

#[global] Instance tuple_key_eq_dec : EqDecision tuple_key.
Proof. solve_decision. Defined.

Definition pair_key (sa : State * Action) : tuple_key := Pair sa.1 sa.2.

Definition matrix : Type := dict tuple_key (dict State num).

Record t : Type := {
  type_indicator : bool;
  gamma : num;
  all_states : list State;
  all_actions : list Action;
  terminal_states : list State;
  non_terminal_states : list State;
  transition_matrix : matrix * matrix;
}.

Definition input_type (inp : mdp_input) : res bool :=
  match inp with
  | SASTff d => _ ← first_key d; Ok true
  | SATSff d => _ ← first_key d; Ok false
  end.

Fixpoint states_actions_loop (sa_tuples : list (State * Action))
    (state_list : list State) (action_list : list Action)
    : list State * list Action :=
  match sa_tuples with
  | [] => (state_list, action_list)
  | sa_tuple :: rest =>
      let state_list :=
        if decide (sa_tuple.1 ∈ state_list) then state_list
        else state_list ++ [sa_tuple.1] in
      let action_list :=
        if decide (sa_tuple.2 ∈ action_list) then action_list
        else action_list ++ [sa_tuple.2] in
      states_actions_loop rest state_list action_list
  end.

Definition _get_all_states_and_actions (inp : mdp_input) : list State * list Action :=
  states_actions_loop (input_keys inp) [] [].

(** [l.remove(x)] for an [x] that is in [l]: the first occurrence goes. *)
Fixpoint list_remove (x : State) (l : list State) : list State :=
  match l with
  | [] => []
  | y :: l' => if decide (x = y) then l' else y :: list_remove x l'
  end.

(** [for s1 in row: if (s1 not in self.all_states) and (s1 not in temp):
    temp.append(s1)] *)
Fixpoint collect_new (all_states : list State) (dests : list State)
    (temp : list State) : list State :=
  match dests with
  | [] => temp
  | s1 :: rest =>
      collect_new all_states rest
        (if decide ((s1 ∉ all_states) ∧ (s1 ∉ temp)) then temp ++ [s1] else temp)
  end.

(** The destinations recorded for the key [(s, a)], and the test
    [row.get(s) is None or row.get(s)[0] != 1], respectively
    [row.get(s, 0) != 1], that takes [s] out of the terminal states. *)
Definition destinations (inp : mdp_input) (sa : State * Action) : res (list State) :=
  match inp with
  | SASTff d => row ← item_of (get sa d); Ok (keys row)
  | SATSff d => '(row, _) ← item_of (get sa d); Ok (keys row)
  end.

Definition leaves (inp : mdp_input) (sa : State * Action) : res bool :=
  match inp with
  | SASTff d =>
      row ← attr_of (get sa d);
      Ok (match get sa.1 row with
          | None => true
          | Some (p, _) => negb (is_one p)
          end)
  | SATSff d =>
      '(row, _) ← item_of (get sa d);
      Ok (match get sa.1 row with
          | None => true (* 0 != 1 *)
          | Some p => negb (is_one p)
          end)
  end.

Fixpoint categorize_loop (inp : mdp_input) (all_states : list State)
    (sa_tuples : list (State * Action))
    (terminal non_terminal temp : list State)
    : res (list State * list State * list State) :=
  match sa_tuples with
  | [] => Ok (terminal, non_terminal, temp)
  | sa :: rest =>
      dests ← destinations inp sa;
      let temp := collect_new all_states dests temp in
      b ← leaves inp sa;
      if (b : bool) && bool_decide (sa.1 ∈ terminal) then
        categorize_loop inp all_states rest
          (list_remove sa.1 terminal) (non_terminal ++ [sa.1]) temp
      else categorize_loop inp all_states rest terminal non_terminal temp
  end.

(** Returns [self.all_states] as the method leaves it
    ([self.all_states += temp]) together with the two lists it returns. *)
Definition _categorize_states (inp : mdp_input) (all_states : list State)
    : res (list State * list State * list State) :=
  '(terminal, non_terminal, temp) ←
    categorize_loop inp all_states (input_keys inp) all_states [] [];
  Ok (all_states ++ temp, terminal ++ temp, non_terminal).

Fixpoint split_row (row : dict State (num * num)) (dests : list State)
    (state_value reward_value : dict State num)
    : res (dict State num * dict State num) :=
  match dests with
  | [] => Ok (state_value, reward_value)
  | s2 :: rest =>
      '(p, r) ← item_of (get s2 row);
      split_row row rest (update s2 p state_value) (update s2 r reward_value)
  end.

(** A local variable that is read: bound or not. *)
Definition read_local {X : Type} (var : string) (v : option X) : res X :=
  match v with
  | Some x => Ok x
  | None => Raise (UnboundLocalError var)
  end.

(** The loop of the first branch of [_assign_transition_matrix].  The two
    [update] calls stand outside the [if]: [state_value] and
    [reward_value] are the locals as the last non-terminal key left them,
    and unbound before the first such key. *)
Fixpoint assign_loop_fine (d : dict (State * Action) (dict State (num * num)))
    (terminal : list State) (sa_tuples : list (State * Action))
    (stm rm : matrix) (state_value reward_value : option (dict State num))
    : res (matrix * matrix) :=
  match sa_tuples with
  | [] => Ok (stm, rm)
  | sa_tuple :: rest =>
      '(state_value, reward_value) ←
        (if decide (sa_tuple.1 ∉ terminal) then
           row ← item_of (get sa_tuple d);
           '(sv, rv) ← split_row row (keys row) [] [];
           Ok (Some sv, Some rv)
         else Ok (state_value, reward_value));
      sv ← read_local "state_value" state_value;
      let stm := update (pair_key sa_tuple) sv stm in
      rv ← read_local "reward_value" reward_value;
      let rm := update (pair_key sa_tuple) rv rm in
      assign_loop_fine d terminal rest stm rm state_value reward_value
  end.

Fixpoint shared_row (d : dict (State * Action) (dict State num * num))
    (sa_tuple : State * Action) (dests : list State) (reward_value : dict State num)
    : res (dict State num) :=
  match dests with
  | [] => Ok reward_value
  | s2 :: rest =>
      '(_, r) ← item_of (get sa_tuple d);
      shared_row d sa_tuple rest (update s2 r reward_value)
  end.

Fixpoint assign_loop_shared (d : dict (State * Action) (dict State num * num))
    (terminal : list State) (sa_tuples : list (State * Action))
    (stm rm : matrix) : res (matrix * matrix) :=
  match sa_tuples with
  | [] => Ok (stm, rm)
  | sa_tuple :: rest =>
      if decide (sa_tuple.1 ∉ terminal) then
        '(row, _) ← item_of (get sa_tuple d);
        let stm := update (pair_key sa_tuple) row stm in
        '(row', _) ← item_of (get sa_tuple d);
        reward_value ← shared_row d sa_tuple (keys row') [];
        assign_loop_shared d terminal rest stm (update (pair_key sa_tuple) reward_value rm)
      else assign_loop_shared d terminal rest stm rm
  end.

Definition _assign_transition_matrix (inp : mdp_input) (terminal : list State)
    : res (matrix * matrix) :=
  match inp with
  | SASTff d => assign_loop_fine d terminal (keys d) [] [] None None
  | SATSff d => assign_loop_shared d terminal (keys d) [] []
  end.

Definition __init__ (inp : mdp_input) (discount_factor : num) : res t :=
  ti ← input_type inp;
  let '(state_list, action_list) := _get_all_states_and_actions inp in
  '(all, terminal, non_terminal) ← _categorize_states inp state_list;
  tm ← _assign_transition_matrix inp terminal;
  Ok {| type_indicator := ti; gamma := discount_factor;
        all_states := all; all_actions := action_list;
        terminal_states := terminal; non_terminal_states := non_terminal;
        transition_matrix := tm |}.

(** *** Reduction under a policy, and queries *)

(** [policy.get_state_action_probability], not part of the repository. *)
Definition Policy : Type := State → Action → res num.

(** One summand, [m[(s, a, s1)] * policy.get_state_action_probability(s, a)]:
    the subscript, then the call, then the product; an entry of [m] is a
    [dict], which has no product with a number. *)
Definition summand (m : matrix) (policy : Policy) (s : State) (s1 : State)
    (a : Action) : res num :=
  row ← getitem (Triple s a s1) m;
  pr ← policy s a;
  Raise TypeError.

(** [sum([... for a in self.all_actions])] *)
Fixpoint summands (m : matrix) (policy : Policy) (s s1 : State)
    (actions : list Action) : res (list num) :=
  match actions with
  | [] => Ok []
  | a :: rest =>
      x ← summand m policy s s1 a;
      xs ← summands m policy s s1 rest;
      Ok (x :: xs)
  end.

Definition sum (xs : list num) : num := foldl fadd fzero xs.

Definition pair_matrix : Type := dict (State * State) num.

Fixpoint get_mrp_inner (self : t) (policy : Policy) (s : State)
    (dests : list State) (mp mr : pair_matrix) : res (pair_matrix * pair_matrix) :=
  match dests with
  | [] => Ok (mp, mr)
  | s1 :: rest =>
      ps ← summands (transition_matrix self).1 policy s s1 (all_actions self);
      let mp := update (s, s1) (sum ps) mp in
      rs ← summands (transition_matrix self).2 policy s s1 (all_actions self);
      let mr := update (s, s1) (sum rs) mr in
      get_mrp_inner self policy s rest mp mr
  end.

Fixpoint get_mrp_outer (self : t) (policy : Policy) (sources : list State)
    (mp mr : pair_matrix) : res (pair_matrix * pair_matrix) :=
  match sources with
  | [] => Ok (mp, mr)
  | s :: rest =>
      '(mp, mr) ← get_mrp_inner self policy s (all_states self) mp mr;
      get_mrp_outer self policy rest mp mr
  end.

Definition get_mrp (self : t) (policy : Policy) : res (pair_matrix * pair_matrix) :=
  get_mrp_outer self policy (all_states self) [] [].

(** [None] is the value [None] of Python. *)
Definition query_Pr (self : t) (s : State) (a : Action) (s1 : State)
    : res (option num) :=
  row ← attr_of (get (Pair s a) (transition_matrix self).1);
  Ok (get s1 row).

Definition query_R (self : t) (s : State) (a : option Action)
    : res (option (dict State num)) :=
  a ← match a with
      | Some a => Ok a
      | None =>
          match all_actions self with
          | a :: _ => Ok a
          | [] => Raise IndexError
          end
      end;
  Ok (get (Pair s a) (transition_matrix self).2).

Definition query_successor (self : t) (s : State) (a : Action) : res (list State) :=
  match all_states self with
  | [] => Ok []
  | _ =>
      row ← attr_of (get (Pair s a) (transition_matrix self).1);
      Ok (filter (λ s1, s1 ∈ keys row) (all_states self))
  end.

(** *** Vocabulary of the statements *)

(** The probability the input records for staying in [s] under the key
    [(s, a)], if any. *)
Definition self_probability (inp : mdp_input) (sa : State * Action) : option num :=
  match inp with
  | SASTff d =>
      match get sa d with
      | Some row => option_map fst (get sa.1 row)
      | None => None
      end
  | SATSff d =>
      match get sa d with
      | Some (row, _) => get sa.1 row
      | None => None
      end
  end.

Definition certain_self_loop (inp : mdp_input) (sa : State * Action) : bool :=
  match self_probability inp sa with
  | Some p => is_one p
  | None => false
  end.

(** The destination-probability map the input records for a key. *)
Definition probability_map (inp : mdp_input) (sa : State * Action)
    : option (dict State num) :=
  match inp with
  | SASTff d =>
      match get sa d with
      | Some row => Some (map (λ '(s1, (p, _)), (s1, p)) row)
      | None => None
      end
  | SATSff d => option_map fst (get sa d)
  end.

(** The states that occur as a destination in an entry of the input. *)
Definition is_destination (inp : mdp_input) (s1 : State) : Prop :=
  ∃ sa dests, destinations inp sa = Ok dests ∧ s1 ∈ dests.

(** The states that occur as the source of a key. *)
Definition is_source (inp : mdp_input) (s : State) : Prop :=
  s ∈ (input_keys inp).*1.

(** The classification in the words of the specification: terminal if
    and only if, for some declared action, the destination-probability
    map is [{s: 1.0}]. *)
Definition terminal_iff_some_action (inp : mdp_input) (self : t) : Prop :=
  ∀ s, s ∈ all_states self →
    (s ∈ terminal_states self ↔
       ∃ a p, (s, a) ∈ input_keys inp ∧ is_one p = true
              ∧ probability_map inp (s, a) = Some [(s, p)]).

(** The query on a key that is not stored, in the words of the
    specification: an absent result. *)
Definition unknown_query_absent (self : t) : Prop :=
  ∀ s a s1, Pair s a ∉ keys (transition_matrix self).1 →
    query_Pr self s a s1 = Ok None.
End mdp.
End MDP.

(** ** A runtime for the examples

    Exact rational arithmetic, and the linear systems [(I - gamma P) v = r].
    With at most two unknowns they are solved by Cramer's rule when the
    determinant is not [0], singular otherwise; the least-squares solution
    of least norm of a singular system is [0] for the zero matrix and
    [A^T r / |A|^2] for a matrix of rank one.  With more unknowns they are
    solved by elimination.  [np.nditer] refuses an array without elements.
    The generators always draw the first element. *)

Module Reference.
Definition round_half_even5 (q : Q) : Q :=
  let n := (Qnum q * 100000)%Z in
  let d := Zpos (Qden q) in
  let f := (n / d)%Z in
  let r := (n mod d)%Z in
  let k := if (2 * r <? d)%Z then f
           else if (d <? 2 * r)%Z then (f + 1)%Z
           else if Z.even f then f else (f + 1)%Z in
  Qred (k # 100000).

Definition Q_numeric : Numeric := {|
  num := Q;
  is_one q := Qeq_bool q 1;
  fzero := 0%Q;
  fadd x y := Qred (x + y);
  fmul x y := Qred (x * y);
  fpow x n := Qred (x ^ Z.of_nat n);
  round5 := round_half_even5;
|}.

(** The matrix [I - gamma P] of a system with one or two unknowns. *)
Inductive system : Type :=
  | Sys0
  | Sys1 (a r : Q)
  | Sys2 (a11 a12 a21 a22 r1 r2 : Q)
  | SysBig.

Definition system_of (g : Q) (P : list (list Q)) (R : list Q) : system :=
  match P, R with
  | [], [] => Sys0
  | [[p]], [r] => Sys1 (1 - g * p) r
  | [[p11; p12]; [p21; p22]], [r1; r2] =>
      Sys2 (1 - g * p11) (- (g * p12)) (- (g * p21)) (1 - g * p22) r1 r2
  | _, _ => SysBig
  end.

Definition det2 (a11 a12 a21 a22 : Q) : Q := a11 * a22 - a12 * a21.

Definition cramer2 (a11 a12 a21 a22 r1 r2 : Q) : list Q :=
  let d := det2 a11 a12 a21 a22 in
  [Qred ((r1 * a22 - a12 * r2) / d); Qred ((a11 * r2 - r1 * a21) / d)].

(** Systems with three unknowns or more, by elimination over the
    rationals.  [reduce] brings the rows to reduced echelon form over the
    columns [cols]: it returns the rows that got a pivot, in the order of
    their pivots, and the pivot columns.  numpy picks the pivot of largest
    magnitude; over the rationals the choice does not change the result. *)
Definition entry (k : nat) (r : list Q) : Q := nth k r 0%Q.

Fixpoint find_pivot (k : nat) (todo : list (list Q))
    : option (list Q * list (list Q)) :=
  match todo with
  | [] => None
  | r :: rest =>
      if Qeq_bool (entry k r) 0 then
        match find_pivot k rest with
        | Some (p, others) => Some (p, r :: others)
        | None => None
        end
      else Some (r, rest)
  end.

Definition clear_column (k : nat) (p r : list Q) : list Q :=
  zip_with (λ x y, Qred (y - entry k r * x)) p r.

Fixpoint reduce (cols : list nat) (done todo : list (list Q)) (pivots : list nat)
    : list (list Q) * list nat :=
  match cols with
  | [] => (done, pivots)
  | k :: cols' =>
      match find_pivot k todo with
      | None => reduce cols' done todo pivots
      | Some (p, others) =>
          let p := map (λ x, Qred (x / entry k p)) p in
          reduce cols' (map (clear_column k p) done ++ [p])
            (map (clear_column k p) others) (pivots ++ [k])
      end
  end.

(** The solution of [M x = v] for a square [M], when [M] has full rank. *)
Definition gauss (M : list (list Q)) (v : list Q) : option (list Q) :=
  let n := length M in
  let '(done, pivots) :=
    reduce (seq 0 n) [] (zip_with (λ row x, row ++ [x]) M v) [] in
  if decide (length pivots = n) then Some (map (entry n) done) else None.

Definition dot (u v : list Q) : Q :=
  Qred (fold_right Qplus 0%Q (zip_with Qmult u v)).

(** [M M^T] *)
Definition gram (M : list (list Q)) : list (list Q) :=
  map (λ a, map (dot a) M) M.

(** [np.eye(sz) - gamma * P] *)
Definition A_matrix (g : Q) (P : list (list Q)) : list (list Q) :=
  imap (λ i row,
          imap (λ j p, Qred ((if decide (i = j) then 1 else 0) - g * p)) row) P.

Definition solve_general (g : Q) (P : list (list Q)) (R : list Q) : res (list Q) :=
  if decide (length R = length P) then
    match gauss (A_matrix g P) R with
    | Some V => Ok V
    | None => Raise (LinAlgError "Singular matrix")
    end
  else Raise ValueError.

(** The least-squares solution of least norm, [F^T (F F^T)^-1 (C^T C)^-1 C^T R]
    for the factorization [A = C F] of [A] into its pivot columns [C] and
    the rows [F] of its reduced echelon form: the solution itself when [A]
    has full rank.  Both Gram matrices have full rank. *)
Definition lstsq_general (g : Q) (P : list (list Q)) (R : list Q) : res (list Q) :=
  if decide (length R = length P) then
    let A := A_matrix g P in
    let n := length A in
    let '(F, pivots) := reduce (seq 0 n) [] A [] in
    let Ct := map (λ k, map (entry k) A) pivots in
    let y := default [] (gauss (gram Ct) (map (λ c, dot c R) Ct)) in
    let z := default [] (gauss (gram F) y) in
    Ok (map (λ j, dot (map (entry j) F) z) (seq 0 n))
  else Raise (LinAlgError "Incompatible dimensions").

Definition solve_small (g : Q) (P : list (list Q)) (R : list Q) : res (list Q) :=
  match system_of g P R with
  | Sys0 => Ok []
  | Sys1 a r =>
      if Qeq_bool a 0 then Raise (LinAlgError "Singular matrix")
      else Ok [Qred (r / a)]
  | Sys2 a11 a12 a21 a22 r1 r2 =>
      if Qeq_bool (det2 a11 a12 a21 a22) 0 then Raise (LinAlgError "Singular matrix")
      else Ok (cramer2 a11 a12 a21 a22 r1 r2)
  | SysBig => solve_general g P R
  end.

Definition lstsq_small (g : Q) (P : list (list Q)) (R : list Q) : res (list Q) :=
  match system_of g P R with
  | Sys0 => Ok []
  | Sys1 a r => if Qeq_bool a 0 then Ok [0%Q] else Ok [Qred (r / a)]
  | Sys2 a11 a12 a21 a22 r1 r2 =>
      if Qeq_bool (det2 a11 a12 a21 a22) 0 then
        let n := (a11 * a11 + a12 * a12 + a21 * a21 + a22 * a22)%Q in
        if Qeq_bool n 0 then Ok [0%Q; 0%Q]
        else Ok [Qred ((a11 * r1 + a21 * r2) / n); Qred ((a12 * r1 + a22 * r2) / n)]
      else Ok (cramer2 a11 a12 a21 a22 r1 r2)
  | SysBig => lstsq_general g P R
  end.

Definition nditer_nonempty (V : list Q) : res (list Q) :=
  match V with
  | [] => Raise ValueError
  | _ => Ok V
  end.

Definition Q_runtime : @Runtime Q_numeric :=
  @Build_Runtime Q_numeric solve_small lstsq_small nditer_nonempty unit
    (λ g n, (0, g)) (λ g n pr, Ok (0, g)).
End Reference.

(** ** Inputs of the examples

    States are numbers and actions are strings, as in the examples at the
    end of the two source files. *)

Module Examples.
Import Reference.
#[local] Existing Instances Q_numeric Q_runtime.

Definition mrp_in : Type := MRP.mrp_input (State:=nat).
Definition mdp_in : Type := MDP.mdp_input (State:=nat) (Action:=string).

(** [input1] and [input2] of mrp.py. *)
Definition mrp_input1 : mrp_in :=
  MRP.STSff [(1, ([(1, 6#10); (2, 3#10); (3, 1#10)], 7%Q));
             (2, ([(1, 1#10); (2, 2#10); (3, 7#10)], 10%Q));
             (3, ([(3, 1%Q)], 0%Q))].

Definition mrp_input2 : mrp_in :=
  MRP.SSTff [(1, [(1, (6#10, 7%Q)); (2, (3#10, 7%Q)); (3, (1#10, 7%Q))]);
             (2, [(1, (1#10, 10%Q)); (2, (2#10, 10%Q)); (3, (7#10, 10%Q))]);
             (3, [(3, (1%Q, 0%Q))])].

(** One process in the two encodings: from 1 to 2 with reward 5, and 2
    absorbing. *)
Definition mrp_shared : mrp_in :=
  MRP.STSff [(1, ([(2, 1%Q)], 5%Q)); (2, ([(2, 1%Q)], 0%Q))].

Definition mrp_fine : mrp_in :=
  MRP.SSTff [(1, [(2, (1%Q, 5%Q))]); (2, [(2, (1%Q, 0%Q))])].

(** One process in the two encodings: from 1 to 3 with reward 5, and 3
    not a key. *)
Definition mrp_open_shared : mrp_in := MRP.STSff [(1, ([(3, 1%Q)], 5%Q))].
Definition mrp_open_fine : mrp_in := MRP.SSTff [(1, [(3, (1%Q, 5%Q))])].


(** A chain of three non-terminal states that ends in the absorbing
    state 4, with reward 1 for the last step. *)
Definition mrp_chain : mrp_in :=
  MRP.STSff [(1, ([(2, 1%Q)], 0%Q)); (2, ([(3, 1%Q)], 0%Q));
             (3, ([(4, 1%Q)], 1%Q)); (4, ([(4, 1%Q)], 0%Q))].

(** [input1] and [input2] of mdp.py. *)
Definition input1 : dict (nat * string) (dict nat Q * Q) :=
  [((1, "a"), ([(1, 3#10); (2, 6#10); (3, 1#10)], 5%Q));
   ((1, "b"), ([(2, 3#10); (3, 7#10)], 28#10));
   ((1, "c"), ([(1, 2#10); (2, 4#10); (3, 4#10)], -72#10));
   ((2, "a"), ([(1, 3#10); (2, 6#10); (3, 1#10)], 5%Q));
   ((2, "c"), ([(1, 2#10); (2, 4#10); (3, 4#10)], -72#10));
   ((3, "a"), ([(3, 1%Q)], 0%Q));
   ((3, "b"), ([(3, 1%Q)], 0%Q))].

Definition mdp_input1 : mdp_in := MDP.SATSff input1.

Definition mdp_input2 : mdp_in :=
  MDP.SASTff [((1, "a"), [(1, (3#10, 5%Q)); (2, (6#10, 5%Q)); (3, (1#10, 5%Q))]);
              ((1, "b"), [(2, (3#10, 28#10)); (3, (7#10, 28#10))]);
              ((1, "c"), [(1, (2#10, -72#10)); (2, (4#10, -72#10)); (3, (4#10, -72#10))]);
              ((2, "a"), [(1, (3#10, 5%Q)); (2, (6#10, 5%Q)); (3, (1#10, 5%Q))]);
              ((2, "c"), [(1, (2#10, -72#10)); (2, (4#10, -72#10)); (3, (4#10, -72#10))]);
              ((3, "a"), [(3, (1%Q, 0%Q))]);
              ((3, "b"), [(3, (1%Q, 0%Q))])].

(** State 1 with an action that stays and an action that leaves for 2,
    which is not the source of any key. *)
Definition mdp_stay_or_go : mdp_in :=
  MDP.SATSff [((1, "stay"), ([(1, 1%Q)], 0%Q)); ((1, "go"), ([(2, 1%Q)], 0%Q))].

(** The fine-grained encoding with the absorbing state 2 as its first key. *)
Definition terminal_first : dict (nat * string) (dict nat (Q * Q)) :=
  [((2, "a"), [(2, (1%Q, 0%Q))]); ((1, "a"), [(2, (1%Q, 0%Q))])].

Definition mdp_terminal_first : mdp_in := MDP.SASTff terminal_first.

Definition uniform_policy : MDP.Policy (State:=nat) (Action:=string) :=
  λ _ _, Ok (1#2).

(** What the constructions print and return on some of these inputs. *)
Definition mrp_shared_out : list (printed nat) :=
  [PrintR [5%Q]; PrintStateList [1]; PrintP [[0%Q]]; PrintA 1%Q [[0%Q]]].

Definition mrp_shared_obj : MRP.t (State:=nat) := {|
  MRP.type_indicator := false;
  MRP.gamma := 1%Q;
  MRP.terminal_states := [2];
  MRP.non_terminal_states := [1];
  MRP.state_transition_matrix := [(1, [(2, 1%Q)])];
  MRP.reward_matrix := [(1, [(1, 5%Q); (2, 5%Q)])];
  MRP.reward_function := [(1, 5%Q)];
  MRP.value_function := [(1, 5%Q)];
|}.

Definition mrp_fine_obj : MRP.t (State:=nat) := {|
  MRP.type_indicator := true;
  MRP.gamma := 1%Q;
  MRP.terminal_states := [2];
  MRP.non_terminal_states := [1];
  MRP.state_transition_matrix := [(1, [(2, 1%Q)])];
  MRP.reward_matrix := [(1, [(2, 5%Q)])];
  MRP.reward_function := [(1, 5%Q)];
  MRP.value_function := [(1, 5%Q)];
|}.

Definition mrp_open_shared_out : list (printed nat) :=
  [PrintR [0%Q]; PrintStateList [1]; PrintP [[0%Q]]; PrintA 1%Q [[0%Q]]].

Definition mrp_open_shared_obj : MRP.t (State:=nat) := {|
  MRP.type_indicator := false;
  MRP.gamma := 1%Q;
  MRP.terminal_states := [];
  MRP.non_terminal_states := [1];
  MRP.state_transition_matrix := [(1, [(3, 1%Q)])];
  MRP.reward_matrix := [(1, [(1, 5%Q)])];
  MRP.reward_function := [(1, 0%Q)];
  MRP.value_function := [(1, 0%Q)];
|}.

Definition mrp_open_fine_obj : MRP.t (State:=nat) := {|
  MRP.type_indicator := true;
  MRP.gamma := 1%Q;
  MRP.terminal_states := [];
  MRP.non_terminal_states := [1];
  MRP.state_transition_matrix := [(1, [(3, 1%Q)])];
  MRP.reward_matrix := [(1, [(3, 5%Q)])];
  MRP.reward_function := [(1, 5%Q)];
  MRP.value_function := [(1, 5%Q)];
|}.

Definition mrp_cycle_out : list (printed nat) :=
  [PrintR [0%Q; 0%Q]; PrintStateList [1; 2];
   PrintP [[0%Q; 1%Q]; [1%Q; 0%Q]]; PrintA 1%Q [[0%Q; 1%Q]; [1%Q; 0%Q]];
   PrintText MRP.singular_warning].

Definition row_a : dict nat Q := [(1, 3#10); (2, 6#10); (3, 1#10)].
Definition row_b : dict nat Q := [(2, 3#10); (3, 7#10)].
Definition row_c : dict nat Q := [(1, 2#10); (2, 4#10); (3, 4#10)].
Definition reward_a : dict nat Q := [(1, 5%Q); (2, 5%Q); (3, 5%Q)].
Definition reward_b : dict nat Q := [(2, 28#10); (3, 28#10)].
Definition reward_c : dict nat Q := [(1, -72#10); (2, -72#10); (3, -72#10)].

Definition mdp_input1_obj : MDP.t (State:=nat) (Action:=string) := {|
  MDP.type_indicator := false;
  MDP.gamma := 1%Q;
  MDP.all_states := [1; 2; 3];
  MDP.all_actions := ["a"; "b"; "c"];
  MDP.terminal_states := [3];
  MDP.non_terminal_states := [1; 2];
  MDP.transition_matrix :=
    ([(MDP.Pair 1 "a", row_a); (MDP.Pair 1 "b", row_b); (MDP.Pair 1 "c", row_c);
      (MDP.Pair 2 "a", row_a); (MDP.Pair 2 "c", row_c)],
     [(MDP.Pair 1 "a", reward_a); (MDP.Pair 1 "b", reward_b);
      (MDP.Pair 1 "c", reward_c); (MDP.Pair 2 "a", reward_a);
      (MDP.Pair 2 "c", reward_c)]);
|}.

Definition mdp_input2_obj : MDP.t (State:=nat) (Action:=string) := {|
  MDP.type_indicator := true;
  MDP.gamma := 1%Q;
  MDP.all_states := [1; 2; 3];
  MDP.all_actions := ["a"; "b"; "c"];
  MDP.terminal_states := [3];
  MDP.non_terminal_states := [1; 2];
  MDP.transition_matrix :=
    ([(MDP.Pair 1 "a", row_a); (MDP.Pair 1 "b", row_b); (MDP.Pair 1 "c", row_c);
      (MDP.Pair 2 "a", row_a); (MDP.Pair 2 "c", row_c);
      (MDP.Pair 3 "a", row_c); (MDP.Pair 3 "b", row_c)],
     [(MDP.Pair 1 "a", reward_a); (MDP.Pair 1 "b", reward_b);
      (MDP.Pair 1 "c", reward_c); (MDP.Pair 2 "a", reward_a);
      (MDP.Pair 2 "c", reward_c);
      (MDP.Pair 3 "a", reward_c); (MDP.Pair 3 "b", reward_c)]);
|}.

Definition mdp_stay_or_go_obj : MDP.t (State:=nat) (Action:=string) := {|
  MDP.type_indicator := false;
  MDP.gamma := 1%Q;
  MDP.all_states := [1; 2];
  MDP.all_actions := ["stay"; "go"];
  MDP.terminal_states := [2];
  MDP.non_terminal_states := [1];
  MDP.transition_matrix :=
    ([(MDP.Pair 1 "stay", [(1, 1%Q)]); (MDP.Pair 1 "go", [(2, 1%Q)])],
     [(MDP.Pair 1 "stay", [(1, 0%Q)]); (MDP.Pair 1 "go", [(2, 0%Q)])]);
|}.

(** The inputs without an entry. *)
Definition mrp_empty : mrp_in := MRP.STSff [].
Definition mdp_empty : mdp_in := MDP.SASTff [].

(** What the construction prints on [mrp_chain]. *)
Definition mrp_chain_out : list (printed nat) :=
  [PrintR [0%Q; 0%Q; 1%Q]; PrintStateList [1; 2; 3];
   PrintP [[0%Q; 1%Q; 0%Q]; [0%Q; 0%Q; 1%Q]; [0%Q; 0%Q; 0%Q]];
   PrintA 1%Q [[0%Q; 1%Q; 0%Q]; [0%Q; 0%Q; 1%Q]; [0%Q; 0%Q; 0%Q]]].

(** A process whose only state is absorbing: the linear system has no
    unknown, and the iteration over its empty solution raises. *)
Definition mrp_absorbing : mrp_in := MRP.STSff [(1, ([(1, 1%Q)], 0%Q))].

Definition mrp_absorbing_out : list (printed nat) :=
  [PrintR []; PrintStateList []; PrintP []; PrintA 1%Q []].

(** The entries of [mrp_shared] and of [input2] of mdp.py. *)
Definition shared_rows : dict nat (dict nat Q * Q) :=
  [(1, ([(2, 1%Q)], 5%Q)); (2, ([(2, 1%Q)], 0%Q))].

Definition input2 : dict (nat * string) (dict nat (Q * Q)) :=
  [((1, "a"), [(1, (3#10, 5%Q)); (2, (6#10, 5%Q)); (3, (1#10, 5%Q))]);
   ((1, "b"), [(2, (3#10, 28#10)); (3, (7#10, 28#10))]);
   ((1, "c"), [(1, (2#10, -72#10)); (2, (4#10, -72#10)); (3, (4#10, -72#10))]);
   ((2, "a"), [(1, (3#10, 5%Q)); (2, (6#10, 5%Q)); (3, (1#10, 5%Q))]);
   ((2, "c"), [(1, (2#10, -72#10)); (2, (4#10, -72#10)); (3, (4#10, -72#10))]);
   ((3, "a"), [(3, (1%Q, 0%Q))]);
   ((3, "b"), [(3, (1%Q, 0%Q))])].

(** What one sample of [mrp_shared] from state 1 prints. *)
Definition mrp_shared_sample_out : list (printed nat) :=
  [PrintStates [2]; PrintProbs [1%Q]].
End Examples.

(** ** Vocabulary of the further properties *)

Section mrp_vocabulary.
Context {State : Type} `{EqDecision State} `{Numeric}.

(** The probability the input records for the transition from [s] to [s2]. *)
Definition mrp_probability (inp : MRP.mrp_input (State:=State)) (s s2 : State)
    : option num :=
  match inp with
  | MRP.SSTff d =>
      match get s d with
      | Some row => option_map fst (get s2 row)
      | None => None
      end
  | MRP.STSff d =>
      match get s d with
      | Some (row, _) => get s2 row
      | None => None
      end
  end.

(** The reward the input records for the transition from [s] to [s2]: in
    the shared-reward encoding the reward of [s], whatever [s2]. *)
Definition mrp_reward (inp : MRP.mrp_input (State:=State)) (s s2 : State)
    : option num :=
  match inp with
  | MRP.SSTff d =>
      match get s d with
      | Some row => option_map snd (get s2 row)
      | None => None
      end
  | MRP.STSff d =>
      match get s d with
      | Some (_, r) => Some r
      | None => None
      end
  end.

(** The recorded probability of staying in [s] is [1]. *)
Definition mrp_certain (inp : MRP.mrp_input (State:=State)) (s : State) : bool :=
  match mrp_probability inp s s with
  | Some p => is_one p
  | None => false
  end.

(** The fine-grained encoding of a process given in the shared-reward
    encoding: every destination of a source carries the reward of the
    source. *)
Definition to_fine_row (row : dict State num) (r : num) : dict State (num * num) :=
  map (λ '(s2, p), (s2, (p, r))) row.

Definition to_fine (d : dict State (dict State num * num))
    : dict State (dict State (num * num)) :=
  map (λ '(s, (row, r)), (s, to_fine_row row r)) d.

(** The return [get_random_sample] accumulates over the states it visits
    from time step [ts] on: [g += gamma ** ts * R(state)] at each. *)
Fixpoint discounted_return (gamma : num) (rf : dict State num)
    (visited : list State) (ts : nat) (g : num) : num :=
  match visited with
  | [] => g
  | state :: rest =>
      discounted_return gamma rf rest (S ts)
        (fadd g (fmul (fpow gamma ts) (default fzero (get state rf))))
  end.

(** Every state of the path but the first is a key of the row stored for
    the state before it. *)
Fixpoint follows (stm : dict State (dict State num)) (path : list State) : Prop :=
  match path with
  | x :: (y :: _) as rest =>
      (∃ row, get x stm = Some row ∧ y ∈ keys row) ∧ follows stm rest
  | _ => True
  end.
(** A stored probability row and a stored reward row, against the input. *)
Definition good_probability_row (inp : MRP.mrp_input (State:=State)) (s : State)
    (prow : dict State num) : Prop :=
  ∀ s2, get s2 prow = mrp_probability inp s s2.

Definition good_reward_row (inp : MRP.mrp_input (State:=State)) (s : State)
    (rrow : dict State num) : Prop :=
  ∀ s2, get s2 rrow =
        match inp with
        | MRP.SSTff _ => mrp_reward inp s s2
        | MRP.STSff d => if decide (s2 ∈ keys d) then mrp_reward inp s s2 else None
        end.


(** An input in the shared-reward encoding whose rows have distinct keys,
    as the keys of a dict are, and whose destinations are all source keys. *)
Definition distinct_rows (d : dict State (dict State num * num)) : Prop :=
  Forall (λ e, NoDup (keys e.2.1)) d.

Definition closed_input (d : dict State (dict State num * num)) : Prop :=
  Forall (λ e, Forall (λ s2, s2 ∈ keys d) (keys e.2.1)) d.

(** The rewards of a row in the fine-grained encoding of a shared reward. *)
Definition constant_row (row : dict State num) (r : num) : dict State num :=
  map (λ '(s2, _), (s2, r)) row.

(** The reward the construction keeps for the transition from [s] to
    [s2]: in the shared-reward encoding only under the source keys of the
    input. *)
Definition stored_reward (inp : MRP.mrp_input (State:=State)) (s s2 : State)
    : option num :=
  match inp with
  | MRP.SSTff _ => mrp_reward inp s s2
  | MRP.STSff d => if decide (s2 ∈ keys d) then mrp_reward inp s s2 else None
  end.

(** [expected_reward += P(s, s2) * r(s, s2)] over the destinations, from
    [0], with [0.0] for an entry that is missing. *)
Definition expected_sum (inp : MRP.mrp_input (State:=State)) (s : State)
    (dests : list State) : num :=
  fold_left
    (λ acc s2, fadd acc (fmul (default fzero (mrp_probability inp s s2))
                              (default fzero (stored_reward inp s s2))))
    dests fzero.
End mrp_vocabulary.

Section mdp_vocabulary.
Context {State Action : Type} `{EqDecision State} `{EqDecision Action} `{Numeric}.

(** The probability and the reward the input records for the transition
    from [s] to [s1] under [a]: nothing when [(s, a)] is not a key or [s1] is
    not a destination of the key. *)
Definition mdp_probability (inp : MDP.mdp_input (State:=State) (Action:=Action))
    (sa : State * Action) (s1 : State) : option num :=
  match inp with
  | MDP.SASTff d =>
      match get sa d with
      | Some row => option_map fst (get s1 row)
      | None => None
      end
  | MDP.SATSff d =>
      match get sa d with
      | Some (row, _) => get s1 row
      | None => None
      end
  end.

Definition mdp_reward (inp : MDP.mdp_input (State:=State) (Action:=Action))
    (sa : State * Action) (s1 : State) : option num :=
  match inp with
  | MDP.SASTff d =>
      match get sa d with
      | Some row => option_map snd (get s1 row)
      | None => None
      end
  | MDP.SATSff d =>
      match get sa d with
      | Some (row, r) => if decide (s1 ∈ keys row) then Some r else None
      | None => None
      end
  end.

(** The rows stored under the key of [sa] are those the input records. *)
Definition good_rows (inp : MDP.mdp_input (State:=State) (Action:=Action))
    (T : list State) (stm rm : MDP.matrix (State:=State) (Action:=Action)) : Prop :=
  ∀ sa, sa.1 ∉ T →
    (∀ prow, get (MDP.pair_key sa) stm = Some prow →
       ∀ s1, get s1 prow = mdp_probability inp sa s1)
    ∧ (∀ rrow, get (MDP.pair_key sa) rm = Some rrow →
       ∀ s1, get s1 rrow = mdp_reward inp sa s1).
End mdp_vocabulary.

(** * Properties of the construction *)

Section dict_facts.
Context {K V : Type} `{EqDecision K}.
Implicit Types (k : K) (v : V) (d : dict K V).

Lemma get_Some_key k v d : get k d = Some v → k ∈ keys d.
Proof.
  induction d as [|[k' v'] d IH]; simpl; [discriminate|].
  case_decide; subst; intros; [left | right; auto].
Qed.

Lemma get_None_key k d : get k d = None ↔ k ∉ keys d.
Proof.
  induction d as [|[k' v'] d IH]; simpl.
  - split; [intros _; apply not_elem_of_nil | done].
  - rewrite not_elem_of_cons. case_decide; subst.
    + split; [discriminate | intros [? _]; done].
    + rewrite IH. split; [done | intros [_ ?]; done].
Qed.

Lemma get_key_is_Some k d : k ∈ keys d → is_Some (get k d).
Proof.
  intros Hk. destruct (get k d) eqn:E; [eauto|].
  by apply get_None_key in E.
Qed.

Lemma get_Some_item k v d : get k d = Some v → (k, v) ∈ d.
Proof.
  induction d as [|[k' v'] d IH]; simpl; [discriminate|].
  case_decide; subst; [intros [= ->]; left | intros; right; auto].
Qed.

Lemma keys_update k v d :
  keys (update k v d) = if decide (k ∈ keys d) then keys d else keys d ++ [k].
Proof.
  unfold keys. induction d as [|[k' v'] d IH]; csimpl; [done|].
  destruct (decide (k = k')) as [->|Hne]; csimpl.
  - rewrite decide_True; [done | left].
  - rewrite IH.
    destruct (decide (k ∈ d.*1)) as [Hin|Hnin].
    + rewrite decide_True; [done | by right].
    + rewrite decide_False; [done|]. rewrite not_elem_of_cons. done.
Qed.

Lemma elem_of_keys_update k' k v d :
  k' ∈ keys (update k v d) ↔ k' = k ∨ k' ∈ keys d.
Proof.
  rewrite keys_update. destruct (decide (k ∈ keys d)) as [Hin|Hnin].
  - split; [by right | intros [->|?]; done].
  - rewrite elem_of_app, list_elem_of_singleton. tauto.
Qed.

Lemma get_update k' k v d :
  get k' (update k v d) = if decide (k' = k) then Some v else get k' d.
Proof.
  induction d as [|[k0 v0] d IH]; simpl.
  - repeat case_decide; done.
  - destruct (decide (k = k0)) as [->|Hne]; simpl.
    + repeat case_decide; congruence.
    + rewrite IH. repeat case_decide; congruence.
Qed.

Lemma NoDup_keys_update k v d : NoDup (keys d) → NoDup (keys (update k v d)).
Proof.
  intros Hd. rewrite keys_update. case_decide; [done|].
  apply NoDup_app. split_and!; [done | | apply NoDup_singleton].
  intros x Hx ->%list_elem_of_singleton. done.
Qed.
End dict_facts.

Section io_facts.
Context {State : Type} `{Numeric}.

Lemma io_bind_lift {X Y : Type} (c : res X) (k : X → io State Y) :
  lift c ≫= k = match c with Ok x => k x | Raise e => ([], Raise e) end.
Proof. destruct c as [x|e]; cbn; [by destruct (k x) | done]. Qed.

Lemma io_bind_print {Y : Type} (p : printed State) (k : unit → io State Y) :
  print p ≫= k = let '(out, r) := k () in (p :: out, r).
Proof. cbn. by destruct (k ()). Qed.
End io_facts.

Section mrp_facts.
Context {State : Type} `{EqDecision State} `{Runtime}.
Implicit Types (inp : MRP.mrp_input (State:=State)) (s : State).
Implicit Types (T N l : list State) (stm rm : dict State (dict State num)).
Implicit Types (rf vf : dict State num) (g : num).

Lemma mrp_self_loop_key inp s :
  s ∈ MRP.input_keys inp → ∃ b, MRP.self_loop inp s = Ok b.
Proof.
  destruct inp as [d|d]; simpl; intros [v Hv]%get_key_is_Some; rewrite Hv; simpl.
  - eauto.
  - destruct v as [row r]. eauto.
Qed.

(** The loop of [MRP._categorize_states] sends every state it visits to
    exactly one of the two lists, by the self-loop test. *)
Lemma mrp_categorize_loop_spec inp l T N T' N' :
  MRP.categorize_loop inp l T N = Ok (T', N') →
  T' ++ N' ≡ₚ (T ++ N) ++ l
  ∧ (∀ s, s ∈ T' ↔ s ∈ T ∨ (s ∈ l ∧ MRP.self_loop inp s = Ok true))
  ∧ (∀ s, s ∈ N' ↔ s ∈ N ∨ (s ∈ l ∧ MRP.self_loop inp s = Ok false)).
Proof.
  revert T N. induction l as [|x l IH]; intros T N; simpl.
  - intros [= <- <-]. rewrite app_nil_r. split_and!; [done | |];
      intros s; rewrite elem_of_nil; tauto.
  - destruct (MRP.self_loop inp x) as [[|]|e] eqn:Hx; simpl; [| |discriminate].
    + intros (HP & HT & HN)%IH. split_and!.
      * rewrite HP. rewrite <- !app_assoc. apply Permutation_app_head.
        simpl. apply Permutation_middle.
      * intros s. rewrite HT, elem_of_app, list_elem_of_singleton, elem_of_cons.
        split; [intros [[?| ->]|[? ?]]; eauto | intros [?|[[->|?] ?]]; eauto].
      * intros s. rewrite HN, elem_of_cons.
        split; [intros [?|[? ?]]; eauto | intros [?|[[->|?] ?]]; eauto].
        congruence.
    + intros (HP & HT & HN)%IH. split_and!.
      * rewrite HP. rewrite <- !app_assoc. done.
      * intros s. rewrite HT, elem_of_cons.
        split; [intros [?|[? ?]]; eauto | intros [?|[[->|?] ?]]; eauto].
        congruence.
      * intros s. rewrite HN, elem_of_app, list_elem_of_singleton, elem_of_cons.
        split; [intros [[?| ->]|[? ?]]; eauto | intros [?|[[->|?] ?]]; eauto].
Qed.

Lemma mrp_categorize_spec inp T N :
  MRP._categorize_states inp = Ok (T, N) →
  T ++ N ≡ₚ MRP.input_keys inp
  ∧ (∀ s, s ∈ T ↔ s ∈ MRP.input_keys inp ∧ MRP.self_loop inp s = Ok true)
  ∧ (∀ s, s ∈ N ↔ s ∈ MRP.input_keys inp ∧ MRP.self_loop inp s = Ok false).
Proof.
  intros (HP & HT & HN)%mrp_categorize_loop_spec. split_and!.
  - done.
  - intros s. rewrite HT, elem_of_nil. tauto.
  - intros s. rewrite HN, elem_of_nil. tauto.
Qed.

Lemma mrp_categorize_disjoint inp T N s :
  MRP._categorize_states inp = Ok (T, N) → s ∈ T → s ∉ N.
Proof.
  intros (_ & HT & HN)%mrp_categorize_spec [_ Ht]%HT [_ Hn]%HN. congruence.
Qed.

Lemma mrp_assign_loop_keys inp l stm rm stm' rm' :
  MRP.assign_loop inp l stm rm = Ok (stm', rm') →
  (∀ s, s ∈ keys stm' ↔ s ∈ keys stm ∨ s ∈ l)
  ∧ (∀ s, s ∈ keys rm' ↔ s ∈ keys rm ∨ s ∈ l).
Proof.
  revert stm rm. induction l as [|x l IH]; intros stm rm; simpl.
  - intros [= <- <-]. split; intros s; rewrite elem_of_nil; tauto.
  - destruct inp as [d|d].
    + destruct (get x d) as [row|]; simpl; [|discriminate].
      destruct (MRP.split_row row (keys row) [] []) as [[sv rv]|]; simpl; [|discriminate].
      intros [Hs Hr]%IH. split; intros s; [rewrite Hs | rewrite Hr];
        rewrite elem_of_keys_update, elem_of_cons; tauto.
    + destruct (get x d) as [[row r]|]; simpl; [|discriminate].
      destruct (MRP.shared_row d x (keys d) []) as [rv|]; simpl; [|discriminate].
      intros [Hs Hr]%IH. split; intros s; [rewrite Hs | rewrite Hr];
        rewrite elem_of_keys_update, elem_of_cons; tauto.
Qed.

Lemma mrp_reward_loop_keys stm rm l rl rl' :
  MRP.reward_loop stm rm l rl = Ok rl' →
  ∀ s, s ∈ keys rl' ↔ s ∈ keys rl ∨ s ∈ l.
Proof.
  revert rl. induction l as [|x l IH]; intros rl; simpl.
  - intros [= <-] s. rewrite elem_of_nil; tauto.
  - destruct (get x stm) as [prow|]; simpl; [|discriminate].
    destruct (MRP.expected_loop stm rm x (keys prow) fzero) as [e|]; simpl; [|discriminate].
    intros Hl s. rewrite (IH _ Hl s), elem_of_keys_update, elem_of_cons; tauto.
Qed.

Lemma mrp_dict_of_zip_keys (states : list State) (vals : list num) vf s :
  s ∈ keys (MRP.dict_of_zip states vals vf) → s ∈ keys vf ∨ s ∈ states.
Proof.
  revert vals vf. induction states as [|x states IH]; intros [|v vals] vf; simpl; eauto.
  intros [Hs|Hs]%IH.
  - apply elem_of_keys_update in Hs as [->|?]; [right; left | by left].
  - right. by right.
Qed.

(** What a successful construction went through. *)
Lemma mrp_init_inv inp g out (self : MRP.t) :
  MRP.__init__ inp g = (out, Ok self) →
  MRP.input_type inp = Ok (MRP.type_indicator self)
  ∧ MRP.gamma self = g
  ∧ MRP._categorize_states inp
    = Ok (MRP.terminal_states self, MRP.non_terminal_states self)
  ∧ MRP._assign_transition_matrix inp (MRP.non_terminal_states self)
    = Ok (MRP.state_transition_matrix self, MRP.reward_matrix self)
  ∧ MRP._assign_reward_function (MRP.state_transition_matrix self) (MRP.reward_matrix self)
    = Ok (MRP.reward_function self)
  ∧ MRP._assign_value_function g (MRP.non_terminal_states self)
      (MRP.state_transition_matrix self) (MRP.reward_function self)
    = (out, Ok (MRP.value_function self)).
Proof.
  intros Hinit. unfold MRP.__init__ in Hinit.
  rewrite io_bind_lift in Hinit.
  destruct (MRP.input_type inp) as [ti|] eqn:Hti; [|discriminate].
  rewrite io_bind_lift in Hinit.
  destruct (MRP._categorize_states inp) as [[T N]|] eqn:Hc; [|discriminate].
  rewrite io_bind_lift in Hinit.
  destruct (MRP._assign_transition_matrix inp N) as [[stm rm]|] eqn:Ha; [|discriminate].
  rewrite io_bind_lift in Hinit.
  destruct (MRP._assign_reward_function stm rm) as [rf|] eqn:Hr; [|discriminate].
  destruct (MRP._assign_value_function g N stm rf) as [o [vf|]] eqn:Hv;
    cbn in Hinit; [|discriminate].
  rewrite app_nil_r in Hinit. injection Hinit as <- <-. cbn. done.
Qed.

Lemma mrp_value_function_inv g N stm rf out vf :
  MRP._assign_value_function g N stm rf = (out, Ok vf) →
  ∃ P V it o,
    MRP.P_matrix stm N = Ok P
    ∧ MRP.solve_or_lstsq g P (values rf) = (o, Ok V)
    ∧ nditer V = Ok it
    ∧ vf = MRP.dict_of_zip N it []
    ∧ out = PrintR (values rf) :: PrintStateList N :: PrintP P :: PrintA g P :: o.
Proof.
  unfold MRP._assign_value_function. rewrite !io_bind_print, io_bind_lift.
  destruct (MRP.P_matrix stm N) as [P|]; [|discriminate].
  rewrite !io_bind_print.
  destruct (MRP.solve_or_lstsq g P (values rf)) as [o [V|]] eqn:HV; cbn; [|discriminate].
  destruct (nditer V) as [it|] eqn:Hit; cbn; [|discriminate].
  rewrite app_nil_r. intros [= <- <-]. by exists P, V, it, o.
Qed.

Lemma mrp_matrix_keys inp g out (self : MRP.t) :
  MRP.__init__ inp g = (out, Ok self) →
  ∀ s, (s ∈ keys (MRP.state_transition_matrix self) ↔ s ∈ MRP.non_terminal_states self)
     ∧ (s ∈ keys (MRP.reward_matrix self) ↔ s ∈ MRP.non_terminal_states self)
     ∧ (s ∈ keys (MRP.reward_function self) ↔ s ∈ MRP.non_terminal_states self)
     ∧ (s ∈ keys (MRP.value_function self) → s ∈ MRP.non_terminal_states self).
Proof.
  intros (_ & _ & _ & Ha & Hf & Hv)%mrp_init_inv s.
  apply mrp_assign_loop_keys in Ha as [Hs Hr].
  pose proof (mrp_reward_loop_keys _ _ _ _ _ Hf) as Hf'. clear Hf.
  split_and!.
  - rewrite Hs, elem_of_nil. tauto.
  - rewrite Hr, elem_of_nil. tauto.
  - rewrite Hf', Hr, !elem_of_nil. tauto.
  - apply mrp_value_function_inv in Hv as (P & V & it & o & _ & _ & _ & -> & _).
    intros [Hk|Hk]%mrp_dict_of_zip_keys; [|done].
    by apply elem_of_nil in Hk.
Qed.
End mrp_facts.

Section mdp_facts.
Context {State Action : Type} `{EqDecision State} `{EqDecision Action} `{Numeric}.
Implicit Types (inp : MDP.mdp_input (State:=State) (Action:=Action)).
Implicit Types (s : State) (a : Action) (sa : State * Action).
Implicit Types (T N tmp all sl : list State) (al : list Action).
Implicit Types (l : list (State * Action)).

Lemma mdp_states_actions_loop_spec l sl al sl' al' :
  MDP.states_actions_loop l sl al = (sl', al') →
  (NoDup sl → NoDup sl')
  ∧ (∀ s, s ∈ sl' ↔ s ∈ sl ∨ s ∈ l.*1)
  ∧ (∀ a, a ∈ al' ↔ a ∈ al ∨ a ∈ l.*2).
Proof.
  revert sl al. induction l as [|[s0 a0] l IH]; intros sl al; csimpl.
  - intros [= <- <-]. split_and!; [done | |]; intros ?; rewrite elem_of_nil; tauto.
  - intros (Hnd & Hs & Ha)%IH. clear IH. split_and!.
    + intros Hsl. apply Hnd. destruct (decide (s0 ∈ sl)); [done|].
      apply NoDup_app. split_and!; [done | | apply NoDup_singleton].
      intros x Hx ->%list_elem_of_singleton. done.
    + intros s. rewrite Hs, elem_of_cons. destruct (decide (s0 ∈ sl)).
      * split; [tauto | intros [?|[->|?]]; eauto].
      * rewrite elem_of_app, list_elem_of_singleton. tauto.
    + intros a. rewrite Ha, elem_of_cons. destruct (decide (a0 ∈ al)).
      * split; [tauto | intros [?|[->|?]]; eauto].
      * rewrite elem_of_app, list_elem_of_singleton. tauto.
Qed.

Lemma mdp_list_remove_perm x T : x ∈ T → x :: MDP.list_remove x T ≡ₚ T.
Proof.
  induction T as [|y T IH]; simpl; [by intros ?%elem_of_nil|].
  case_decide; subst; [done|].
  intros [?|Hx]%elem_of_cons; [done|].
  rewrite Permutation_swap. by rewrite (IH Hx).
Qed.

Lemma mdp_list_remove_elem x T s :
  NoDup T → s ∈ MDP.list_remove x T ↔ s ∈ T ∧ s ≠ x.
Proof.
  induction T as [|y T IH]; simpl.
  - rewrite elem_of_nil. tauto.
  - intros [Hy HT]%NoDup_cons. case_decide; subst.
    + rewrite elem_of_cons. split; [|tauto].
      intros Hs. split; [by right | by intros ->].
    + rewrite !elem_of_cons, (IH HT). split; [|tauto].
      intros [->|[? ?]]; auto.
Qed.

Lemma mdp_list_remove_NoDup x T : NoDup T → NoDup (MDP.list_remove x T).
Proof.
  intros HT. destruct (decide (x ∈ T)) as [Hx|Hx].
  - rewrite <- (mdp_list_remove_perm x T Hx) in HT. by apply NoDup_cons in HT as [_ ?].
  - replace (MDP.list_remove x T) with T; [done|].
    clear HT. induction T as [|y T IH]; simpl; [done|].
    apply not_elem_of_cons in Hx as [? ?]. rewrite decide_False by done.
    f_equal; auto.
Qed.

Lemma mdp_collect_new_spec all ds tmp :
  (∀ s, s ∈ MDP.collect_new all ds tmp ↔ s ∈ tmp ∨ (s ∈ ds ∧ s ∉ all))
  ∧ (NoDup tmp → NoDup (MDP.collect_new all ds tmp)).
Proof.
  revert tmp. induction ds as [|d ds IH]; intros tmp; simpl.
  - split; [|done]. intros s. rewrite elem_of_nil. tauto.
  - destruct (IH (if decide ((d ∉ all) ∧ (d ∉ tmp)) then tmp ++ [d] else tmp)) as [He Hn].
    split.
    + intros s. rewrite He, elem_of_cons. case_decide as Hd.
      * rewrite elem_of_app, list_elem_of_singleton.
        split; [intros [[?| ->]|?]; tauto | tauto].
      * split; [tauto|]. intros [?|[[->|?] ?]]; [tauto| |tauto].
        destruct (decide (d ∈ tmp)); tauto.
    + intros Htmp. apply Hn. case_decide as Hd; [|done].
      apply NoDup_app. split_and!; [done | | apply NoDup_singleton].
      intros x Hx ->%list_elem_of_singleton. tauto.
Qed.

Lemma mdp_key_lookups inp sa :
  sa ∈ MDP.input_keys inp →
  (∃ ds, MDP.destinations inp sa = Ok ds) ∧ (∃ b, MDP.leaves inp sa = Ok b).
Proof.
  destruct inp as [d|d]; simpl; intros [v Hv]%get_key_is_Some; rewrite Hv; simpl.
  - eauto.
  - destruct v as [row r]. eauto.
Qed.

(** The loop of [MDP._categorize_states]: a state stays terminal as long
    as no key of it fails the self-loop test; the destinations that are
    not source states are collected. *)
Lemma mdp_categorize_loop_spec inp all l T N tmp T' N' tmp' :
  NoDup T →
  MDP.categorize_loop inp all l T N tmp = Ok (T', N', tmp') →
  T' ++ N' ≡ₚ T ++ N
  ∧ (∀ s, s ∈ T' ↔ s ∈ T ∧ ∀ sa, sa ∈ l → sa.1 = s → MDP.leaves inp sa = Ok false)
  ∧ (∀ s, s ∈ tmp' ↔
       s ∈ tmp ∨ ((s ∉ all) ∧ ∃ sa ds, sa ∈ l ∧ MDP.destinations inp sa = Ok ds ∧ s ∈ ds))
  ∧ (NoDup tmp → NoDup tmp').
Proof.
  revert T N tmp. induction l as [|sa l IH]; intros T N tmp HT; simpl.
  - intros [= <- <- <-]. split_and!; [done | | | done].
    + intros s. split; [|tauto]. intros ?; split; [done|]. by intros ? ?%elem_of_nil.
    + intros s. split; [tauto|]. intros [?|(_ & ? & ? & ?%elem_of_nil & _)]; done.
  - destruct (MDP.destinations inp sa) as [ds|] eqn:Hds; simpl; [|discriminate].
    destruct (MDP.leaves inp sa) as [b|] eqn:Hb; simpl; [|discriminate].
    destruct (mdp_collect_new_spec all ds tmp) as [Hce Hcn].
    destruct (b && bool_decide (sa.1 ∈ T)) eqn:Hcond.
    + apply andb_prop in Hcond as [-> Hin%bool_decide_eq_true].
      intros (HP & HT' & Htmp & Hnd)%IH; [|by apply mdp_list_remove_NoDup].
      split_and!.
      * etrans; [exact HP|]. rewrite app_assoc, <- Permutation_cons_append.
        apply (Permutation_app_tail N (mdp_list_remove_perm sa.1 T Hin)).
      * intros s. rewrite HT', (mdp_list_remove_elem _ _ _ HT). split.
        -- intros [[Hs Hne] Hl]. split; [done|].
           intros sa' [->|?]%elem_of_cons ?; [congruence | auto].
        -- intros [Hs Hl]. split_and!; [done | | intros; apply Hl; [by right | done]].
           intros ->. specialize (Hl sa (list_elem_of_here _ _) eq_refl). congruence.
      * intros s. rewrite Htmp, Hce. split.
        -- intros [[?|[? ?]]|(? & sa' & ds' & ? & ? & ?)]; [by left | |].
           ++ right. split; [done|]. exists sa, ds. split_and!; [left | done | done].
           ++ right. split; [done|]. exists sa', ds'. split_and!; [by right | done | done].
        -- intros [?|(? & sa' & ds' & [->|?]%elem_of_cons & Hd & ?)]; [tauto | |].
           ++ rewrite Hds in Hd. injection Hd as <-. tauto.
           ++ right. split; [done|]. by exists sa', ds'.
      * intros ?. apply Hnd, Hcn. done.
    + intros (HP & HT' & Htmp & Hnd)%IH; [|done].
      split_and!.
      * done.
      * intros s. rewrite HT'. split.
        -- intros [Hs Hl]. split; [done|].
           intros sa' [->|?]%elem_of_cons Heq; [|auto].
           apply andb_false_iff in Hcond as [->|Hc]; [done|].
           apply bool_decide_eq_false in Hc. congruence.
        -- intros [Hs Hl]. split; [done|]. intros; apply Hl; [by right | done].
      * intros s. rewrite Htmp, Hce. split.
        -- intros [[?|[? ?]]|(? & sa' & ds' & ? & ? & ?)]; [by left | |].
           ++ right. split; [done|]. exists sa, ds. split_and!; [left | done | done].
           ++ right. split; [done|]. exists sa', ds'. split_and!; [by right | done | done].
        -- intros [?|(? & sa' & ds' & [->|?]%elem_of_cons & Hd & ?)]; [tauto | |].
           ++ rewrite Hds in Hd. injection Hd as <-. tauto.
           ++ right. split; [done|]. by exists sa', ds'.
      * intros ?. apply Hnd, Hcn. done.
Qed.

Lemma mdp_categorize_loop_total inp all l T N tmp :
  (∀ sa, sa ∈ l → sa ∈ MDP.input_keys inp) →
  ∃ r, MDP.categorize_loop inp all l T N tmp = Ok r.
Proof.
  revert T N tmp. induction l as [|sa l IH]; intros T N tmp Hl; simpl; [eauto|].
  destruct (mdp_key_lookups inp sa) as [[ds ->] [b ->]]; [apply Hl; left|]. simpl.
  destruct (b && _); apply IH; intros; apply Hl; by right.
Qed.

Lemma mdp_leaves_certain inp sa b :
  MDP.leaves inp sa = Ok b → MDP.certain_self_loop inp sa = negb b.
Proof.
  unfold MDP.certain_self_loop. destruct inp as [d|d]; simpl.
  - destruct (get sa d) as [row|]; simpl; [|discriminate].
    destruct (get sa.1 row) as [[p r]|]; simpl; intros [= <-]; [|done].
    by rewrite negb_involutive.
  - destruct (get sa d) as [[row r]|]; simpl; [|discriminate].
    destruct (get sa.1 row) as [p|]; simpl; intros [= <-]; [|done].
    by rewrite negb_involutive.
Qed.

Lemma mdp_destinations_key inp sa ds :
  MDP.destinations inp sa = Ok ds → sa ∈ MDP.input_keys inp.
Proof.
  destruct inp as [d|d]; simpl; destruct (get sa d) eqn:E; try discriminate;
    intros _; by eapply get_Some_key.
Qed.

(** What a successful construction went through. *)
Lemma mdp_init_inv inp g (self : MDP.t) :
  MDP.__init__ inp g = Ok self →
  ∃ sl T tmp,
    MDP.input_type inp = Ok (MDP.type_indicator self)
    ∧ MDP._get_all_states_and_actions inp = (sl, MDP.all_actions self)
    ∧ MDP.categorize_loop inp sl (MDP.input_keys inp) sl [] []
      = Ok (T, MDP.non_terminal_states self, tmp)
    ∧ MDP.all_states self = sl ++ tmp
    ∧ MDP.terminal_states self = T ++ tmp
    ∧ MDP._assign_transition_matrix inp (MDP.terminal_states self)
      = Ok (MDP.transition_matrix self).
Proof.
  unfold MDP.__init__, MDP._categorize_states.
  destruct (MDP.input_type inp) as [ti|] eqn:Hti; simpl; [|discriminate].
  destruct (MDP._get_all_states_and_actions inp) as [sl al] eqn:Hsa.
  destruct (MDP.categorize_loop inp sl (MDP.input_keys inp) sl [] [])
    as [[[T N] tmp]|] eqn:Hc; simpl; [|discriminate].
  destruct (MDP._assign_transition_matrix inp (T ++ tmp)) as [tm|] eqn:Ha;
    simpl; [|discriminate].
  intros [= <-]. simpl. by exists sl, T, tmp.
Qed.

Lemma mdp_input_type_keys inp b :
  MDP.input_type inp = Ok b → ∃ sa l, MDP.input_keys inp = sa :: l.
Proof. destruct inp as [[|[sa v] d]|[|[sa v] d]]; simpl; try discriminate; eauto. Qed.

(** The state lists of a constructed process, in terms of its input. *)
Lemma mdp_classification inp g (self : MDP.t) :
  MDP.__init__ inp g = Ok self →
  NoDup (MDP.all_states self)
  ∧ MDP.terminal_states self ++ MDP.non_terminal_states self ≡ₚ MDP.all_states self
  ∧ (∀ s, s ∈ MDP.all_states self ↔ MDP.is_source inp s ∨ MDP.is_destination inp s)
  ∧ (∀ s, s ∈ MDP.terminal_states self ↔
       s ∈ MDP.all_states self
       ∧ ∀ a, (s, a) ∈ MDP.input_keys inp → MDP.certain_self_loop inp (s, a) = true)
  ∧ (∀ s, MDP.is_destination inp s → ¬ MDP.is_source inp s →
       s ∈ MDP.terminal_states self).
Proof.
  intros (sl & T & tmp & _ & Hsa & Hc & -> & -> & _)%mdp_init_inv.
  apply mdp_states_actions_loop_spec in Hsa as (Hnd & Hsl & _).
  specialize (Hnd (NoDup_nil_2)).
  assert (Hsrc : ∀ s, s ∈ sl ↔ MDP.is_source inp s).
  { intros s. rewrite Hsl, elem_of_nil. unfold MDP.is_source. tauto. }
  pose proof Hc as Hc'.
  apply mdp_categorize_loop_spec in Hc as (HP & HT & Htmp & Hndt); [|done].
  specialize (Hndt (NoDup_nil_2)). rewrite app_nil_r in HP.
  assert (Htmp' : ∀ s, s ∈ tmp ↔ (s ∉ sl) ∧ MDP.is_destination inp s).
  { intros s. rewrite Htmp, elem_of_nil. unfold MDP.is_destination. split.
    - intros [[]|(? & sa & ds & ? & ? & ?)]. eauto.
    - intros (? & sa & ds & Hd & ?). right. split; [done|].
      exists sa, ds. split_and!; [|done|done]. by eapply mdp_destinations_key. }
  assert (Hall : NoDup (sl ++ tmp)).
  { apply NoDup_app. split_and!; [done | | done]. intros s ? [? _]%Htmp'. done. }
  assert (HTs : ∀ s, s ∈ T ++ tmp ↔
    s ∈ sl ++ tmp
    ∧ ∀ a, (s, a) ∈ MDP.input_keys inp → MDP.certain_self_loop inp (s, a) = true).
  { intros s. rewrite !elem_of_app, HT. split.
    - intros [[Hs Hl]|Hs].
      + split; [by left|]. intros a Ha.
        rewrite (mdp_leaves_certain _ _ false); [done|]. by apply Hl.
      + split; [by right|]. intros a Ha. apply Htmp' in Hs as [Hs _].
        exfalso. apply Hs, Hsrc. unfold MDP.is_source.
        by apply (list_elem_of_fmap_2 fst) in Ha.
    - intros [[Hs|Hs] Hl]; [|by right]. left. split; [done|].
      intros [s' a] Hsa' <-. simpl in *.
      destruct (mdp_key_lookups inp (s', a) Hsa') as [_ [b Hb]].
      rewrite Hb. f_equal. apply mdp_leaves_certain in Hb.
      rewrite (Hl a Hsa') in Hb. by destruct b. }
  split_and!.
  - done.
  - rewrite <- HP, <- !app_assoc. apply Permutation_app_head, Permutation_app_comm.
  - intros s. rewrite elem_of_app, Htmp', Hsrc.
    destruct (decide (s ∈ sl)) as [Hs|Hs]; rewrite Hsrc in Hs; tauto.
  - done.
  - intros s Hd Hs. apply elem_of_app. right. apply Htmp'. by rewrite Hsrc.
Qed.

Implicit Types (stm rm : MDP.matrix (State:=State) (Action:=Action)).

(** The first branch of [MDP._assign_transition_matrix] stores a row
    under every key it visits. *)
Lemma mdp_assign_loop_fine_keys d T l stm rm sv rv stm' rm' :
  MDP.assign_loop_fine d T l stm rm sv rv = Ok (stm', rm') →
  ∀ k, (k ∈ keys stm' ↔ k ∈ keys stm ∨ ∃ sa, sa ∈ l ∧ k = MDP.pair_key sa)
     ∧ (k ∈ keys rm' ↔ k ∈ keys rm ∨ ∃ sa, sa ∈ l ∧ k = MDP.pair_key sa).
Proof.
  revert stm rm sv rv. induction l as [|sa l IH]; intros stm rm sv rv; simpl.
  - intros [= <- <-] k.
    split; (split; [tauto|]); intros [?|(? & ?%elem_of_nil & _)]; done.
  - destruct (if decide (sa.1 ∉ T) then _ else _) as [[sv1 rv1]|]; simpl; [|discriminate].
    destruct sv1 as [sv1|]; simpl; [|discriminate].
    destruct rv1 as [rv1|]; simpl; [|discriminate].
    intros Hl k. destruct (IH _ _ _ _ Hl k) as [Hs Hr].
    rewrite Hs, Hr, !elem_of_keys_update. split; split.
    + intros [[->|?]|(sa' & ? & ->)]; [right; exists sa; split; [left|done] | by left |].
      right. exists sa'. split; [by right | done].
    + intros [?|(sa' & [->|?]%elem_of_cons & ->)]; [tauto | tauto |].
      right. by exists sa'.
    + intros [[->|?]|(sa' & ? & ->)]; [right; exists sa; split; [left|done] | by left |].
      right. exists sa'. split; [by right | done].
    + intros [?|(sa' & [->|?]%elem_of_cons & ->)]; [tauto | tauto |].
      right. by exists sa'.
Qed.

(** The second branch stores a row under the keys whose source is not
    terminal, and under no other. *)
Lemma mdp_assign_loop_shared_keys d T l stm rm stm' rm' :
  MDP.assign_loop_shared d T l stm rm = Ok (stm', rm') →
  ∀ k, (k ∈ keys stm' ↔
          k ∈ keys stm ∨ ∃ sa, sa ∈ l ∧ (sa.1 ∉ T) ∧ k = MDP.pair_key sa)
     ∧ (k ∈ keys rm' ↔
          k ∈ keys rm ∨ ∃ sa, sa ∈ l ∧ (sa.1 ∉ T) ∧ k = MDP.pair_key sa).
Proof.
  revert stm rm. induction l as [|sa l IH]; intros stm rm; simpl.
  - intros [= <- <-] k.
    split; (split; [tauto|]); intros [?|(? & ?%elem_of_nil & _)]; done.
  - destruct (decide (sa.1 ∉ T)) as [Hsa|Hsa].
    + destruct (get sa d) as [[row r]|]; simpl; [|discriminate].
      destruct (MDP.shared_row d sa (keys row) []) as [rv|]; simpl; [|discriminate].
      intros Hl k. destruct (IH _ _ Hl k) as [Hs Hr].
      rewrite Hs, Hr, !elem_of_keys_update. split; split.
      * intros [[->|?]|(sa' & ? & ? & ->)];
          [right; exists sa; split_and!; [left|done|done] | by left |].
        right. exists sa'. split_and!; [by right | done | done].
      * intros [?|(sa' & [->|?]%elem_of_cons & ? & ->)]; [tauto | tauto |].
        right. by exists sa'.
      * intros [[->|?]|(sa' & ? & ? & ->)];
          [right; exists sa; split_and!; [left|done|done] | by left |].
        right. exists sa'. split_and!; [by right | done | done].
      * intros [?|(sa' & [->|?]%elem_of_cons & ? & ->)]; [tauto | tauto |].
        right. by exists sa'.
    + intros Hl k. destruct (IH _ _ Hl k) as [Hs Hr]. rewrite Hs, Hr. split; split.
      * intros [?|(sa' & ? & ? & ->)]; [by left|].
        right. exists sa'. split_and!; [by right | done | done].
      * intros [?|(sa' & [->|?]%elem_of_cons & ? & ->)]; [tauto | tauto |].
        right. by exists sa'.
      * intros [?|(sa' & ? & ? & ->)]; [by left|].
        right. exists sa'. split_and!; [by right | done | done].
      * intros [?|(sa' & [->|?]%elem_of_cons & ? & ->)]; [tauto | tauto |].
        right. by exists sa'.
Qed.

(** Every key of the stored matrices is a pair. *)
Lemma mdp_matrix_keys_pair inp T stm rm k :
  MDP._assign_transition_matrix inp T = Ok (stm, rm) →
  k ∈ keys stm ∨ k ∈ keys rm → ∃ sa, k = MDP.pair_key sa.
Proof.
  destruct inp as [d|d]; simpl; intros Hl.
  - destruct (mdp_assign_loop_fine_keys _ _ _ _ _ _ _ _ _ Hl k) as [Hs Hr].
    rewrite Hs, Hr, !elem_of_nil. intros [[[]|(sa & _ & ?)]|[[]|(sa & _ & ?)]]; eauto.
  - destruct (mdp_assign_loop_shared_keys _ _ _ _ _ _ _ Hl k) as [Hs Hr].
    rewrite Hs, Hr, !elem_of_nil.
    intros [[[]|(sa & _ & _ & ?)]|[[]|(sa & _ & _ & ?)]]; eauto.
Qed.
End mdp_facts.

(** * The claims *)

Section claims.
Context {State Action : Type} `{EqDecision State} `{EqDecision Action} `{Runtime}.

Lemma NoDup_app_parts (T N : list State) :
  NoDup (T ++ N) → NoDup T ∧ NoDup N ∧ (∀ s, s ∈ T → s ∉ N).
Proof. rewrite NoDup_app. tauto. Qed.

(** C8, amended.  In a constructed MRP, and in a constructed MDP,
    [terminal_states] and [non_terminal_states] have no duplicates and
    share no state.  In the MDP they hold together exactly [all_states].
    In the MRP they hold together exactly the source keys of the input,
    which leaves out a destination that is not a source key. *)
Theorem states_partition :
  (∀ (inp : MRP.mrp_input (State:=State)) g out (self : MRP.t),
     NoDup (MRP.input_keys inp) →
     MRP.__init__ inp g = (out, Ok self) →
     NoDup (MRP.terminal_states self)
     ∧ NoDup (MRP.non_terminal_states self)
     ∧ (∀ s, s ∈ MRP.terminal_states self → s ∉ MRP.non_terminal_states self)
     ∧ (∀ s, s ∈ MRP.input_keys inp ↔
          s ∈ MRP.terminal_states self ∨ s ∈ MRP.non_terminal_states self))
  ∧ (∀ (inp : MDP.mdp_input (State:=State) (Action:=Action)) g (self : MDP.t),
     MDP.__init__ inp g = Ok self →
     NoDup (MDP.terminal_states self)
     ∧ NoDup (MDP.non_terminal_states self)
     ∧ (∀ s, s ∈ MDP.terminal_states self → s ∉ MDP.non_terminal_states self)
     ∧ (∀ s, s ∈ MDP.all_states self ↔
          s ∈ MDP.terminal_states self ∨ s ∈ MDP.non_terminal_states self)).
Proof.
  split.
  - intros inp g out self Hnd (_ & _ & Hc & _)%mrp_init_inv.
    apply mrp_categorize_spec in Hc as (HP & _ & _).
    rewrite <- HP in Hnd. destruct (NoDup_app_parts _ _ Hnd) as (? & ? & ?).
    split_and!; [done..|]. intros s. by rewrite <- HP, elem_of_app.
  - intros inp g self (Hnd & HP & _)%mdp_classification.
    rewrite <- HP in Hnd. destruct (NoDup_app_parts _ _ Hnd) as (? & ? & ?).
    split_and!; [done..|]. intros s. by rewrite <- HP, elem_of_app.
Qed.

(** C9.  In a constructed MRP, [get_random_sample] started at a terminal
    state returns the trajectory made of that state alone and the return
    [0]; the loop is not entered, whatever bound it is given. *)
Theorem sample_from_terminal
    (inp : MRP.mrp_input (State:=State)) g out (self : MRP.t) s fuel (r : rng) :
  MRP.__init__ inp g = (out, Ok self) →
  s ∈ MRP.terminal_states self →
  MRP.get_random_sample fuel self r (Some s) = Some ([], Ok ([s], fzero)).
Proof.
  intros (_ & _ & Hc & _)%mrp_init_inv Hs.
  pose proof (mrp_categorize_disjoint _ _ _ _ Hc Hs) as Hn.
  unfold MRP.get_random_sample. destruct fuel; simpl; by rewrite decide_False.
Qed.

(** C6, amended.  [query_Pr] on a stored [(state, action)] key and a
    destination its row does not have returns [None]; on a
    [(state, action)] key that is not stored it raises [AttributeError].
    In a constructed MRP, [get_value] and [get_expected_reward] on a state
    that is unknown or terminal return [None]. *)
Theorem missing_key_queries :
  (∀ (self : MDP.t (State:=State) (Action:=Action)) s a s1 row,
     get (MDP.Pair s a) (MDP.transition_matrix self).1 = Some row →
     s1 ∉ keys row →
     MDP.query_Pr self s a s1 = Ok None)
  ∧ (∀ (self : MDP.t (State:=State) (Action:=Action)) s a s1,
     MDP.Pair s a ∉ keys (MDP.transition_matrix self).1 →
     MDP.query_Pr self s a s1 = Raise AttributeError)
  ∧ (∀ (inp : MRP.mrp_input (State:=State)) g out (self : MRP.t) s,
     MRP.__init__ inp g = (out, Ok self) →
     (s ∉ MRP.input_keys inp) ∨ s ∈ MRP.terminal_states self →
     MRP.get_value self s = None ∧ MRP.get_expected_reward self s = None).
Proof.
  split_and!.
  - intros self s a s1 row Hrow Hs1. unfold MDP.query_Pr. rewrite Hrow. simpl.
    f_equal. by apply get_None_key.
  - intros self s a s1 Hk%get_None_key. unfold MDP.query_Pr. by rewrite Hk.
  - intros inp g out self s Hinit Hs.
    assert (Hn : s ∉ MRP.non_terminal_states self).
    { pose proof Hinit as (_ & _ & Hc & _)%mrp_init_inv. destruct Hs as [Hs|Hs].
      - apply mrp_categorize_spec in Hc as (_ & _ & HN). rewrite HN. tauto.
      - by eapply mrp_categorize_disjoint. }
    destruct (mrp_matrix_keys _ _ _ _ Hinit s) as (_ & _ & Hf & Hv).
    unfold MRP.get_value, MRP.get_expected_reward. rewrite !get_None_key. tauto.
Qed.


(** C3, amended.  In a constructed MDP every state that is a destination
    of some entry of the input and the source of no key is in
    [all_states] and in [terminal_states].  In a constructed MRP a state
    that is not a key of the input is in neither [terminal_states] nor
    [non_terminal_states]. *)
Theorem implicit_successors :
  (∀ (inp : MDP.mdp_input (State:=State) (Action:=Action)) g (self : MDP.t) s1,
     MDP.__init__ inp g = Ok self →
     MDP.is_destination inp s1 → ¬ MDP.is_source inp s1 →
     s1 ∈ MDP.all_states self ∧ s1 ∈ MDP.terminal_states self)
  ∧ (∀ (inp : MRP.mrp_input (State:=State)) g out (self : MRP.t) s1,
     MRP.__init__ inp g = (out, Ok self) →
     s1 ∉ MRP.input_keys inp →
     (s1 ∉ MRP.terminal_states self) ∧ (s1 ∉ MRP.non_terminal_states self)).
Proof.
  split.
  - intros inp g self s1 (_ & _ & Hall & _ & Hterm)%mdp_classification Hd Hs.
    split; [apply Hall; by right | by apply Hterm].
  - intros inp g out self s1 (_ & _ & Hc & _)%mrp_init_inv Hs.
    apply mrp_categorize_spec in Hc as (_ & HT & HN). rewrite HT, HN. tauto.
Qed.

(** C2, amended.  In a constructed MDP a state of [all_states] is in
    [terminal_states] if and only if, for every action [a] such that
    [(s, a)] is a key of the input, the probability recorded for staying in
    [s] under [(s, a)] is [1]; otherwise it is in [non_terminal_states]. *)
Theorem mdp_terminal_iff_every_action
    (inp : MDP.mdp_input (State:=State) (Action:=Action)) g (self : MDP.t) s :
  MDP.__init__ inp g = Ok self →
  s ∈ MDP.all_states self →
  (s ∈ MDP.terminal_states self ↔
     ∀ a, (s, a) ∈ MDP.input_keys inp → MDP.certain_self_loop inp (s, a) = true)
  ∧ (s ∈ MDP.non_terminal_states self ↔
     ¬ ∀ a, (s, a) ∈ MDP.input_keys inp → MDP.certain_self_loop inp (s, a) = true).
Proof.
  intros (Hnd & HP & _ & HT & _)%mdp_classification Hs.
  rewrite <- HP in Hnd. apply NoDup_app_parts in Hnd as (_ & _ & Hdis).
  pose proof Hs as Hs'. rewrite <- HP, elem_of_app in Hs'.
  split.
  - rewrite HT. tauto.
  - split.
    + intros Hn Hall. apply (Hdis s); [|done]. apply HT. tauto.
    + intros Hnot. destruct Hs' as [Ht|?]; [|done]. apply HT in Ht as [_ ?]. done.
Qed.

(** C10.  In the fine-grained-reward encoding, when the source state of
    the first key of the input is classified terminal, the construction
    of the MDP raises [UnboundLocalError] for [state_value]. *)
Theorem mdp_fine_first_terminal_unbound
    (d : dict (State * Action) (dict State (num * num))) g sa all T N :
  first_key d = Ok sa →
  MDP._categorize_states (MDP.SASTff d)
    (MDP._get_all_states_and_actions (MDP.SASTff d)).1 = Ok (all, T, N) →
  sa.1 ∈ T →
  MDP.__init__ (MDP.SASTff d) g = Raise (UnboundLocalError "state_value").
Proof.
  intros Hfk Hc Hs. unfold MDP.__init__. simpl MDP.input_type. rewrite Hfk. simpl.
  destruct (MDP._get_all_states_and_actions (MDP.SASTff d)) as [sl al].
  simpl in Hc. rewrite Hc. simpl.
  destruct d as [|[sa' row] d]; simpl in Hfk; [discriminate|].
  injection Hfk as ->. simpl. rewrite decide_False; [done|]. by intros ?.
Qed.

(** C1, as the code has it.  On every constructed MDP and under every
    policy [get_mrp] raises [KeyError]: its first subscript reads the
    stored matrix, whose keys are pairs, at a triple. *)
Theorem get_mrp_raises_KeyError
    (inp : MDP.mdp_input (State:=State) (Action:=Action)) g (self : MDP.t)
    (policy : MDP.Policy) :
  MDP.__init__ inp g = Ok self →
  MDP.get_mrp self policy = Raise KeyError.
Proof.
  intros Hinit.
  pose proof Hinit as (sl & T & tmp & Hti & Hsa & _ & Hall & _ & Ha)%mdp_init_inv.
  apply mdp_input_type_keys in Hti as (sa & l & Hkeys).
  unfold MDP._get_all_states_and_actions in Hsa. rewrite Hkeys in Hsa.
  apply mdp_states_actions_loop_spec in Hsa as (_ & Hsl & Hal).
  assert (∃ s sl', sl = s :: sl') as (s & sl' & ->).
  { destruct sl as [|s sl']; [|eauto].
    exfalso. apply (elem_of_nil sa.1), Hsl. right. csimpl. left. }
  assert (∃ a al', MDP.all_actions self = a :: al') as (a & al' & Hact).
  { destruct (MDP.all_actions self) as [|a al']; [|eauto].
    exfalso. apply (elem_of_nil sa.2), Hal. right. csimpl. left. }
  unfold MDP.get_mrp. rewrite Hall. simpl. rewrite Hall. simpl. rewrite Hact. simpl.
  unfold MDP.summand, getitem.
  destruct (MDP.transition_matrix self) as [stm rm] eqn:Htm. simpl.
  destruct (get (MDP.Triple s a s) stm) as [row|] eqn:Hget; [|done].
  apply get_Some_key in Hget.
  destruct (mdp_matrix_keys_pair _ _ _ _ (MDP.Triple s a s) Ha) as [sa' Hsa'];
    [by left | discriminate].
Qed.

(** In a constructed MRP no terminal state is a source key of
    [state_transition_matrix] or of [reward_matrix], whose keys are the
    non-terminal states. *)
Theorem mrp_no_terminal_source
    (inp : MRP.mrp_input (State:=State)) g out (self : MRP.t) s :
  MRP.__init__ inp g = (out, Ok self) →
  s ∈ MRP.terminal_states self →
  (s ∉ keys (MRP.state_transition_matrix self))
  ∧ (s ∉ keys (MRP.reward_matrix self)).
Proof.
  intros Hinit Hs.
  pose proof Hinit as (_ & _ & Hc & _)%mrp_init_inv.
  pose proof (mrp_categorize_disjoint _ _ _ _ Hc Hs) as Hn.
  destruct (mrp_matrix_keys _ _ _ _ Hinit s) as (Hstm & Hrm & _). tauto.
Qed.

(** In an MDP constructed from the shared-reward encoding no key whose
    source state is terminal is stored in either matrix. *)
Theorem mdp_shared_no_terminal_source
    (d : dict (State * Action) (dict State num * num)) g (self : MDP.t) s a :
  MDP.__init__ (MDP.SATSff d) g = Ok self →
  s ∈ MDP.terminal_states self →
  (MDP.Pair s a ∉ keys (MDP.transition_matrix self).1)
  ∧ (MDP.Pair s a ∉ keys (MDP.transition_matrix self).2).
Proof.
  intros (sl & T & tmp & _ & _ & _ & _ & _ & Ha)%mdp_init_inv Hs.
  destruct (MDP.transition_matrix self) as [stm rm]. simpl in *.
  destruct (mdp_assign_loop_shared_keys _ _ _ _ _ _ _ Ha (MDP.Pair s a)) as [Hk Hr].
  rewrite Hk, Hr, !elem_of_nil.
  split; intros [[]|([s' a'] & _ & Hn & [= -> ->])]; done.
Qed.
End claims.

(** * The claims on the examples

    The constructions evaluated on the inputs of [Examples], then each
    general theorem applied to one of them, and the inputs on which a
    sentence of the specification fails. *)

Import Reference Examples.

Section examples.
#[local] Existing Instances Q_numeric Q_runtime.

(** [input1] and [input2] of mrp.py, one process in the two encodings
    with every destination a key and every state reaching every state:
    here the two constructions agree. *)
Lemma mrp_source_inputs_agree :
  ∃ out (shared fine : MRP.t),
    MRP.__init__ mrp_input1 1%Q = (out, Ok shared)
    ∧ MRP.__init__ mrp_input2 1%Q = (out, Ok fine)
    ∧ MRP.state_transition_matrix shared = MRP.state_transition_matrix fine
    ∧ MRP.reward_matrix shared = MRP.reward_matrix fine
    ∧ MRP.reward_function shared = [(1, 7%Q); (2, 10%Q)]
    ∧ MRP.reward_function fine = [(1, 7%Q); (2, 10%Q)]
    ∧ MRP.value_function shared = [(1, 860#29); (2, 470#29)]
    ∧ MRP.value_function fine = [(1, 860#29); (2, 470#29)].
Proof. eexists _, _, _. split_and!; reflexivity. Qed.

Lemma mrp_shared_init :
  MRP.__init__ mrp_shared 1%Q = (mrp_shared_out, Ok mrp_shared_obj).
Proof. reflexivity. Qed.

Lemma mrp_fine_init :
  MRP.__init__ mrp_fine 1%Q = (mrp_shared_out, Ok mrp_fine_obj).
Proof. reflexivity. Qed.

Lemma mrp_open_shared_init :
  MRP.__init__ mrp_open_shared 1%Q = (mrp_open_shared_out, Ok mrp_open_shared_obj).
Proof. reflexivity. Qed.

Lemma mrp_open_fine_init :
  MRP.__init__ mrp_open_fine 1%Q = (mrp_shared_out, Ok mrp_open_fine_obj).
Proof. reflexivity. Qed.

Lemma mdp_stay_or_go_init :
  MDP.__init__ mdp_stay_or_go 1%Q = Ok mdp_stay_or_go_obj.
Proof. reflexivity. Qed.

(** [states_partition] on [mrp_shared] and on [mdp_stay_or_go]. *)
Lemma states_partition_witness :
  (NoDup (MRP.input_keys mrp_shared)
   ∧ MRP.__init__ mrp_shared 1%Q = (mrp_shared_out, Ok mrp_shared_obj)
   ∧ MDP.__init__ mdp_stay_or_go 1%Q = Ok mdp_stay_or_go_obj)
  ∧ (NoDup (MRP.terminal_states mrp_shared_obj)
     ∧ NoDup (MRP.non_terminal_states mrp_shared_obj)
     ∧ (∀ s, s ∈ MRP.terminal_states mrp_shared_obj →
             s ∉ MRP.non_terminal_states mrp_shared_obj)
     ∧ (∀ s, s ∈ MRP.input_keys mrp_shared ↔
          s ∈ MRP.terminal_states mrp_shared_obj
          ∨ s ∈ MRP.non_terminal_states mrp_shared_obj))
  ∧ (NoDup (MDP.terminal_states mdp_stay_or_go_obj)
     ∧ NoDup (MDP.non_terminal_states mdp_stay_or_go_obj)
     ∧ (∀ s, s ∈ MDP.terminal_states mdp_stay_or_go_obj →
             s ∉ MDP.non_terminal_states mdp_stay_or_go_obj)
     ∧ (∀ s, s ∈ MDP.all_states mdp_stay_or_go_obj ↔
          s ∈ MDP.terminal_states mdp_stay_or_go_obj
          ∨ s ∈ MDP.non_terminal_states mdp_stay_or_go_obj)).
Proof.
  assert (Hk : NoDup (MRP.input_keys mrp_shared)) by compute_done.
  split; [split_and!; [exact Hk | reflexivity | reflexivity] |].
  destruct (@states_partition nat string _ _ Q_numeric Q_runtime) as [Hmrp Hmdp].
  split.
  - exact (Hmrp mrp_shared 1%Q mrp_shared_out mrp_shared_obj Hk eq_refl).
  - exact (Hmdp mdp_stay_or_go 1%Q mdp_stay_or_go_obj eq_refl).
Defined.

(** [sample_from_terminal] on [mrp_shared], started at its terminal state 2. *)
Lemma sample_from_terminal_witness :
  (MRP.__init__ mrp_shared 1%Q = (mrp_shared_out, Ok mrp_shared_obj)
   ∧ 2 ∈ MRP.terminal_states mrp_shared_obj)
  ∧ MRP.get_random_sample 0 mrp_shared_obj () (Some 2) = Some ([], Ok ([2], 0%Q)).
Proof.
  assert (Hs : 2 ∈ MRP.terminal_states mrp_shared_obj) by compute_done.
  split; [split; [reflexivity | exact Hs] |].
  exact (@sample_from_terminal nat _ Q_numeric Q_runtime
           mrp_shared 1%Q mrp_shared_out mrp_shared_obj 2 0 () eq_refl Hs).
Defined.

(** [missing_key_queries] on [mdp_stay_or_go] and on [mrp_shared]. *)
Lemma missing_key_queries_witness :
  (get (MDP.Pair 1 "go") (MDP.transition_matrix mdp_stay_or_go_obj).1
     = Some [(2, 1%Q)]
   ∧ (1 ∉ keys (K:=nat) (V:=Q) [(2, 1%Q)])
   ∧ (MDP.Pair 2 "go" ∉ keys (MDP.transition_matrix mdp_stay_or_go_obj).1)
   ∧ MRP.__init__ mrp_shared 1%Q = (mrp_shared_out, Ok mrp_shared_obj)
   ∧ 2 ∈ MRP.terminal_states mrp_shared_obj
   ∧ (9 ∉ MRP.input_keys mrp_shared))
  ∧ MDP.query_Pr mdp_stay_or_go_obj 1 "go" 1 = Ok None
  ∧ MDP.query_Pr mdp_stay_or_go_obj 2 "go" 2 = Raise AttributeError
  ∧ (MRP.get_value mrp_shared_obj 2 = None
     ∧ MRP.get_expected_reward mrp_shared_obj 2 = None)
  ∧ (MRP.get_value mrp_shared_obj 9 = None
     ∧ MRP.get_expected_reward mrp_shared_obj 9 = None).
Proof.
  assert (H1 : 1 ∉ keys (K:=nat) (V:=Q) [(2, 1%Q)]) by compute_done.
  assert (H2go : MDP.Pair 2 "go" ∉ keys (MDP.transition_matrix mdp_stay_or_go_obj).1).
  { apply get_None_key. reflexivity. }
  assert (H2 : 2 ∈ MRP.terminal_states mrp_shared_obj) by compute_done.
  assert (H9 : 9 ∉ MRP.input_keys mrp_shared) by compute_done.
  split; [split_and!; [reflexivity | exact H1 | exact H2go | reflexivity
                      | exact H2 | exact H9] |].
  destruct (@missing_key_queries nat string _ _ Q_numeric Q_runtime)
    as (Hstored & Hunknown & Hmrp).
  split; [|split; [|split]].
  - exact (Hstored mdp_stay_or_go_obj 1 "go" 1 _ eq_refl H1).
  - exact (Hunknown mdp_stay_or_go_obj 2 "go" 2 H2go).
  - exact (Hmrp mrp_shared 1%Q mrp_shared_out mrp_shared_obj 2
             eq_refl (or_intror H2)).
  - exact (Hmrp mrp_shared 1%Q mrp_shared_out mrp_shared_obj 9
             eq_refl (or_introl H9)).
Defined.


(** [implicit_successors] on [mdp_stay_or_go], where 2 is only a
    destination, and on [mrp_open_fine], where 3 is. *)
Lemma implicit_successors_witness :
  (MDP.__init__ mdp_stay_or_go 1%Q = Ok mdp_stay_or_go_obj
   ∧ MDP.is_destination mdp_stay_or_go 2
   ∧ ¬ MDP.is_source mdp_stay_or_go 2
   ∧ MRP.__init__ mrp_open_fine 1%Q = (mrp_shared_out, Ok mrp_open_fine_obj)
   ∧ (3 ∉ MRP.input_keys mrp_open_fine))
  ∧ (2 ∈ MDP.all_states mdp_stay_or_go_obj
     ∧ 2 ∈ MDP.terminal_states mdp_stay_or_go_obj)
  ∧ (3 ∉ MRP.terminal_states mrp_open_fine_obj)
  ∧ (3 ∉ MRP.non_terminal_states mrp_open_fine_obj).
Proof.
  assert (Hdest : MDP.is_destination mdp_stay_or_go 2).
  { exists (1, "go"), [2]. split; [reflexivity | compute_done]. }
  assert (Hsrc : ¬ MDP.is_source mdp_stay_or_go 2).
  { unfold MDP.is_source. compute_done. }
  assert (H3 : 3 ∉ MRP.input_keys mrp_open_fine) by compute_done.
  split; [split_and!; [reflexivity | exact Hdest | exact Hsrc | reflexivity | exact H3] |].
  destruct (@implicit_successors nat string _ _ Q_numeric Q_runtime) as [Hmdp Hmrp].
  split.
  - exact (Hmdp mdp_stay_or_go 1%Q mdp_stay_or_go_obj 2 eq_refl Hdest Hsrc).
  - exact (Hmrp mrp_open_fine 1%Q mrp_shared_out mrp_open_fine_obj 3 eq_refl H3).
Defined.

(** [mdp_terminal_iff_every_action] on state 1 of [mdp_stay_or_go]. *)
Lemma mdp_terminal_iff_every_action_witness :
  (MDP.__init__ mdp_stay_or_go 1%Q = Ok mdp_stay_or_go_obj
   ∧ 1 ∈ MDP.all_states mdp_stay_or_go_obj)
  ∧ (1 ∈ MDP.terminal_states mdp_stay_or_go_obj ↔
       ∀ a, (1, a) ∈ MDP.input_keys mdp_stay_or_go →
            MDP.certain_self_loop mdp_stay_or_go (1, a) = true)
  ∧ (1 ∈ MDP.non_terminal_states mdp_stay_or_go_obj ↔
       ¬ ∀ a, (1, a) ∈ MDP.input_keys mdp_stay_or_go →
              MDP.certain_self_loop mdp_stay_or_go (1, a) = true).
Proof.
  assert (H1 : 1 ∈ MDP.all_states mdp_stay_or_go_obj) by compute_done.
  split; [split; [reflexivity | exact H1] |].
  exact (@mdp_terminal_iff_every_action nat string _ _ Q_numeric
           mdp_stay_or_go 1%Q mdp_stay_or_go_obj 1 eq_refl H1).
Defined.

(** [mdp_fine_first_terminal_unbound] on [mdp_terminal_first]. *)
Lemma mdp_fine_first_terminal_unbound_witness :
  (first_key terminal_first = Ok (2, "a")
   ∧ MDP._categorize_states mdp_terminal_first
       (MDP._get_all_states_and_actions mdp_terminal_first).1
     = Ok ([2; 1], [2], [1])
   ∧ 2 ∈ [2])
  ∧ MDP.__init__ mdp_terminal_first 1%Q = Raise (UnboundLocalError "state_value").
Proof.
  assert (H2 : 2 ∈ [2]) by compute_done.
  split; [split_and!; [reflexivity | reflexivity | exact H2] |].
  exact (@mdp_fine_first_terminal_unbound nat string _ _ Q_numeric
           terminal_first 1%Q (2, "a") [2; 1] [2] [1] eq_refl eq_refl H2).
Defined.

(** [get_mrp_raises_KeyError] on [mdp_stay_or_go] under the uniform policy. *)
Lemma get_mrp_raises_KeyError_witness :
  MDP.__init__ mdp_stay_or_go 1%Q = Ok mdp_stay_or_go_obj
  ∧ MDP.get_mrp mdp_stay_or_go_obj uniform_policy = Raise KeyError.
Proof.
  split; [reflexivity |].
  exact (@get_mrp_raises_KeyError nat string _ _ Q_numeric
           mdp_stay_or_go 1%Q mdp_stay_or_go_obj uniform_policy eq_refl).
Defined.

(** C2 as the specification words it fails on [mdp_stay_or_go]: state 1
    has the action ["stay"] whose map is [{1: 1}], and is not terminal,
    since ["go"] leaves it. *)
Lemma terminal_iff_some_action_counterexample :
  MDP.__init__ mdp_stay_or_go 1%Q = Ok mdp_stay_or_go_obj
  ∧ ¬ MDP.terminal_iff_some_action mdp_stay_or_go mdp_stay_or_go_obj.
Proof.
  split; [reflexivity |]. intros Hclaim.
  assert (H1 : 1 ∈ MDP.all_states mdp_stay_or_go_obj) by compute_done.
  destruct (Hclaim 1 H1) as [_ Hback].
  assert (Hin : 1 ∈ MDP.terminal_states mdp_stay_or_go_obj).
  { apply Hback. exists "stay", 1%Q.
    split_and!; [compute_done | reflexivity | reflexivity]. }
  revert Hin. compute_done.
Qed.

(** C3 as the specification words it fails on the MRP [mrp_open_fine]:
    state 3 is a destination and not a key, and is not in
    [terminal_states]. *)
Lemma successors_terminal_counterexample :
  MRP.__init__ mrp_open_fine 1%Q = (mrp_shared_out, Ok mrp_open_fine_obj)
  ∧ ¬ MRP.successors_terminal mrp_open_fine mrp_open_fine_obj.
Proof.
  split; [reflexivity |]. intros Hclaim.
  assert (H3 : 3 ∈ [3]) by compute_done.
  assert (Hk : 3 ∉ MRP.input_keys mrp_open_fine) by compute_done.
  pose proof (Hclaim 1 3 [3] eq_refl H3 Hk) as Hin.
  revert Hin. compute_done.
Qed.

(** C8 as the specification words it fails on the MRP [mrp_open_fine],
    an input with distinct keys: state 3 is a destination, hence in the
    full state set, and it is in neither list. *)
Lemma full_state_partition_counterexample :
  NoDup (MRP.input_keys mrp_open_fine)
  ∧ MRP.__init__ mrp_open_fine 1%Q = (mrp_shared_out, Ok mrp_open_fine_obj)
  ∧ MRP.full_state_set mrp_open_fine 3
  ∧ ¬ MRP.partition_of_full_state_set mrp_open_fine mrp_open_fine_obj.
Proof.
  assert (H3 : MRP.full_state_set mrp_open_fine 3).
  { right. exists 1, [3]. split; [reflexivity | compute_done]. }
  split_and!; [compute_done | reflexivity | exact H3 |].
  intros (_ & _ & _ & Hunion). apply Hunion in H3. revert H3. compute_done.
Qed.

(** C6 as the specification words it fails on [mdp_stay_or_go]:
    [query_Pr] on the key [(2, "go")], which is not stored, raises. *)
Lemma unknown_query_absent_counterexample :
  MDP.__init__ mdp_stay_or_go 1%Q = Ok mdp_stay_or_go_obj
  ∧ MDP.query_Pr mdp_stay_or_go_obj 2 "go" 2 = Raise AttributeError
  ∧ ¬ MDP.unknown_query_absent mdp_stay_or_go_obj.
Proof.
  split_and!; [reflexivity | reflexivity |]. intros Hclaim.
  assert (Hk : MDP.Pair 2 "go" ∉ keys (MDP.transition_matrix mdp_stay_or_go_obj).1).
  { apply get_None_key. reflexivity. }
  specialize (Hclaim 2 "go" 2 Hk). discriminate Hclaim.
Qed.

(** C4 on [input2] of mdp.py.  State 3 is terminal, and the keys
    [(3, "a")] and [(3, "b")] are stored in both matrices, with the rows
    the last non-terminal key [(2, "c")] left in the local variables.  On
    [input1], the same process in the other encoding, no key of state 3
    is stored. *)
Theorem fine_encoding_stores_terminal_sources :
  MDP.__init__ mdp_input2 1%Q = Ok mdp_input2_obj
  ∧ MDP.__init__ mdp_input1 1%Q = Ok mdp_input1_obj
  ∧ 3 ∈ MDP.terminal_states mdp_input2_obj
  ∧ MDP.Pair 3 "a" ∈ keys (MDP.transition_matrix mdp_input2_obj).1
  ∧ MDP.Pair 3 "b" ∈ keys (MDP.transition_matrix mdp_input2_obj).1
  ∧ MDP.Pair 3 "a" ∈ keys (MDP.transition_matrix mdp_input2_obj).2
  ∧ MDP.Pair 3 "b" ∈ keys (MDP.transition_matrix mdp_input2_obj).2
  ∧ get (MDP.Pair 3 "a") (MDP.transition_matrix mdp_input2_obj).1
    = get (MDP.Pair 2 "c") (MDP.transition_matrix mdp_input2_obj).1
  ∧ get (MDP.Pair 3 "b") (MDP.transition_matrix mdp_input2_obj).2
    = get (MDP.Pair 2 "c") (MDP.transition_matrix mdp_input2_obj).2
  ∧ (MDP.Pair 3 "a" ∉ keys (MDP.transition_matrix mdp_input1_obj).1)
  ∧ (MDP.Pair 3 "b" ∉ keys (MDP.transition_matrix mdp_input1_obj).1).
Proof.
  split_and!; try reflexivity.
  - compute_done.
  - by apply (get_Some_key _ row_c).
  - by apply (get_Some_key _ row_c).
  - by apply (get_Some_key _ reward_c).
  - by apply (get_Some_key _ reward_c).
  - by apply get_None_key.
  - by apply get_None_key.
Qed.

(** C5 on two processes, each in its two encodings.  On the first the
    transition matrices and the value functions agree and the reward
    matrices differ: the shared-reward branch gives a row one entry per
    source key of the input, the fine-grained branch one entry per
    destination.  On the second, whose destination is not a key, the
    reward functions and the value functions differ too. *)
Theorem encodings_disagree :
  (MRP.__init__ mrp_shared 1%Q = (mrp_shared_out, Ok mrp_shared_obj)
   ∧ MRP.__init__ mrp_fine 1%Q = (mrp_shared_out, Ok mrp_fine_obj)
   ∧ MRP.state_transition_matrix mrp_shared_obj
     = MRP.state_transition_matrix mrp_fine_obj
   ∧ MRP.value_function mrp_shared_obj = MRP.value_function mrp_fine_obj
   ∧ MRP.reward_matrix mrp_shared_obj = [(1, [(1, 5%Q); (2, 5%Q)])]
   ∧ MRP.reward_matrix mrp_fine_obj = [(1, [(2, 5%Q)])]
   ∧ MRP.reward_matrix mrp_shared_obj ≠ MRP.reward_matrix mrp_fine_obj)
  ∧ (MRP.__init__ mrp_open_shared 1%Q = (mrp_open_shared_out, Ok mrp_open_shared_obj)
     ∧ MRP.__init__ mrp_open_fine 1%Q = (mrp_shared_out, Ok mrp_open_fine_obj)
     ∧ MRP.reward_matrix mrp_open_shared_obj = [(1, [(1, 5%Q)])]
     ∧ MRP.reward_matrix mrp_open_fine_obj = [(1, [(3, 5%Q)])]
     ∧ MRP.reward_function mrp_open_shared_obj = [(1, 0%Q)]
     ∧ MRP.reward_function mrp_open_fine_obj = [(1, 5%Q)]
     ∧ MRP.value_function mrp_open_shared_obj = [(1, 0%Q)]
     ∧ MRP.value_function mrp_open_fine_obj = [(1, 5%Q)]).
Proof. split; split_and!; try reflexivity. discriminate. Qed.

(** [mrp_no_terminal_source] on [mrp_shared]. *)
Lemma mrp_no_terminal_source_witness :
  (MRP.__init__ mrp_shared 1%Q = (mrp_shared_out, Ok mrp_shared_obj)
   ∧ 2 ∈ MRP.terminal_states mrp_shared_obj)
  ∧ (2 ∉ keys (MRP.state_transition_matrix mrp_shared_obj))
  ∧ (2 ∉ keys (MRP.reward_matrix mrp_shared_obj)).
Proof.
  assert (Hs : 2 ∈ MRP.terminal_states mrp_shared_obj) by compute_done.
  split; [split; [reflexivity | exact Hs] |].
  exact (@mrp_no_terminal_source nat _ Q_numeric Q_runtime
           mrp_shared 1%Q mrp_shared_out mrp_shared_obj 2 eq_refl Hs).
Defined.

(** [mdp_shared_no_terminal_source] on [input1] of mdp.py. *)
Lemma mdp_shared_no_terminal_source_witness :
  (MDP.__init__ mdp_input1 1%Q = Ok mdp_input1_obj
   ∧ 3 ∈ MDP.terminal_states mdp_input1_obj)
  ∧ (MDP.Pair 3 "a" ∉ keys (MDP.transition_matrix mdp_input1_obj).1)
  ∧ (MDP.Pair 3 "a" ∉ keys (MDP.transition_matrix mdp_input1_obj).2).
Proof.
  assert (Hs : 3 ∈ MDP.terminal_states mdp_input1_obj) by compute_done.
  split; [split; [reflexivity | exact Hs] |].
  exact (@mdp_shared_no_terminal_source nat string _ _ Q_numeric
           input1 1%Q mdp_input1_obj 3 "a" eq_refl Hs).
Defined.
End examples.

(** * Further properties of the construction *)

Section mrp_total.
Context {State : Type} `{EqDecision State} `{Runtime}.
Implicit Types (inp : MRP.mrp_input (State:=State)) (s : State).
Implicit Types (T N l : list State) (stm rm : dict State (dict State num)).
Implicit Types (rf vf : dict State num) (g : num).

Lemma mrp_categorize_loop_total inp l T N :
  (∀ s, s ∈ l → s ∈ MRP.input_keys inp) →
  ∃ r, MRP.categorize_loop inp l T N = Ok r.
Proof.
  revert T N. induction l as [|x l IH]; intros T N Hl; simpl; [eauto|].
  destruct (mrp_self_loop_key inp x) as [b ->]; [apply Hl; left|]. simpl.
  destruct b; apply IH; intros; apply Hl; by right.
Qed.

Lemma mrp_split_row_total (row : dict State (num * num)) l sv rv :
  (∀ s, s ∈ l → s ∈ keys row) → ∃ r, MRP.split_row row l sv rv = Ok r.
Proof.
  revert sv rv. induction l as [|x l IH]; intros sv rv Hl; simpl; [eauto|].
  destruct (get_key_is_Some x row) as [[p r] ->]; [apply Hl; left|]. simpl.
  apply IH. intros; apply Hl; by right.
Qed.

Lemma mrp_shared_row_total (d : dict State (dict State num * num)) s1 l rv :
  s1 ∈ keys d → ∃ r, MRP.shared_row d s1 l rv = Ok r.
Proof.
  intros [[row r] Hs1]%get_key_is_Some.
  revert rv. induction l as [|x l IH]; intros rv; simpl; [eauto|].
  rewrite Hs1. simpl. apply IH.
Qed.

Lemma mrp_assign_loop_total inp l stm rm :
  (∀ s, s ∈ l → s ∈ MRP.input_keys inp) →
  ∃ r, MRP.assign_loop inp l stm rm = Ok r.
Proof.
  revert stm rm. induction l as [|x l IH]; intros stm rm Hl; simpl; [eauto|].
  assert (Hx : x ∈ MRP.input_keys inp) by (apply Hl; left).
  assert (Hl' : ∀ s, s ∈ l → s ∈ MRP.input_keys inp) by (intros; apply Hl; by right).
  destruct inp as [d|d]; simpl in Hx.
  - destruct (get_key_is_Some x d Hx) as [row ->]. simpl.
    destruct (mrp_split_row_total row (keys row) [] []) as [[sv rv] ->]; [done|].
    simpl. by apply IH.
  - destruct (get_key_is_Some x d Hx) as [[row r] ->]. simpl.
    destruct (mrp_shared_row_total d x (keys d) [] Hx) as [rv ->].
    simpl. by apply IH.
Qed.

Lemma mrp_expected_loop_total stm rm s l (acc : num) :
  s ∈ keys stm → s ∈ keys rm → ∃ r, MRP.expected_loop stm rm s l acc = Ok r.
Proof.
  intros [prow Hp]%get_key_is_Some [rrow Hr]%get_key_is_Some.
  revert acc. induction l as [|x l IH]; intros acc; simpl; [eauto|].
  rewrite Hp, Hr. simpl. apply IH.
Qed.

Lemma mrp_reward_loop_total stm rm l rl :
  (∀ s, s ∈ l → s ∈ keys stm ∧ s ∈ keys rm) →
  ∃ r, MRP.reward_loop stm rm l rl = Ok r.
Proof.
  revert rl. induction l as [|x l IH]; intros rl Hl; simpl; [eauto|].
  destruct (Hl x) as [Hs Hr]; [left|].
  destruct (get_key_is_Some x stm Hs) as [prow Hp]. rewrite Hp. simpl.
  destruct (mrp_expected_loop_total stm rm x (keys prow) fzero Hs Hr) as [e ->].
  simpl. apply IH. intros; apply Hl; by right.
Qed.

Lemma mrp_P_rows_total stm (rows cols : list State) :
  (∀ s, s ∈ rows → s ∈ keys stm) → ∃ P, MRP.P_rows stm rows cols = Ok P.
Proof.
  induction rows as [|x rows IH]; intros Hl; simpl; [eauto|].
  destruct (get_key_is_Some x stm) as [prow ->]; [apply Hl; left|]. simpl.
  destruct IH as [m ->]; [intros; apply Hl; by right|]. simpl. eauto.
Qed.

(** On an input that is not empty the construction reaches the linear
    solve: none of its own lookups fails. *)
Lemma mrp_reaches_solve inp :
  MRP.input_keys inp ≠ [] →
  ∃ ti T N stm rm rf P,
    MRP.input_type inp = Ok ti
    ∧ MRP._categorize_states inp = Ok (T, N)
    ∧ MRP._assign_transition_matrix inp N = Ok (stm, rm)
    ∧ MRP._assign_reward_function stm rm = Ok rf
    ∧ MRP.P_matrix stm N = Ok P.
Proof.
  intros Hne.
  assert (∃ ti, MRP.input_type inp = Ok ti) as [ti Hti].
  { destruct inp as [[|[k v] d]|[|[k v] d]]; simpl in *; try done; eauto. }
  destruct (mrp_categorize_loop_total inp (MRP.input_keys inp) [] []) as [[T N] Hc];
    [done|].
  pose proof (mrp_categorize_spec _ _ _ Hc) as (_ & _ & HN).
  destruct (mrp_assign_loop_total inp N [] []) as [[stm rm] Ha].
  { intros s Hs. by apply HN in Hs as [? _]. }
  pose proof (mrp_assign_loop_keys _ _ _ _ _ _ Ha) as [Hks Hkr].
  destruct (mrp_reward_loop_total stm rm (keys rm) []) as [rf Hrf].
  { intros s Hs. split; [|done]. apply Hks. apply Hkr in Hs. done. }
  destruct (mrp_P_rows_total stm N N) as [P HP].
  { intros s Hs. apply Hks. by right. }
  by exists ti, T, N, stm, rm, rf, P.
Qed.
End mrp_total.

Section further_mrp.
Context {State Action : Type} `{EqDecision State} `{EqDecision Action} `{Runtime}.
Implicit Types (s : State) (a : Action) (g : num).

(** X3.  Both constructors raise [StopIteration] on an empty input: the
    encoding is read off the first key. *)
Theorem empty_input_StopIteration :
  (∀ (inp : MRP.mrp_input (State:=State)) g,
     MRP.input_keys inp = [] → MRP.__init__ inp g = ([], Raise StopIteration))
  ∧ (∀ (inp : MDP.mdp_input (State:=State) (Action:=Action)) g,
     MDP.input_keys inp = [] → MDP.__init__ inp g = Raise StopIteration).
Proof.
  split.
  - intros [[|[k v] d]|[|[k v] d]] g; simpl; intros Hk; try discriminate; reflexivity.
  - intros [[|[k v] d]|[|[k v] d]] g; simpl; intros Hk; try discriminate; reflexivity.
Qed.

(** X4.  On an input that is not empty the construction of an MRP raises
    nothing of its own: an error it ends with was raised by the linear
    solve, and is not a singular-matrix error; or by the least-squares
    solve that follows a singular-matrix error; or by the iteration over
    the solution [V] that the linear solve, or the least-squares solve
    after a singular-matrix error, returned. *)
Theorem mrp_init_raises_only_numpy
    (inp : MRP.mrp_input (State:=State)) g out e :
  MRP.input_keys inp ≠ [] →
  MRP.__init__ inp g = (out, Raise e) →
  ∃ T N stm rm rf P,
    MRP._categorize_states inp = Ok (T, N)
    ∧ MRP._assign_transition_matrix inp N = Ok (stm, rm)
    ∧ MRP._assign_reward_function stm rm = Ok rf
    ∧ MRP.P_matrix stm N = Ok P
    ∧ ((linalg_solve g P (values rf) = Raise e
        ∧ MRP.is_singular_error e = false)
       ∨ (∃ e0, linalg_solve g P (values rf) = Raise e0
                ∧ MRP.is_singular_error e0 = true
                ∧ linalg_lstsq g P (values rf) = Raise e)
       ∨ (∃ V, (linalg_solve g P (values rf) = Ok V
                ∨ ∃ e0, linalg_solve g P (values rf) = Raise e0
                        ∧ MRP.is_singular_error e0 = true
                        ∧ linalg_lstsq g P (values rf) = Ok V)
               ∧ nditer V = Raise e)).
Proof.
  intros Hne Hinit.
  destruct (mrp_reaches_solve inp Hne) as (ti & T & N & stm & rm & rf & P & Hti & Hc & Ha & Hr & HP).
  exists T, N, stm, rm, rf, P. split_and!; [done..|].
  unfold MRP.__init__ in Hinit.
  rewrite io_bind_lift, Hti, io_bind_lift, Hc, io_bind_lift, Ha, io_bind_lift, Hr in Hinit.
  unfold MRP._assign_value_function in Hinit.
  rewrite !io_bind_print, io_bind_lift, HP, !io_bind_print in Hinit.
  unfold MRP.solve_or_lstsq in Hinit.
  destruct (linalg_solve g P (values rf)) as [V|e0] eqn:Hsolve.
  - cbn in Hinit. destruct (nditer V) as [it|e1] eqn:Hit; cbn in Hinit; [discriminate|].
    injection Hinit as _ <-. right. right. exists V. split; [by left | done].
  - destruct (MRP.is_singular_error e0) eqn:Hsing.
    + pose proof Hsing as Hsing'.
      destruct e0; simpl in Hsing; try discriminate. rewrite Hsing in Hinit.
      rewrite io_bind_print in Hinit.
      destruct (linalg_lstsq g P (values rf)) as [V|e1] eqn:Hls; cbn in Hinit.
      * destruct (nditer V) as [it|e2] eqn:Hit; cbn in Hinit; [discriminate|].
        injection Hinit as _ <-. right. right. exists V. split; [|done].
        right. eexists. split_and!; [reflexivity | exact Hsing' | done].
      * injection Hinit as _ <-. right. left.
        eexists. split_and!; [reflexivity | exact Hsing' | done].
    + left. pose proof Hsing as Hsing'. destruct e0; simpl in Hsing; cbn in Hinit;
        try (injection Hinit as _ <-; split; [reflexivity | exact Hsing']).
      rewrite Hsing in Hinit. cbn in Hinit. injection Hinit as _ <-.
      split; [reflexivity | exact Hsing'].
Qed.

End further_mrp.

Section mrp_structure.
Context {State : Type} `{EqDecision State} `{Runtime}.
Implicit Types (inp : MRP.mrp_input (State:=State)) (s : State).
Implicit Types (T N l : list State) (stm rm : dict State (dict State num)).
Implicit Types (rf vf : dict State num) (g : num).

Lemma mrp_self_loop_certain inp s b :
  MRP.self_loop inp s = Ok b → mrp_certain inp s = b.
Proof.
  unfold mrp_certain. destruct inp as [d|d]; simpl.
  - destruct (get s d) as [row|]; simpl; [|discriminate].
    destruct (get s row) as [[p r]|]; simpl; by intros [= <-].
  - destruct (get s d) as [[row r]|]; simpl; [|discriminate].
    destruct (get s row) as [p|]; simpl; by intros [= <-].
Qed.

Lemma mrp_categorize_loop_filter inp l T N T' N' :
  MRP.categorize_loop inp l T N = Ok (T', N') →
  T' = T ++ filter (λ s, mrp_certain inp s = true) l
  ∧ N' = N ++ filter (λ s, mrp_certain inp s = false) l.
Proof.
  revert T N. induction l as [|x l IH]; intros T N; simpl.
  - intros [= <- <-]. by rewrite !app_nil_r.
  - destruct (MRP.self_loop inp x) as [b|] eqn:Hx; simpl; [|discriminate].
    apply mrp_self_loop_certain in Hx.
    destruct b; intros [-> ->]%IH.
    + rewrite filter_cons_True, filter_cons_False by (rewrite Hx; done).
      by rewrite <- app_assoc.
    + rewrite filter_cons_False, filter_cons_True by (rewrite Hx; done).
      by rewrite <- app_assoc.
Qed.

Lemma keys_update_fresh {K V : Type} `{EqDecision K} (k : K) (v : V) (d : dict K V) :
  k ∉ keys d → keys (update k v d) = keys d ++ [k].
Proof. intros Hk. rewrite keys_update. by rewrite decide_False. Qed.

Lemma mrp_assign_loop_keys_list inp l stm rm stm' rm' :
  NoDup l → (∀ s, s ∈ l → s ∉ keys stm) → keys stm = keys rm →
  MRP.assign_loop inp l stm rm = Ok (stm', rm') →
  keys stm' = keys stm ++ l ∧ keys rm' = keys rm ++ l.
Proof.
  revert stm rm. induction l as [|x l IH]; intros stm rm Hnd Hfresh Heq; simpl.
  - intros [= <- <-]. by rewrite !app_nil_r.
  - apply NoDup_cons in Hnd as [Hx Hnd].
    assert (Hxs : x ∉ keys stm) by (apply Hfresh; left).
    assert (Hxr : x ∉ keys rm) by (by rewrite <- Heq).
    assert (Hstep : ∀ (v w : dict State num),
      MRP.assign_loop inp l (update x v stm) (update x w rm) = Ok (stm', rm') →
      keys stm' = keys stm ++ x :: l ∧ keys rm' = keys rm ++ x :: l).
    { intros v w Hl. apply IH in Hl as [-> ->]; [| done | |].
      - rewrite !keys_update_fresh by done. by rewrite <- !app_assoc.
      - intros s Hs. rewrite keys_update_fresh by done.
        rewrite not_elem_of_app, list_elem_of_singleton. split.
        + apply Hfresh. by right.
        + intros ->. done.
      - rewrite !keys_update_fresh by done. by rewrite Heq. }
    destruct inp as [d|d].
    + destruct (get x d) as [row|]; simpl; [|discriminate].
      destruct (MRP.split_row row (keys row) [] []) as [[sv rv]|]; simpl; [|discriminate].
      apply Hstep.
    + destruct (get x d) as [[row r]|]; simpl; [|discriminate].
      destruct (MRP.shared_row d x (keys d) []) as [rv|]; simpl; [|discriminate].
      apply Hstep.
Qed.

Lemma mrp_reward_loop_keys_list stm rm l (rl rl' : dict State num) :
  NoDup l → (∀ s, s ∈ l → s ∉ keys rl) →
  MRP.reward_loop stm rm l rl = Ok rl' → keys rl' = keys rl ++ l.
Proof.
  revert rl. induction l as [|x l IH]; intros rl Hnd Hfresh; simpl.
  - intros [= <-]. by rewrite app_nil_r.
  - apply NoDup_cons in Hnd as [Hx Hnd].
    assert (Hxs : x ∉ keys rl) by (apply Hfresh; left).
    destruct (get x stm) as [prow|]; simpl; [|discriminate].
    destruct (MRP.expected_loop stm rm x (keys prow) fzero) as [e|]; simpl; [|discriminate].
    intros Hl. apply IH in Hl as ->; [| done |].
    + rewrite keys_update_fresh by done. by rewrite <- app_assoc.
    + intros s Hs. rewrite keys_update_fresh by done.
      rewrite not_elem_of_app, list_elem_of_singleton. split.
      * apply Hfresh. by right.
      * intros ->. done.
Qed.

Lemma mrp_P_row_length (prow : dict State num) (cols : list State) :
  length (MRP.P_row prow cols) = length cols.
Proof. induction cols; simpl; congruence. Qed.

Lemma mrp_P_rows_shape stm (rows cols : list State) P :
  MRP.P_rows stm rows cols = Ok P →
  length P = length rows ∧ Forall (λ r, length r = length cols) P.
Proof.
  revert P. induction rows as [|x rows IH]; intros P; simpl.
  - intros [= <-]. split; [done | constructor].
  - destruct (get x stm) as [prow|]; simpl; [|discriminate].
    destruct (MRP.P_rows stm rows cols) as [m|]; simpl; [|discriminate].
    intros [= <-]. destruct (IH m eq_refl) as [Hl Hf]. split; [simpl; congruence|].
    constructor; [apply mrp_P_row_length | done].
Qed.

Lemma mrp_dict_of_zip_keys_list (states : list State) (vals : list num) vf :
  NoDup states → (∀ s, s ∈ states → s ∉ keys vf) →
  keys (MRP.dict_of_zip states vals vf) = keys vf ++ take (length vals) states.
Proof.
  revert vals vf. induction states as [|x states IH]; intros [|v vals] vf Hnd Hfresh;
    simpl; rewrite ?app_nil_r; try done.
  apply NoDup_cons in Hnd as [Hx Hnd].
  assert (Hxs : x ∉ keys vf) by (apply Hfresh; left).
  rewrite IH; [| done |].
  - rewrite keys_update_fresh by done. by rewrite <- app_assoc.
  - intros s Hs. rewrite keys_update_fresh by done.
    rewrite not_elem_of_app, list_elem_of_singleton. split.
    + apply Hfresh. by right.
    + intros ->. done.
Qed.
End mrp_structure.

Section mrp_rows.
Context {State : Type} `{EqDecision State} `{Runtime}.
Implicit Types (inp : MRP.mrp_input (State:=State)) (s : State).
Implicit Types (T N l : list State) (stm rm : dict State (dict State num)).
Implicit Types (rf vf : dict State num) (g : num).

Lemma mrp_split_row_get (row : dict State (num * num)) l sv rv sv' rv' :
  MRP.split_row row l sv rv = Ok (sv', rv') →
  ∀ s2, get s2 sv' = (if decide (s2 ∈ l) then option_map fst (get s2 row) else get s2 sv)
      ∧ get s2 rv' = (if decide (s2 ∈ l) then option_map snd (get s2 row) else get s2 rv).
Proof.
  revert sv rv. induction l as [|x l IH]; intros sv rv; simpl.
  - intros [= <- <-] s2. done.
  - destruct (get x row) as [[p r]|] eqn:Hx; simpl; [|discriminate].
    intros Hl s2. destruct (IH _ _ Hl s2) as [Hs Hr]. rewrite Hs, Hr, !get_update.
    destruct (decide (s2 ∈ l)) as [Hin|Hnin].
    + rewrite !decide_True by (apply elem_of_cons; tauto). done.
    + destruct (decide (s2 = x)) as [->|Hne].
      * rewrite !decide_True by (apply elem_of_cons; tauto). by rewrite Hx.
      * rewrite !decide_False by (rewrite elem_of_cons; tauto). done.
Qed.

Lemma mrp_shared_row_get (d : dict State (dict State num * num)) s1 row r l rv rv' :
  get s1 d = Some (row, r) →
  MRP.shared_row d s1 l rv = Ok rv' →
  ∀ s2, get s2 rv' = if decide (s2 ∈ l) then Some r else get s2 rv.
Proof.
  intros Hs1. revert rv. induction l as [|x l IH]; intros rv; simpl.
  - intros [= <-] s2. done.
  - rewrite Hs1. simpl. intros Hl s2. rewrite (IH _ Hl s2), get_update.
    destruct (decide (s2 ∈ l)) as [Hin|Hnin].
    + rewrite !decide_True by (apply elem_of_cons; tauto). done.
    + destruct (decide (s2 = x)) as [->|Hne].
      * rewrite !decide_True by (apply elem_of_cons; tauto). done.
      * rewrite !decide_False by (rewrite elem_of_cons; tauto). done.
Qed.

Lemma mrp_assign_loop_good inp l stm rm stm' rm' :
  (∀ s prow, get s stm = Some prow → good_probability_row inp s prow) →
  (∀ s rrow, get s rm = Some rrow → good_reward_row inp s rrow) →
  MRP.assign_loop inp l stm rm = Ok (stm', rm') →
  (∀ s prow, get s stm' = Some prow → good_probability_row inp s prow)
  ∧ (∀ s rrow, get s rm' = Some rrow → good_reward_row inp s rrow).
Proof.
  revert stm rm. induction l as [|x l IH]; intros stm rm Hp Hr; simpl.
  - by intros [= <- <-].
  - destruct inp as [d|d].
    + destruct (get x d) as [row|] eqn:Hx; simpl; [|discriminate].
      destruct (MRP.split_row row (keys row) [] []) as [[sv rv]|] eqn:Hsplit;
        simpl; [|discriminate].
      pose proof (mrp_split_row_get _ _ _ _ _ _ Hsplit) as Hget.
      assert (Hrow : ∀ s2 : State, s2 ∉ keys row → get s2 row = None)
        by (intros; by apply get_None_key).
      apply IH.
      * intros s prow. rewrite get_update. destruct (decide (s = x)) as [->|]; [|apply Hp].
        intros [= <-] s2. destruct (Hget s2) as [-> _]. simpl. rewrite Hx.
        destruct (decide (s2 ∈ keys row)); [done|]. by rewrite Hrow.
      * intros s rrow. rewrite get_update. destruct (decide (s = x)) as [->|]; [|apply Hr].
        intros [= <-] s2. destruct (Hget s2) as [_ ->]. simpl. rewrite Hx.
        destruct (decide (s2 ∈ keys row)); [done|]. by rewrite Hrow.
    + destruct (get x d) as [[row r]|] eqn:Hx; simpl; [|discriminate].
      destruct (MRP.shared_row d x (keys d) []) as [rv|] eqn:Hshared;
        simpl; [|discriminate].
      pose proof (mrp_shared_row_get _ _ _ _ _ _ _ Hx Hshared) as Hget.
      apply IH.
      * intros s prow. rewrite get_update. destruct (decide (s = x)) as [->|]; [|apply Hp].
        intros [= <-] s2. simpl. by rewrite Hx.
      * intros s rrow. rewrite get_update. destruct (decide (s = x)) as [->|]; [|apply Hr].
        intros [= <-] s2. rewrite Hget. simpl. rewrite Hx.
        destruct (decide (s2 ∈ keys d)); done.
Qed.

(** X6.  In a constructed MRP, [terminal_states] are the keys of the input
    whose recorded self-transition probability is [1] and
    [non_terminal_states] are the other keys, both in the order of the
    input. *)
Theorem mrp_states_in_input_order inp g out (self : MRP.t) :
  MRP.__init__ inp g = (out, Ok self) →
  MRP.terminal_states self
  = filter (λ s, mrp_certain inp s = true) (MRP.input_keys inp)
  ∧ MRP.non_terminal_states self
    = filter (λ s, mrp_certain inp s = false) (MRP.input_keys inp).
Proof.
  intros (_ & _ & Hc & _)%mrp_init_inv.
  by apply mrp_categorize_loop_filter in Hc as [-> ->].
Qed.

(** X7.  In an MRP constructed from an input with distinct keys, the keys
    of [state_transition_matrix], of [reward_matrix] and of
    [reward_function] are [non_terminal_states], in that order; the matrix
    P handed to the solver is square of that size, the vector R has that
    length, and the keys of [value_function] are the first non-terminal
    states, as many as the solution has elements. *)
Theorem mrp_indexed_by_non_terminal inp g out (self : MRP.t) :
  NoDup (MRP.input_keys inp) →
  MRP.__init__ inp g = (out, Ok self) →
  keys (MRP.state_transition_matrix self) = MRP.non_terminal_states self
  ∧ keys (MRP.reward_matrix self) = MRP.non_terminal_states self
  ∧ keys (MRP.reward_function self) = MRP.non_terminal_states self
  ∧ length (values (MRP.reward_function self)) = length (MRP.non_terminal_states self)
  ∧ (∃ P, MRP.P_matrix (MRP.state_transition_matrix self) (MRP.non_terminal_states self)
          = Ok P
          ∧ length P = length (MRP.non_terminal_states self)
          ∧ Forall (λ r, length r = length (MRP.non_terminal_states self)) P)
  ∧ (∃ k, keys (MRP.value_function self) = take k (MRP.non_terminal_states self)).
Proof.
  intros Hnd (_ & _ & Hc & Ha & Hf & Hv)%mrp_init_inv.
  assert (HN : NoDup (MRP.non_terminal_states self)).
  { apply mrp_categorize_spec in Hc as (HP & _). rewrite <- HP in Hnd.
    by apply NoDup_app in Hnd as (_ & _ & ?). }
  apply mrp_assign_loop_keys_list in Ha as [Hks Hkr];
    [| done | intros; apply not_elem_of_nil | done].
  simpl in Hks, Hkr.
  assert (Hkf : keys (MRP.reward_function self) = MRP.non_terminal_states self).
  { apply mrp_reward_loop_keys_list in Hf as ->; [by rewrite Hkr | by rewrite Hkr |].
    intros; apply not_elem_of_nil. }
  apply mrp_value_function_inv in Hv as (P & V & it & o & HP & _ & _ & Hvf & _).
  split_and!; [done.. | | |].
  - unfold values, keys in *. by rewrite length_fmap, <- Hkf, length_fmap.
  - exists P. split; [done|]. by apply (mrp_P_rows_shape (MRP.state_transition_matrix self)).
  - exists (length it). rewrite Hvf.
    rewrite mrp_dict_of_zip_keys_list; [done | done |]. intros; apply not_elem_of_nil.
Qed.

(** X8.  In a constructed MRP every non-terminal state has a row in each
    matrix.  The probability row holds the probabilities the input records
    for the state.  The reward row holds, in the fine-grained encoding, the
    rewards the input records for the state; in the shared-reward encoding
    the reward of the state under every source key of the input, and
    nothing under a state that is not a source key. *)
Theorem mrp_stored_rows inp g out (self : MRP.t) s :
  MRP.__init__ inp g = (out, Ok self) →
  s ∈ MRP.non_terminal_states self →
  ∃ prow rrow,
    get s (MRP.state_transition_matrix self) = Some prow
    ∧ get s (MRP.reward_matrix self) = Some rrow
    ∧ (∀ s2, get s2 prow = mrp_probability inp s s2)
    ∧ (∀ s2, get s2 rrow =
             match inp with
             | MRP.SSTff _ => mrp_reward inp s s2
             | MRP.STSff d =>
                 if decide (s2 ∈ keys d) then mrp_reward inp s s2 else None
             end).
Proof.
  intros Hinit Hs.
  destruct (mrp_matrix_keys _ _ _ _ Hinit s) as (Hks & Hkr & _).
  pose proof (proj2 Hks Hs) as [prow Hp]%get_key_is_Some.
  pose proof (proj2 Hkr Hs) as [rrow Hr]%get_key_is_Some.
  pose proof Hinit as (_ & _ & _ & Ha & _)%mrp_init_inv.
  apply mrp_assign_loop_good in Ha as [Hgp Hgr]; [| done | done].
  exists prow, rrow. split_and!; [done | done | by apply Hgp | by apply Hgr].
Qed.

(** X9.  In a constructed MRP, [get_state_transition_reward] raises
    [AttributeError] when the current state is not a non-terminal state
    (terminal or unknown); on a non-terminal state it returns the entry of
    the stored reward row, and [0.0] when the row has none. *)
Theorem mrp_transition_reward_query inp g out (self : MRP.t) s s2 :
  MRP.__init__ inp g = (out, Ok self) →
  (s ∉ MRP.non_terminal_states self →
     MRP.get_state_transition_reward self s s2 = Raise AttributeError)
  ∧ (s ∈ MRP.non_terminal_states self →
     MRP.get_state_transition_reward self s s2
     = Ok (default fzero
             match inp with
             | MRP.SSTff _ => mrp_reward inp s s2
             | MRP.STSff d =>
                 if decide (s2 ∈ keys d) then mrp_reward inp s s2 else None
             end)).
Proof.
  intros Hinit. split; intros Hs.
  - destruct (mrp_matrix_keys _ _ _ _ Hinit s) as (_ & Hkr & _).
    unfold MRP.get_state_transition_reward.
    assert (Hnone : get s (MRP.reward_matrix self) = None).
    { apply get_None_key. by rewrite Hkr. }
    by rewrite Hnone.
  - destruct (mrp_matrix_keys _ _ _ _ Hinit s) as (_ & Hkr & _).
    pose proof (proj2 Hkr Hs) as [rrow Hr]%get_key_is_Some.
    pose proof Hinit as (_ & _ & _ & Ha & _)%mrp_init_inv.
    apply mrp_assign_loop_good in Ha as [_ Hgr]; [| done | done].
    unfold MRP.get_state_transition_reward. rewrite Hr. simpl.
    by rewrite (Hgr _ _ Hr s2).
Qed.
End mrp_rows.

Section mrp_encodings.
Context {State : Type} `{EqDecision State} `{Runtime}.
Implicit Types (s : State) (d : dict State (dict State num * num)).
Implicit Types (T N l : list State) (stm rm : dict State (dict State num)).
Implicit Types (row : dict State num) (r g : num).

Lemma update_fresh {K V : Type} `{EqDecision K} (k : K) (v : V) (m : dict K V) :
  k ∉ keys m → update k v m = m ++ [(k, v)].
Proof.
  induction m as [|[k' v'] m IH]; simpl; [done|].
  intros [Hne Hk]%not_elem_of_cons. rewrite decide_False by done. by rewrite IH.
Qed.

Lemma get_app_fresh {K V : Type} `{EqDecision K} (k : K) (m1 m2 : dict K V) :
  k ∉ keys m1 → get k (m1 ++ m2) = get k m2.
Proof.
  induction m1 as [|[k' v'] m1 IH]; simpl; [done|].
  intros [Hne Hk]%not_elem_of_cons. rewrite decide_False by done. by apply IH.
Qed.

Lemma keys_to_fine_row row r : keys (to_fine_row row r) = keys row.
Proof. unfold keys. induction row as [|[s2 p] row IH]; csimpl; [done|]. by f_equal. Qed.

Lemma keys_to_fine d : keys (to_fine d) = keys d.
Proof. unfold keys. induction d as [|[s [row r]] d IH]; csimpl; [done|]. by f_equal. Qed.

Lemma get_to_fine_row row r s2 :
  get s2 (to_fine_row row r) = option_map (λ p, (p, r)) (get s2 row).
Proof.
  induction row as [|[s p] row IH]; simpl; [done|]. by destruct (decide (s2 = s)).
Qed.

Lemma get_to_fine d s :
  get s (to_fine d) = option_map (λ v, to_fine_row v.1 v.2) (get s d).
Proof.
  induction d as [|[s' [row r]] d IH]; simpl; [done|]. by destruct (decide (s = s')).
Qed.

Lemma mrp_probability_to_fine d s s2 :
  mrp_probability (MRP.SSTff (to_fine d)) s s2 = mrp_probability (MRP.STSff d) s s2.
Proof.
  simpl. rewrite get_to_fine. destruct (get s d) as [[row r]|]; simpl; [|done].
  rewrite get_to_fine_row. by destruct (get s2 row).
Qed.

Lemma mrp_split_row_to_fine (pre rest : dict State num) r :
  NoDup (keys (pre ++ rest)) →
  MRP.split_row (to_fine_row (pre ++ rest) r) (keys rest) pre (constant_row pre r)
  = Ok (pre ++ rest, constant_row (pre ++ rest) r).
Proof.
  revert pre. induction rest as [|[x p] rest IH]; intros pre Hnd; csimpl.
  - by rewrite app_nil_r.
  - assert (Hx : x ∉ keys pre).
    { unfold keys in *. rewrite fmap_app in Hnd. apply NoDup_app in Hnd as (_ & Hd & _).
      intros Hin. apply (Hd x Hin). csimpl. left. }
    rewrite get_to_fine_row, get_app_fresh by done. simpl.
    rewrite decide_True by done. simpl.
    assert (Hx' : x ∉ keys (constant_row pre r)).
    { clear -Hx. unfold constant_row, keys in *.
      induction pre as [|[k v] pre IH]; csimpl in *; [done|].
      apply not_elem_of_cons in Hx as [? ?]. apply not_elem_of_cons. auto. }
    rewrite !update_fresh by done.
    replace (pre ++ (x, p) :: rest) with ((pre ++ [(x, p)]) ++ rest) in *
      by (by rewrite <- app_assoc).
    specialize (IH (pre ++ [(x, p)]) Hnd).
    unfold constant_row at 1 in IH. rewrite map_app in IH. exact IH.
Qed.

Lemma mrp_assign_loop_same_stm d l stm rm1 rm2 stm1 rm1' stm2 rm2' :
  distinct_rows d →
  MRP.assign_loop (MRP.STSff d) l stm rm1 = Ok (stm1, rm1') →
  MRP.assign_loop (MRP.SSTff (to_fine d)) l stm rm2 = Ok (stm2, rm2') →
  stm1 = stm2.
Proof.
  intros Hrows. revert stm rm1 rm2. induction l as [|x l IH]; intros stm rm1 rm2; simpl.
  - by intros [= <- _] [= <- _].
  - rewrite get_to_fine. destruct (get x d) as [[row r]|] eqn:Hx; simpl; [|discriminate].
    destruct (MRP.shared_row d x (keys d) []) as [rv|]; simpl; [|discriminate].
    assert (Hnd : NoDup (keys row)).
    { apply get_Some_item in Hx. unfold distinct_rows in Hrows.
      rewrite Forall_forall in Hrows. apply (Hrows _ Hx). }
    rewrite keys_to_fine_row.
    pose proof (mrp_split_row_to_fine [] row r Hnd) as Hsplit. simpl in Hsplit.
    rewrite Hsplit. simpl. apply IH.
Qed.

Lemma mrp_assign_loop_same_keys (inp : MRP.mrp_input (State:=State)) l stm rm stm' rm' :
  keys stm = keys rm →
  MRP.assign_loop inp l stm rm = Ok (stm', rm') → keys stm' = keys rm'.
Proof.
  revert stm rm. induction l as [|x l IH]; intros stm rm Heq; simpl.
  - by intros [= <- <-].
  - assert (Hstep : ∀ (v w : dict State num),
      keys (update x v stm) = keys (update x w rm)).
    { intros v w. rewrite !keys_update, Heq. done. }
    destruct inp as [d|d].
    + destruct (get x d) as [row|]; simpl; [|discriminate].
      destruct (MRP.split_row row (keys row) [] []) as [[sv rv]|]; simpl; [|discriminate].
      by apply IH.
    + destruct (get x d) as [[row r]|]; simpl; [|discriminate].
      destruct (MRP.shared_row d x (keys d) []) as [rv|]; simpl; [|discriminate].
      by apply IH.
Qed.

Lemma mrp_expected_loop_ext stm rm1 rm2 s (r1 r2 : dict State num) l (acc : num) :
  get s rm1 = Some r1 → get s rm2 = Some r2 →
  (∀ ns, ns ∈ l → default fzero (get ns r1) = default fzero (get ns r2)) →
  MRP.expected_loop stm rm1 s l acc = MRP.expected_loop stm rm2 s l acc.
Proof.
  intros H1 H2. revert acc. induction l as [|x l IH]; intros acc Hl; simpl; [done|].
  destruct (get s stm) as [prow|]; simpl; [|done].
  rewrite H1, H2. simpl. rewrite (Hl x) by left. apply IH.
  intros; apply Hl; by right.
Qed.

Lemma mrp_reward_loop_ext stm rm1 rm2 l (rl : dict State num) :
  (∀ s prow, s ∈ l → get s stm = Some prow →
     MRP.expected_loop stm rm1 s (keys prow) fzero
     = MRP.expected_loop stm rm2 s (keys prow) fzero) →
  MRP.reward_loop stm rm1 l rl = MRP.reward_loop stm rm2 l rl.
Proof.
  revert rl. induction l as [|x l IH]; intros rl Hl; simpl; [done|].
  destruct (get x stm) as [prow|] eqn:Hp; simpl; [|done].
  rewrite (Hl x prow) by (done || left).
  destruct (MRP.expected_loop stm rm2 x (keys prow) fzero); simpl; [|done].
  apply IH. intros; apply Hl; [by right | done].
Qed.

Lemma mrp_certain_to_fine d s :
  mrp_certain (MRP.SSTff (to_fine d)) s = mrp_certain (MRP.STSff d) s.
Proof. unfold mrp_certain. by rewrite mrp_probability_to_fine. Qed.

Lemma mrp_init_unfold (inp : MRP.mrp_input (State:=State)) g ti T N stm rm
    (rf : dict State num) :
  MRP.input_type inp = Ok ti →
  MRP._categorize_states inp = Ok (T, N) →
  MRP._assign_transition_matrix inp N = Ok (stm, rm) →
  MRP._assign_reward_function stm rm = Ok rf →
  MRP.__init__ inp g
  = MRP._assign_value_function g N stm rf ≫= λ vf,
      mret {| MRP.type_indicator := ti; MRP.gamma := g;
              MRP.terminal_states := T; MRP.non_terminal_states := N;
              MRP.state_transition_matrix := stm; MRP.reward_matrix := rm;
              MRP.reward_function := rf; MRP.value_function := vf |}.
Proof.
  intros Hti Hc Ha Hr. unfold MRP.__init__.
  by rewrite io_bind_lift, Hti, io_bind_lift, Hc, io_bind_lift, Ha, io_bind_lift, Hr.
Qed.

(** X10.  An input in the shared-reward encoding whose rows have distinct
    keys and whose destinations are all source keys, and its fine-grained
    encoding, are constructed alike: both constructions raise the same
    error after the same prints, or both return, after the same prints,
    MRPs with the same terminal and non-terminal states, transition
    matrix, reward function and value function. *)
Theorem mrp_encodings_agree_when_closed d g :
  distinct_rows d → closed_input d →
  (∃ out e,
     MRP.__init__ (MRP.STSff d) g = (out, Raise e)
     ∧ MRP.__init__ (MRP.SSTff (to_fine d)) g = (out, Raise e))
  ∨ (∃ out (shared fine : MRP.t),
       MRP.__init__ (MRP.STSff d) g = (out, Ok shared)
       ∧ MRP.__init__ (MRP.SSTff (to_fine d)) g = (out, Ok fine)
       ∧ MRP.terminal_states shared = MRP.terminal_states fine
       ∧ MRP.non_terminal_states shared = MRP.non_terminal_states fine
       ∧ MRP.state_transition_matrix shared = MRP.state_transition_matrix fine
       ∧ MRP.reward_function shared = MRP.reward_function fine
       ∧ MRP.value_function shared = MRP.value_function fine).
Proof.
  intros Hrows Hclosed.
  destruct (decide (keys d = [])) as [Hempty|Hne].
  { left. exists [], StopIteration. destruct d as [|[k v] d]; [done | discriminate]. }
  assert (Hne' : MRP.input_keys (MRP.SSTff (to_fine d)) ≠ []).
  { simpl. by rewrite keys_to_fine. }
  destruct (mrp_reaches_solve (MRP.STSff d) Hne)
    as (ti1 & T1 & N1 & stm1 & rm1 & rf1 & P1 & Hti1 & Hc1 & Ha1 & Hr1 & _).
  destruct (mrp_reaches_solve (MRP.SSTff (to_fine d)) Hne')
    as (ti2 & T2 & N2 & stm2 & rm2 & rf2 & P2 & Hti2 & Hc2 & Ha2 & Hr2 & _).
  pose proof (mrp_categorize_loop_filter _ _ _ _ _ _ Hc1) as [HT1 HN1].
  pose proof (mrp_categorize_loop_filter _ _ _ _ _ _ Hc2) as [HT2 HN2].
  simpl in HT1, HN1, HT2, HN2. rewrite keys_to_fine in HT2, HN2.
  assert (T2 = T1) as ->.
  { rewrite HT1, HT2. apply list_filter_iff. intros s. by rewrite mrp_certain_to_fine. }
  assert (N2 = N1) as ->.
  { rewrite HN1, HN2. apply list_filter_iff. intros s. by rewrite mrp_certain_to_fine. }
  assert (stm2 = stm1) as ->.
  { symmetry. by eapply mrp_assign_loop_same_stm. }
  assert (rf2 = rf1) as ->.
  { pose proof (mrp_assign_loop_same_keys _ _ _ _ _ _ eq_refl Ha1) as Hk1.
    pose proof (mrp_assign_loop_same_keys _ _ _ _ _ _ eq_refl Ha2) as Hk2.
    pose proof Ha1 as Hg1. apply mrp_assign_loop_good in Hg1 as [Hp1 Hg1]; [| done | done].
    pose proof Ha2 as Hg2. apply mrp_assign_loop_good in Hg2 as [_ Hg2]; [| done | done].
    pose proof (mrp_assign_loop_keys _ _ _ _ _ _ Ha1) as [Hks _].
    unfold MRP._assign_reward_function in Hr1, Hr2.
    rewrite <- Hk2, Hk1 in Hr2.
    rewrite (mrp_reward_loop_ext stm1 rm2 rm1) in Hr2; [congruence|].
    intros s prow Hs Hprow.
    assert (Hs1 : is_Some (get s rm1)) by (by apply get_key_is_Some).
    assert (Hs2 : is_Some (get s rm2)).
    { apply get_key_is_Some. by rewrite <- Hk2, Hk1. }
    destruct Hs1 as [r1 Hs1], Hs2 as [r2 Hs2].
    apply (mrp_expected_loop_ext _ _ _ _ r2 r1); [done | done |].
    intros ns Hns. rewrite (Hg1 _ _ Hs1 ns), (Hg2 _ _ Hs2 ns).
    assert (HsN : s ∈ N1).
    { rewrite <- Hk1 in Hs. apply Hks in Hs as [[]%elem_of_nil|?]. done. }
    assert (Hsd : s ∈ keys d).
    { rewrite HN1 in HsN. by apply list_elem_of_filter in HsN as [_ ?]. }
    apply get_key_is_Some in Hsd as [[row r] Hrow].
    apply get_key_is_Some in Hns as [p Hp].
    rewrite (Hp1 _ _ Hprow ns) in Hp. simpl in Hp. rewrite Hrow in Hp.
    assert (Hnsd : ns ∈ keys d).
    { apply get_Some_key in Hp. apply get_Some_item in Hrow.
      unfold closed_input in Hclosed. rewrite Forall_forall in Hclosed.
      specialize (Hclosed _ Hrow). rewrite Forall_forall in Hclosed. by apply Hclosed. }
    simpl. rewrite get_to_fine, Hrow. simpl. rewrite get_to_fine_row, Hp. simpl.
    by rewrite decide_True. }
  rewrite (mrp_init_unfold _ g _ _ _ _ _ _ Hti1 Hc1 Ha1 Hr1).
  rewrite (mrp_init_unfold _ g _ _ _ _ _ _ Hti2 Hc2 Ha2 Hr2).
  destruct (MRP._assign_value_function g N1 stm1 rf1) as [o [vf|e]].
  - right. eexists _, _, _. cbn. split_and!; reflexivity.
  - left. exists o, e. cbn. done.
Qed.
End mrp_encodings.

Section mrp_sampling.
Context {State : Type} `{EqDecision State} `{Runtime}.
Implicit Types (self : MRP.t (State:=State)) (s state next last : State).
Implicit Types (sample traj visited : list State) (ret total : num) (g : rng).

Lemma mrp_sample_step_inv self g state ret ts out next ret' g' :
  MRP.sample_step self g state ret ts = (out, Ok (next, ret', g')) →
  ∃ r row,
    get state (MRP.reward_function self) = Some r
    ∧ ret' = fadd ret (fmul (fpow (MRP.gamma self) ts) r)
    ∧ get state (MRP.state_transition_matrix self) = Some row
    ∧ next ∈ keys row.
Proof.
  unfold MRP.sample_step, MRP.get_expected_reward.
  destruct (get state (MRP.reward_function self)) as [r|]; cbn; [|discriminate].
  destruct (get state (MRP.state_transition_matrix self)) as [row|]; cbn; [|discriminate].
  destruct (np_random_choice g (length (keys row)) (values row)) as [[i g1]|];
    cbn; [|discriminate].
  destruct (keys row !! i) as [nx|] eqn:Hi; cbn; [|discriminate].
  intros [= _ <- <- <-]. exists r, row. split_and!; [done..|].
  by eapply list_elem_of_lookup_2.
Qed.

Lemma mrp_sample_loop_spec fuel self g state sample ret ts out traj total :
  MRP.sample_loop fuel self g state sample ret ts = Some (out, Ok (traj, total)) →
  ∃ visited last,
    traj = sample ++ visited ++ [last]
    ∧ head (visited ++ [last]) = Some state
    ∧ Forall (λ s, s ∈ MRP.non_terminal_states self) visited
    ∧ (last ∉ MRP.non_terminal_states self)
    ∧ follows (MRP.state_transition_matrix self) (visited ++ [last])
    ∧ total = discounted_return (MRP.gamma self) (MRP.reward_function self)
                visited ts ret.
Proof.
  revert g state sample ret ts out. induction fuel as [|fuel IH];
    intros g state sample ret ts out; simpl.
  - destruct (decide (state ∈ MRP.non_terminal_states self)); [discriminate|].
    intros [= <- <- <-]. exists [], state. by split_and!.
  - destruct (decide (state ∈ MRP.non_terminal_states self)) as [Hin|Hnin].
    + destruct (MRP.sample_step self g state ret ts) as [o1 [[[next ret'] g']|e]] eqn:Hstep;
        [|discriminate].
      apply mrp_sample_step_inv in Hstep as (r & row & Hr & -> & Hrow & Hnext).
      destruct (MRP.sample_loop fuel self g' next (sample ++ [state]) _ (S ts))
        as [[o2 res2]|] eqn:Hloop; [|discriminate].
      intros [= <- ->].
      apply IH in Hloop as (visited & last & -> & Hhd & Hvis & Hlast & Hfol & ->).
      exists (state :: visited), last. split_and!.
      * by rewrite <- app_assoc.
      * done.
      * by constructor.
      * done.
      * simpl. destruct (visited ++ [last]) as [|y rest] eqn:Hvl; [done|].
        simpl in Hhd. injection Hhd as ->. split; [|done]. eauto.
      * simpl. by rewrite Hr.
    + intros [= <- <- <-]. exists [], state. by split_and!.
Qed.

(** X11.  Whenever [get_random_sample] returns, on any MRP object, its
    trajectory is a sequence of non-terminal states followed by one state
    that is not non-terminal; it starts at the initial state given, or at
    a state of the process when none is given; every state after the
    first is a key of the row stored for the state before it; and the
    return is the sum of [gamma ** t * reward_function(s_t)] over the
    non-terminal states, accumulated from [0] in the order of the visit. *)
Theorem mrp_sample_trajectory fuel self g initial_state out traj total :
  MRP.get_random_sample fuel self g initial_state = Some (out, Ok (traj, total)) →
  ∃ visited last s0,
    traj = visited ++ [last]
    ∧ head traj = Some s0
    ∧ match initial_state with
      | Some s => s0 = s
      | None => s0 ∈ MRP.non_terminal_states self ++ MRP.terminal_states self
      end
    ∧ Forall (λ s, s ∈ MRP.non_terminal_states self) visited
    ∧ (last ∉ MRP.non_terminal_states self)
    ∧ follows (MRP.state_transition_matrix self) traj
    ∧ total = discounted_return (MRP.gamma self) (MRP.reward_function self)
                visited 0 fzero.
Proof.
  unfold MRP.get_random_sample. destruct initial_state as [s|].
  - intros (visited & last & -> & Hhd & Hvis & Hlast & Hfol & ->)%mrp_sample_loop_spec.
    exists visited, last, s. by split_and!.
  - destruct (random_choice g _) as [i g1].
    destruct ((MRP.non_terminal_states self ++ MRP.terminal_states self) !! i)
      as [s|] eqn:Hi; [|discriminate].
    intros (visited & last & -> & Hhd & Hvis & Hlast & Hfol & ->)%mrp_sample_loop_spec.
    exists visited, last, s. split_and!; try done.
    by eapply list_elem_of_lookup_2.
Qed.

(** X12.  On a constructed MRP one turn of the sampling loop at a
    non-terminal state finds the expected reward of the state and its
    transition row: it prints the successors and the probabilities, and
    its outcome is the outcome of the draw. *)
Theorem mrp_sample_step_on_non_terminal
    (inp : MRP.mrp_input (State:=State)) gamma out self g state ret ts :
  MRP.__init__ inp gamma = (out, Ok self) →
  state ∈ MRP.non_terminal_states self →
  ∃ r row,
    MRP.get_expected_reward self state = Some r
    ∧ get state (MRP.state_transition_matrix self) = Some row
    ∧ (∀ s2, get s2 row = mrp_probability inp state s2)
    ∧ MRP.sample_step self g state ret ts
      = ([PrintStates (keys row); PrintProbs (values row)],
         match np_random_choice g (length (keys row)) (values row) with
         | Ok (i, g') =>
             match keys row !! i with
             | Some next =>
                 Ok (next, fadd ret (fmul (fpow (MRP.gamma self) ts) r), g')
             | None => Raise ValueError
             end
         | Raise e => Raise e
         end).
Proof.
  intros Hinit Hs.
  destruct (mrp_matrix_keys _ _ _ _ Hinit state) as (Hks & _ & Hkf & _).
  pose proof (proj2 Hks Hs) as [row Hrow]%get_key_is_Some.
  pose proof (proj2 Hkf Hs) as [r Hr]%get_key_is_Some.
  pose proof Hinit as (_ & _ & _ & Ha & _)%mrp_init_inv.
  apply mrp_assign_loop_good in Ha as [Hgp _]; [| done | done].
  exists r, row. split_and!; [done | done | by apply Hgp |].
  unfold MRP.sample_step, MRP.get_expected_reward. rewrite Hr, Hrow. cbn.
  destruct (np_random_choice g (length (keys row)) (values row)) as [[i g1]|]; cbn; [|done].
  by destruct (keys row !! i).
Qed.
End mrp_sampling.

Section mdp_total.
Context {State Action : Type} `{EqDecision State} `{EqDecision Action} `{Numeric}.
Implicit Types (inp : MDP.mdp_input (State:=State) (Action:=Action)).
Implicit Types (s : State) (a : Action) (sa : State * Action).
Implicit Types (T N tmp all sl : list State) (al : list Action).
Implicit Types (l : list (State * Action)) (g : num).
Implicit Types (stm rm : MDP.matrix (State:=State) (Action:=Action)).

Lemma mdp_states_actions_loop_prefix l sl al sl' al' :
  MDP.states_actions_loop l sl al = (sl', al') →
  (∃ sl2, sl' = sl ++ sl2) ∧ (∃ al2, al' = al ++ al2).
Proof.
  revert sl al. induction l as [|[s0 a0] l IH]; intros sl al; simpl.
  - intros [= <- <-]. split; exists []; by rewrite app_nil_r.
  - intros [[sl2 ->] [al2 ->]]%IH. split.
    + destruct (decide (s0 ∈ sl)); [by exists sl2|].
      exists ([s0] ++ sl2). by rewrite app_assoc.
    + destruct (decide (a0 ∈ al)); [by exists al2|].
      exists ([a0] ++ al2). by rewrite app_assoc.
Qed.

Lemma mdp_categorize_total inp all :
  ∃ r, MDP._categorize_states inp all = Ok r.
Proof.
  unfold MDP._categorize_states.
  destruct (mdp_categorize_loop_total inp all (MDP.input_keys inp) all [] [])
    as [[[T N] tmp] ->]; [done|]. simpl. eauto.
Qed.

Lemma mdp_split_row_total (row : dict State (num * num)) (ds : list State)
    (sv rv : dict State num) :
  (∀ s, s ∈ ds → s ∈ keys row) → ∃ r, MDP.split_row row ds sv rv = Ok r.
Proof.
  revert sv rv. induction ds as [|x ds IH]; intros sv rv Hl; simpl; [eauto|].
  destruct (get_key_is_Some x row) as [[p r] ->]; [apply Hl; left|]. simpl.
  apply IH. intros; apply Hl; by right.
Qed.

Lemma mdp_shared_row_total (d : dict (State * Action) (dict State num * num))
    sa (ds : list State) (rv : dict State num) :
  sa ∈ keys d → ∃ r, MDP.shared_row d sa ds rv = Ok r.
Proof.
  intros [[row r] Hsa]%get_key_is_Some.
  revert rv. induction ds as [|x ds IH]; intros rv; simpl; [eauto|].
  rewrite Hsa. simpl. apply IH.
Qed.

Lemma mdp_assign_loop_shared_total (d : dict (State * Action) (dict State num * num))
    T l stm rm :
  (∀ sa, sa ∈ l → sa ∈ keys d) → ∃ r, MDP.assign_loop_shared d T l stm rm = Ok r.
Proof.
  revert stm rm. induction l as [|sa l IH]; intros stm rm Hl; simpl; [eauto|].
  assert (Hl' : ∀ sa', sa' ∈ l → sa' ∈ keys d) by (intros; apply Hl; by right).
  destruct (decide (sa.1 ∉ T)); [|by apply IH].
  assert (Hsa : sa ∈ keys d) by (apply Hl; left).
  destruct (get_key_is_Some sa d Hsa) as [[row r] Hget]. rewrite Hget. simpl.
  destruct (mdp_shared_row_total d sa (keys row) [] Hsa) as [rv ->]. simpl.
  by apply IH.
Qed.

Lemma mdp_assign_loop_fine_total_bound
    (d : dict (State * Action) (dict State (num * num))) T l stm rm
    (sv rv : option (dict State num)) :
  (∀ sa, sa ∈ l → sa ∈ keys d) → is_Some sv → is_Some rv →
  ∃ r, MDP.assign_loop_fine d T l stm rm sv rv = Ok r.
Proof.
  revert stm rm sv rv. induction l as [|sa l IH]; intros stm rm sv rv Hl [v Hv] [w Hw];
    simpl; [eauto|]. subst.
  assert (Hl' : ∀ sa', sa' ∈ l → sa' ∈ keys d) by (intros; apply Hl; by right).
  destruct (decide (sa.1 ∉ T)).
  - assert (Hsa : sa ∈ keys d) by (apply Hl; left).
    destruct (get_key_is_Some sa d Hsa) as [row Hget]. rewrite Hget. simpl.
    destruct (mdp_split_row_total row (keys row) [] []) as [[sv' rv'] ->]; [done|].
    simpl. apply IH; eauto.
  - simpl. apply IH; eauto.
Qed.

Lemma mdp_assign_loop_fine_total
    (d : dict (State * Action) (dict State (num * num))) T sa l stm rm
    (sv rv : option (dict State num)) :
  (∀ sa', sa' ∈ sa :: l → sa' ∈ keys d) → sa.1 ∉ T →
  ∃ r, MDP.assign_loop_fine d T (sa :: l) stm rm sv rv = Ok r.
Proof.
  intros Hl Hsa. simpl. rewrite decide_True by done.
  assert (Hk : sa ∈ keys d) by (apply Hl; left).
  destruct (get_key_is_Some sa d Hk) as [row Hget]. rewrite Hget. simpl.
  destruct (mdp_split_row_total row (keys row) [] []) as [[sv' rv'] ->]; [done|].
  simpl. apply mdp_assign_loop_fine_total_bound; eauto.
  intros; apply Hl; by right.
Qed.
End mdp_total.

Section further_mdp.
Context {State Action : Type} `{EqDecision State} `{EqDecision Action} `{Numeric}.
Implicit Types (inp : MDP.mdp_input (State:=State) (Action:=Action)).
Implicit Types (s : State) (a : Action) (sa : State * Action).
Implicit Types (T N tmp all sl : list State) (al : list Action).
Implicit Types (l : list (State * Action)) (g : num).
Implicit Types (stm rm : MDP.matrix (State:=State) (Action:=Action)).

Lemma mdp_states_actions_loop_actions l sl al sl' al' :
  MDP.states_actions_loop l sl al = (sl', al') → NoDup al → NoDup al'.
Proof.
  revert sl al. induction l as [|[s0 a0] l IH]; intros sl al; simpl.
  - by intros [= <- <-].
  - intros Hl Hal. apply (IH _ _ Hl). destruct (decide (a0 ∈ al)); [done|].
    apply NoDup_app. split_and!; [done | | apply NoDup_singleton].
    intros x Hx ->%list_elem_of_singleton. done.
Qed.

(** X13.  In a constructed MDP, [all_actions] has no duplicates and holds
    exactly the actions of the keys of the input, [all_states] has no
    duplicates and holds exactly the sources of the keys and the
    destinations of the entries, and both start with the components of the
    first key. *)
Theorem mdp_states_and_actions inp g (self : MDP.t) :
  MDP.__init__ inp g = Ok self →
  NoDup (MDP.all_actions self)
  ∧ (∀ a, a ∈ MDP.all_actions self ↔ ∃ s, (s, a) ∈ MDP.input_keys inp)
  ∧ NoDup (MDP.all_states self)
  ∧ (∀ s, s ∈ MDP.all_states self ↔ MDP.is_source inp s ∨ MDP.is_destination inp s)
  ∧ (∃ s0 a0 rest, MDP.input_keys inp = (s0, a0) :: rest
                   ∧ head (MDP.all_states self) = Some s0
                   ∧ head (MDP.all_actions self) = Some a0).
Proof.
  intros Hinit.
  pose proof (mdp_classification _ _ _ Hinit) as (Hnd & _ & Hall & _).
  apply mdp_init_inv in Hinit as (sl & T & tmp & Hti & Hsa & _ & Hst & _).
  unfold MDP._get_all_states_and_actions in Hsa.
  pose proof (mdp_states_actions_loop_actions _ _ _ _ _ Hsa (NoDup_nil_2)) as Hal.
  pose proof (mdp_states_actions_loop_spec _ _ _ _ _ Hsa) as (_ & _ & Hmem).
  apply mdp_input_type_keys in Hti as ([s0 a0] & rest & Hkeys).
  split_and!; [done | | done | done |].
  - intros a. rewrite Hmem, elem_of_nil, list_elem_of_fmap. split.
    + intros [[]|([s a'] & -> & Hin)]. by exists s.
    + intros [s Hin]. right. by exists (s, a).
  - exists s0, a0, rest. split; [done|]. rewrite Hkeys in Hsa. simpl in Hsa.
    apply mdp_states_actions_loop_prefix in Hsa as [[sl2 ->] [al2 Hal2]].
    rewrite Hst, Hal2. done.
Qed.

(** X14.  In the shared-reward encoding the construction of an MDP returns
    on every input that is not empty. *)
Theorem mdp_shared_construction_returns
    (d : dict (State * Action) (dict State num * num)) g :
  d ≠ [] → ∃ self, MDP.__init__ (MDP.SATSff d) g = Ok self.
Proof.
  intros Hne. unfold MDP.__init__.
  assert (MDP.input_type (MDP.SATSff d) = Ok false) as ->.
  { destruct d as [|[k v] d]; done. }
  simpl. destruct (MDP._get_all_states_and_actions (MDP.SATSff d)) as [sl al].
  destruct (mdp_categorize_total (MDP.SATSff d) sl) as [[[all T] N] ->]. simpl.
  destruct (mdp_assign_loop_shared_total d T (keys d) [] []) as [tm ->]; [done|].
  simpl. eauto.
Qed.

(** X15.  In the fine-grained encoding the construction of an MDP returns
    when the source state of the first key of the input is not classified
    terminal. *)
Theorem mdp_fine_first_non_terminal_returns
    (d : dict (State * Action) (dict State (num * num))) g sa all T N :
  first_key d = Ok sa →
  MDP._categorize_states (MDP.SASTff d)
    (MDP._get_all_states_and_actions (MDP.SASTff d)).1 = Ok (all, T, N) →
  sa.1 ∉ T →
  ∃ self, MDP.__init__ (MDP.SASTff d) g = Ok self
          ∧ MDP.all_states self = all
          ∧ MDP.terminal_states self = T
          ∧ MDP.non_terminal_states self = N.
Proof.
  intros Hfk Hc Hs. unfold MDP.__init__. simpl MDP.input_type. rewrite Hfk. simpl.
  destruct (MDP._get_all_states_and_actions (MDP.SASTff d)) as [sl al].
  simpl in Hc. rewrite Hc. simpl.
  destruct d as [|[sa' row] d]; simpl in Hfk; [discriminate|].
  injection Hfk as ->.
  destruct (mdp_assign_loop_fine_total ((sa, row) :: d) T sa (keys d) [] [] None None)
    as [tm Htm]; [done | done |].
  change (keys ((sa, row) :: d)) with (sa :: keys d). rewrite Htm. simpl. eauto.
Qed.
End further_mdp.

Section mdp_rows.
Context {State Action : Type} `{EqDecision State} `{EqDecision Action} `{Numeric}.
Implicit Types (inp : MDP.mdp_input (State:=State) (Action:=Action)).
Implicit Types (s : State) (a : Action) (sa k : State * Action).
Implicit Types (T N tmp all sl : list State) (al : list Action).
Implicit Types (l : list (State * Action)) (g : num).
Implicit Types (stm rm : MDP.matrix (State:=State) (Action:=Action)).

Lemma mdp_pair_key_inj sa sa' : MDP.pair_key sa = MDP.pair_key sa' → sa = sa'.
Proof. destruct sa, sa'. unfold MDP.pair_key. simpl. by intros [= -> ->]. Qed.

Lemma mdp_heads inp g (self : MDP.t) s0 a0 rest :
  MDP.__init__ inp g = Ok self →
  MDP.input_keys inp = (s0, a0) :: rest →
  head (MDP.all_states self) = Some s0 ∧ head (MDP.all_actions self) = Some a0.
Proof.
  intros (sl & T & tmp & _ & Hsa & _ & Hst & _)%mdp_init_inv Hkeys.
  unfold MDP._get_all_states_and_actions in Hsa. rewrite Hkeys in Hsa. simpl in Hsa.
  apply mdp_states_actions_loop_prefix in Hsa as [[sl2 ->] [al2 Hal2]].
  by rewrite Hst, Hal2.
Qed.

Lemma mdp_split_row_get (row : dict State (num * num)) (ds : list State)
    (sv rv sv' rv' : dict State num) :
  MDP.split_row row ds sv rv = Ok (sv', rv') →
  ∀ s2, get s2 sv' = (if decide (s2 ∈ ds) then option_map fst (get s2 row) else get s2 sv)
      ∧ get s2 rv' = (if decide (s2 ∈ ds) then option_map snd (get s2 row) else get s2 rv).
Proof.
  revert sv rv. induction ds as [|x ds IH]; intros sv rv; simpl.
  - intros [= <- <-] s2. done.
  - destruct (get x row) as [[p r]|] eqn:Hx; simpl; [|discriminate].
    intros Hl s2. destruct (IH _ _ Hl s2) as [Hs Hr]. rewrite Hs, Hr, !get_update.
    destruct (decide (s2 ∈ ds)) as [Hin|Hnin].
    + rewrite !decide_True by (apply elem_of_cons; tauto). done.
    + destruct (decide (s2 = x)) as [->|Hne].
      * rewrite !decide_True by (apply elem_of_cons; tauto). by rewrite Hx.
      * rewrite !decide_False by (rewrite elem_of_cons; tauto). done.
Qed.

Lemma mdp_split_row_keys (row : dict State (num * num)) (sv rv : dict State num) :
  MDP.split_row row (keys row) [] [] = Ok (sv, rv) →
  ∀ s2, get s2 sv = option_map fst (get s2 row)
      ∧ get s2 rv = option_map snd (get s2 row).
Proof.
  intros Hsplit s2. destruct (mdp_split_row_get _ _ _ _ _ _ Hsplit s2) as [-> ->].
  destruct (decide (s2 ∈ keys row)) as [|Hn]; [done|].
  apply get_None_key in Hn. by rewrite Hn.
Qed.

Lemma mdp_shared_row_get (d : dict (State * Action) (dict State num * num)) sa
    (row : dict State num) (r : num) (ds : list State) (rv rv' : dict State num) :
  get sa d = Some (row, r) →
  MDP.shared_row d sa ds rv = Ok rv' →
  ∀ s2, get s2 rv' = if decide (s2 ∈ ds) then Some r else get s2 rv.
Proof.
  intros Hsa. revert rv. induction ds as [|x ds IH]; intros rv; simpl.
  - intros [= <-] s2. done.
  - rewrite Hsa. simpl. intros Hl s2. rewrite (IH _ Hl s2), get_update.
    destruct (decide (s2 ∈ ds)) as [Hin|Hnin].
    + rewrite !decide_True by (apply elem_of_cons; tauto). done.
    + destruct (decide (s2 = x)) as [->|Hne].
      * rewrite !decide_True by (apply elem_of_cons; tauto). done.
      * rewrite !decide_False by (rewrite elem_of_cons; tauto). done.
Qed.

Lemma mdp_good_rows_update inp T stm rm sa0 (v w : dict State num) :
  good_rows inp T stm rm →
  (sa0.1 ∉ T → (∀ s1, get s1 v = mdp_probability inp sa0 s1)
               ∧ (∀ s1, get s1 w = mdp_reward inp sa0 s1)) →
  good_rows inp T (update (MDP.pair_key sa0) v stm) (update (MDP.pair_key sa0) w rm).
Proof.
  intros Hgood Hnew sa Hsa. rewrite !get_update.
  destruct (decide (MDP.pair_key sa = MDP.pair_key sa0)) as [Heq|Hne].
  - apply mdp_pair_key_inj in Heq as ->. destruct (Hnew Hsa) as [Hv Hw].
    split; by intros ? [= <-].
  - by apply Hgood.
Qed.

Lemma mdp_assign_loop_shared_good (d : dict (State * Action) (dict State num * num))
    T l stm rm stm' rm' :
  good_rows (MDP.SATSff d) T stm rm →
  MDP.assign_loop_shared d T l stm rm = Ok (stm', rm') →
  good_rows (MDP.SATSff d) T stm' rm'.
Proof.
  revert stm rm. induction l as [|sa l IH]; intros stm rm Hgood; simpl.
  - by intros [= <- <-].
  - destruct (decide (sa.1 ∉ T)) as [Hsa|Hsa]; [|by apply IH].
    destruct (get sa d) as [[row r]|] eqn:Hget; simpl; [|discriminate].
    destruct (MDP.shared_row d sa (keys row) []) as [rv|] eqn:Hrow; simpl; [|discriminate].
    apply IH. apply mdp_good_rows_update; [done|]. intros _. split; intros s1; simpl.
    + by rewrite Hget.
    + rewrite (mdp_shared_row_get _ _ _ _ _ _ _ Hget Hrow s1), Hget. done.
Qed.

(** One turn of the loop of the first branch: the rows it stores, which
    are the locals it was given when the source of the key is terminal. *)
Lemma mdp_assign_loop_fine_step
    (d : dict (State * Action) (dict State (num * num))) T sa l stm rm
    (sv rv : option (dict State num)) res :
  MDP.assign_loop_fine d T (sa :: l) stm rm sv rv = Ok res →
  ∃ v w,
    MDP.assign_loop_fine d T l (update (MDP.pair_key sa) v stm)
      (update (MDP.pair_key sa) w rm) (Some v) (Some w) = Ok res
    ∧ (sa.1 ∈ T → sv = Some v ∧ rv = Some w)
    ∧ (sa.1 ∉ T → (∀ s1, get s1 v = mdp_probability (MDP.SASTff d) sa s1)
                  ∧ (∀ s1, get s1 w = mdp_reward (MDP.SASTff d) sa s1)).
Proof.
  simpl. destruct (decide (sa.1 ∉ T)) as [Hsa|Hsa].
  - destruct (get sa d) as [row|] eqn:Hget; simpl; [|discriminate].
    destruct (MDP.split_row row (keys row) [] []) as [[v w]|] eqn:Hsplit;
      simpl; [|discriminate].
    intros Hl. exists v, w. split_and!; [done | done |].
    intros _. pose proof (mdp_split_row_keys _ _ _ Hsplit) as Hk.
    split; intros s1; by destruct (Hk s1).
  - simpl. destruct sv as [v|]; simpl; [|discriminate].
    destruct rv as [w|]; simpl; [|discriminate].
    intros Hl. exists v, w. split_and!; [done | done | done].
Qed.

Lemma mdp_assign_loop_fine_good (d : dict (State * Action) (dict State (num * num)))
    T l stm rm (sv rv : option (dict State num)) stm' rm' :
  good_rows (MDP.SASTff d) T stm rm →
  MDP.assign_loop_fine d T l stm rm sv rv = Ok (stm', rm') →
  good_rows (MDP.SASTff d) T stm' rm'.
Proof.
  revert stm rm sv rv. induction l as [|sa l IH]; intros stm rm sv rv Hgood.
  - simpl. by intros [= <- <-].
  - intros (v & w & Hl & _ & Hnew)%mdp_assign_loop_fine_step.
    apply (IH _ _ _ _ (mdp_good_rows_update _ _ _ _ _ _ _ Hgood Hnew) Hl).
Qed.

Lemma mdp_assign_loop_fine_other (d : dict (State * Action) (dict State (num * num)))
    T l stm rm (sv rv : option (dict State num)) stm' rm' (key : MDP.tuple_key) :
  key ∉ MDP.pair_key <$> l →
  MDP.assign_loop_fine d T l stm rm sv rv = Ok (stm', rm') →
  get key stm' = get key stm ∧ get key rm' = get key rm.
Proof.
  revert stm rm sv rv. induction l as [|sa l IH]; intros stm rm sv rv Hk.
  - simpl. by intros [= <- <-].
  - rewrite fmap_cons in Hk. apply not_elem_of_cons in Hk as [Hne Hk].
    intros (v & w & Hl & _)%mdp_assign_loop_fine_step.
    destruct (IH _ _ _ _ Hk Hl) as [-> ->]. rewrite !get_update.
    by rewrite !decide_False.
Qed.

Lemma mdp_assign_loop_fine_stale (d : dict (State * Action) (dict State (num * num)))
    T l1 k1 k2 l2 stm rm (sv rv : option (dict State num)) stm' rm' :
  NoDup (l1 ++ k1 :: k2 :: l2) → k2.1 ∈ T →
  MDP.assign_loop_fine d T (l1 ++ k1 :: k2 :: l2) stm rm sv rv = Ok (stm', rm') →
  get (MDP.pair_key k2) stm' = get (MDP.pair_key k1) stm'
  ∧ get (MDP.pair_key k2) rm' = get (MDP.pair_key k1) rm'.
Proof.
  revert stm rm sv rv. induction l1 as [|sa l1 IH]; intros stm rm sv rv Hnd Hk2.
  - simpl in Hnd. apply NoDup_cons in Hnd as [Hk1 Hnd].
    apply NoDup_cons in Hnd as [Hk2' Hnd].
    intros (v & w & Hl & _)%mdp_assign_loop_fine_step.
    apply mdp_assign_loop_fine_step in Hl as (v' & w' & Hl & Hstale & _).
    destruct (Hstale Hk2) as [[= <-] [= <-]].
    assert (Hne : k2 ≠ k1) by (intros ->; apply Hk1; left).
    assert (Hinj : ∀ k, k ∉ l2 → MDP.pair_key k ∉ MDP.pair_key <$> l2).
    { intros k Hk [k' [->%mdp_pair_key_inj Hin]]%list_elem_of_fmap. done. }
    destruct (mdp_assign_loop_fine_other _ _ _ _ _ _ _ _ _ _ (Hinj _ Hk2') Hl) as [-> ->].
    assert (Hk1' : k1 ∉ l2) by (rewrite not_elem_of_cons in Hk1; tauto).
    destruct (mdp_assign_loop_fine_other _ _ _ _ _ _ _ _ _ _ (Hinj _ Hk1') Hl) as [-> ->].
    assert (Hpk : MDP.pair_key k2 ≠ MDP.pair_key k1)
      by (intros ?%mdp_pair_key_inj; done).
    rewrite !get_update. split; repeat (destruct (decide _) as [?|?]); congruence.
  - simpl app in *. apply NoDup_cons in Hnd as [_ Hnd].
    intros (v & w & Hl & _)%mdp_assign_loop_fine_step.
    by apply (IH _ _ _ _ Hnd Hk2 Hl).
Qed.
End mdp_rows.

Section mdp_queries.
Context {State Action : Type} `{EqDecision State} `{EqDecision Action} `{Numeric}.
Implicit Types (inp : MDP.mdp_input (State:=State) (Action:=Action)).
Implicit Types (s : State) (a : Action) (sa k : State * Action) (g : num).

Lemma mdp_stored_good inp g (self : MDP.t) :
  MDP.__init__ inp g = Ok self →
  good_rows inp (MDP.terminal_states self)
    (MDP.transition_matrix self).1 (MDP.transition_matrix self).2.
Proof.
  intros (sl & T & tmp & _ & _ & _ & _ & _ & Ha)%mdp_init_inv.
  destruct (MDP.transition_matrix self) as [stm rm].
  assert (Hnil : good_rows inp (MDP.terminal_states self) [] []).
  { intros sa _. split; intros ? [=]. }
  destruct inp as [d|d]; simpl in Ha.
  - by eapply mdp_assign_loop_fine_good.
  - by eapply mdp_assign_loop_shared_good.
Qed.

Lemma mdp_stored_keys inp g (self : MDP.t) sa :
  MDP.__init__ inp g = Ok self →
  sa ∈ MDP.input_keys inp → sa.1 ∉ MDP.terminal_states self →
  MDP.pair_key sa ∈ keys (MDP.transition_matrix self).1
  ∧ MDP.pair_key sa ∈ keys (MDP.transition_matrix self).2.
Proof.
  intros (sl & T & tmp & _ & _ & _ & _ & _ & Ha)%mdp_init_inv Hsa Hnt.
  destruct (MDP.transition_matrix self) as [stm rm].
  destruct inp as [d|d]; simpl in Ha, Hsa.
  - destruct (mdp_assign_loop_fine_keys _ _ _ _ _ _ _ _ _ Ha (MDP.pair_key sa)) as [-> ->].
    split; right; by exists sa.
  - destruct (mdp_assign_loop_shared_keys _ _ _ _ _ _ _ Ha (MDP.pair_key sa)) as [-> ->].
    split; right; by exists sa.
Qed.

Lemma mdp_all_states_nonempty inp g (self : MDP.t) :
  MDP.__init__ inp g = Ok self → MDP.all_states self ≠ [].
Proof.
  intros Hinit.
  pose proof Hinit as (sl & T & tmp & Hti & _)%mdp_init_inv.
  apply mdp_input_type_keys in Hti as ([s0 a0] & rest & Hkeys).
  destruct (mdp_heads _ _ _ _ _ _ Hinit Hkeys) as [Hh _].
  intros Hnil. by rewrite Hnil in Hh.
Qed.

(** X16.  The first encoding stores a row in both matrices under every key
    of the input, terminal source or not; and when the keys of the input
    are distinct, a key whose source is terminal and that is not the first
    one holds the very rows stored under the key before it. *)
Theorem mdp_fine_stale_rows (d : dict (State * Action) (dict State (num * num)))
    g (self : MDP.t) :
  MDP.__init__ (MDP.SASTff d) g = Ok self →
  (∀ sa, sa ∈ keys d →
     MDP.pair_key sa ∈ keys (MDP.transition_matrix self).1
     ∧ MDP.pair_key sa ∈ keys (MDP.transition_matrix self).2)
  ∧ (NoDup (keys d) →
     ∀ l1 k1 k2 l2, keys d = l1 ++ k1 :: k2 :: l2 →
       k2.1 ∈ MDP.terminal_states self →
       get (MDP.pair_key k2) (MDP.transition_matrix self).1
         = get (MDP.pair_key k1) (MDP.transition_matrix self).1
       ∧ get (MDP.pair_key k2) (MDP.transition_matrix self).2
         = get (MDP.pair_key k1) (MDP.transition_matrix self).2).
Proof.
  intros (sl & T & tmp & _ & _ & _ & _ & _ & Ha)%mdp_init_inv.
  destruct (MDP.transition_matrix self) as [stm rm]. simpl in Ha. split.
  - intros sa Hsa.
    destruct (mdp_assign_loop_fine_keys _ _ _ _ _ _ _ _ _ Ha (MDP.pair_key sa)) as [-> ->].
    split; right; by exists sa.
  - intros Hnd l1 k1 k2 l2 Hkeys Hk2. rewrite Hkeys in Ha, Hnd. simpl.
    by eapply mdp_assign_loop_fine_stale.
Qed.

(** X17.  In a constructed MDP, of either encoding, the queries on a key
    of the input whose source is not terminal give back what the input
    records: [query_Pr] the probability of the destination, or [None] for a
    state that is not a destination of the key, and [query_R] a row that
    maps each destination to its reward and holds nothing else. *)
Theorem mdp_queries_return_input inp g (self : MDP.t) s a :
  MDP.__init__ inp g = Ok self →
  (s, a) ∈ MDP.input_keys inp →
  s ∉ MDP.terminal_states self →
  (∀ s1, MDP.query_Pr self s a s1 = Ok (mdp_probability inp (s, a) s1))
  ∧ ∃ rrow, MDP.query_R self s (Some a) = Ok (Some rrow)
            ∧ ∀ s1, get s1 rrow = mdp_reward inp (s, a) s1.
Proof.
  intros Hinit Hsa Hnt.
  destruct (mdp_stored_keys _ _ _ (s, a) Hinit Hsa Hnt) as
    [[prow Hp]%get_key_is_Some [rrow Hr]%get_key_is_Some].
  destruct (mdp_stored_good _ _ _ Hinit (s, a) Hnt) as [Hgp Hgr].
  unfold MDP.pair_key in *. simpl in *. split.
  - intros s1. unfold MDP.query_Pr. rewrite Hp. simpl. f_equal. by apply Hgp.
  - exists rrow. unfold MDP.query_R. simpl. split; [by rewrite Hr|]. by apply Hgr.
Qed.

(** X18.  In a constructed MDP, [query_successor] on a key of the input
    whose source is not terminal returns, without duplicates, exactly the
    destinations the input records for the key; on a key under which
    nothing is stored it raises [AttributeError]. *)
Theorem mdp_query_successor_destinations inp g (self : MDP.t) :
  MDP.__init__ inp g = Ok self →
  (∀ s a, (s, a) ∈ MDP.input_keys inp → s ∉ MDP.terminal_states self →
     ∃ l, MDP.query_successor self s a = Ok l ∧ NoDup l
          ∧ ∀ s1, s1 ∈ l ↔ is_Some (mdp_probability inp (s, a) s1))
  ∧ (∀ s a, MDP.Pair s a ∉ keys (MDP.transition_matrix self).1 →
     MDP.query_successor self s a = Raise AttributeError).
Proof.
  intros Hinit. pose proof (mdp_all_states_nonempty _ _ _ Hinit) as Hne.
  pose proof (mdp_classification _ _ _ Hinit) as (Hnd & _ & Hall & _).
  split.
  - intros s a Hsa Hnt.
    destruct (mdp_stored_keys _ _ _ (s, a) Hinit Hsa Hnt) as
      [[prow Hp]%get_key_is_Some _].
    destruct (mdp_stored_good _ _ _ Hinit (s, a) Hnt) as [Hgp _].
    unfold MDP.pair_key in *. simpl in *. specialize (Hgp _ Hp).
    unfold MDP.query_successor. destruct (MDP.all_states self) as [|x xs] eqn:Hxs; [done|].
    rewrite Hp. simpl attr_of. eexists. split; [reflexivity|]. split.
    + by apply NoDup_filter.
    + intros s1. rewrite list_elem_of_filter, <- Hgp. split.
      * intros [Hk _]. by apply get_key_is_Some.
      * intros [p Hk]. split; [by eapply get_Some_key|].
        apply Hall. right. rewrite Hgp in Hk.
        unfold MDP.is_destination. exists (s, a).
        destruct inp as [d|d]; simpl in Hk |- *.
        -- destruct (get (s, a) d) as [row|] eqn:Hrow; [|discriminate].
           exists (keys row). split; [done|].
           destruct (get s1 row) as [pr|] eqn:Hs1; [|discriminate].
           by eapply get_Some_key.
        -- destruct (get (s, a) d) as [[row r]|] eqn:Hrow; [|discriminate].
           exists (keys row). split; [done|]. by eapply get_Some_key.
  - intros s a Hk%get_None_key. unfold MDP.query_successor.
    destruct (MDP.all_states self); [done|]. by rewrite Hk.
Qed.

(** X19.  In a constructed MDP, [query_R] without an action never raises:
    it answers for the action of the first key of the input. *)
Theorem mdp_query_R_default_action inp g (self : MDP.t) s0 a0 rest :
  MDP.__init__ inp g = Ok self →
  MDP.input_keys inp = (s0, a0) :: rest →
  ∀ s, MDP.query_R self s None = MDP.query_R self s (Some a0)
       ∧ MDP.query_R self s None = Ok (get (MDP.Pair s a0) (MDP.transition_matrix self).2).
Proof.
  intros Hinit Hkeys s.
  destruct (mdp_heads _ _ _ _ _ _ Hinit Hkeys) as [_ Ha].
  unfold MDP.query_R. destruct (MDP.all_actions self) as [|a al]; [done|].
  simpl in Ha. injection Ha as ->. done.
Qed.
End mdp_queries.

Section mrp_reward_function.
Context {State : Type} `{EqDecision State} `{Runtime}.
Implicit Types (inp : MRP.mrp_input (State:=State)) (s : State).
Implicit Types (l : list State) (stm rm : dict State (dict State num)).
Implicit Types (rf : dict State num) (g : num).

Lemma mrp_expected_loop_fold stm rm s (prow rrow : dict State num) l acc :
  get s stm = Some prow → get s rm = Some rrow →
  MRP.expected_loop stm rm s l acc
  = Ok (fold_left
          (λ acc s2, fadd acc (fmul (default fzero (get s2 prow))
                                    (default fzero (get s2 rrow))))
          l acc).
Proof.
  intros Hp Hr. revert acc. induction l as [|x l IH]; intros acc; simpl; [done|].
  rewrite Hp, Hr. simpl. apply IH.
Qed.

Lemma mrp_reward_loop_get stm rm l rf0 rf :
  MRP.reward_loop stm rm l rf0 = Ok rf →
  ∀ s, (s ∈ l → ∃ prow e,
          get s stm = Some prow
          ∧ MRP.expected_loop stm rm s (keys prow) fzero = Ok e
          ∧ get s rf = Some (round5 e))
       ∧ (s ∉ l → get s rf = get s rf0).
Proof.
  revert rf0. induction l as [|x l IH]; intros rf0; simpl.
  - intros [= <-] s. split; [by intros ?%elem_of_nil | done].
  - destruct (get x stm) as [prow|] eqn:Hx; simpl; [|discriminate].
    destruct (MRP.expected_loop stm rm x (keys prow) fzero) as [e|] eqn:He;
      simpl; [|discriminate].
    intros Hl s. destruct (IH _ Hl s) as [Hin Hout]. split.
    + intros Hs. destruct (decide (s ∈ l)) as [Hsl|Hsl]; [by apply Hin|].
      apply elem_of_cons in Hs as [->|Hs]; [|done].
      exists prow, e. split_and!; [done | done |].
      rewrite (Hout Hsl), get_update. by rewrite decide_True.
    + intros [Hne Hsl]%not_elem_of_cons. rewrite (Hout Hsl), get_update.
      by rewrite decide_False.
Qed.

Lemma mrp_fold_left_ext {A B} (f f' : A → B → A) (l : list B) (a : A) :
  (∀ a b, f a b = f' a b) → fold_left f l a = fold_left f' l a.
Proof. intros Hf. revert a. induction l as [|b l IH]; intros a; simpl; [done|]. by rewrite Hf, IH. Qed.

(** X20.  In a constructed MRP the expected reward of a non-terminal state
    is the sum, rounded to five places, of probability times reward over
    the destinations of its stored row, accumulated from [0] in their
    order; a destination without a stored reward, as is in the
    shared-reward encoding one that is not a source key, adds [p * 0.0]. *)
Theorem mrp_expected_reward_formula inp g out (self : MRP.t) s :
  MRP.__init__ inp g = (out, Ok self) →
  s ∈ MRP.non_terminal_states self →
  ∃ prow,
    get s (MRP.state_transition_matrix self) = Some prow
    ∧ (∀ s2, get s2 prow = mrp_probability inp s s2)
    ∧ MRP.get_expected_reward self s
      = Some (round5 (expected_sum inp s (keys prow))).
Proof.
  intros Hinit Hs.
  destruct (mrp_matrix_keys _ _ _ _ Hinit s) as (Hks & Hkr & _).
  pose proof (proj2 Hkr Hs) as Hsr.
  pose proof (proj2 Hkr Hs) as [rrow Hr]%get_key_is_Some.
  pose proof Hinit as (_ & _ & _ & Ha & Hf & _)%mrp_init_inv.
  apply mrp_assign_loop_good in Ha as [Hgp Hgr]; [| done | done].
  destruct (mrp_reward_loop_get _ _ _ _ _ Hf s) as [Hin _].
  destruct (Hin Hsr) as (prow & e & Hp & He & Hget).
  exists prow. split_and!; [done | by apply Hgp |].
  rewrite (mrp_expected_loop_fold _ _ _ _ _ _ _ Hp Hr) in He. injection He as <-.
  unfold MRP.get_expected_reward. rewrite Hget. do 2 f_equal.
  unfold expected_sum. apply mrp_fold_left_ext. intros acc s2.
  rewrite (Hgp _ _ Hp s2), (Hgr _ _ Hr s2). unfold stored_reward. by destruct inp.
Qed.
End mrp_reward_function.

(** * The further properties on the examples *)

Section further_examples.
#[local] Existing Instances Q_numeric Q_runtime.

(** [empty_input_StopIteration] on the two inputs without an entry. *)
Lemma empty_input_StopIteration_witness :
  (MRP.input_keys mrp_empty = [] ∧ MDP.input_keys mdp_empty = [])
  ∧ MRP.__init__ mrp_empty 1%Q = ([], Raise StopIteration)
  ∧ MDP.__init__ mdp_empty 1%Q = Raise StopIteration.
Proof.
  split; [split; reflexivity |].
  destruct (@empty_input_StopIteration nat string _ _ Q_numeric Q_runtime)
    as [Hmrp Hmdp].
  split; [exact (Hmrp mrp_empty 1%Q eq_refl) | exact (Hmdp mdp_empty 1%Q eq_refl)].
Defined.

(** [mrp_init_raises_only_numpy] on [mrp_absorbing]: the solve returns the
    empty solution, and the iteration over it raises [ValueError]. *)
Lemma mrp_init_raises_only_numpy_witness :
  (MRP.input_keys mrp_absorbing ≠ []
   ∧ MRP.__init__ mrp_absorbing 1%Q = (mrp_absorbing_out, Raise ValueError))
  ∧ ∃ T N stm rm rf P,
      MRP._categorize_states mrp_absorbing = Ok (T, N)
      ∧ MRP._assign_transition_matrix mrp_absorbing N = Ok (stm, rm)
      ∧ MRP._assign_reward_function stm rm = Ok rf
      ∧ MRP.P_matrix stm N = Ok P
      ∧ ((linalg_solve 1%Q P (values rf) = Raise ValueError
          ∧ MRP.is_singular_error ValueError = false)
         ∨ (∃ e0, linalg_solve 1%Q P (values rf) = Raise e0
                  ∧ MRP.is_singular_error e0 = true
                  ∧ linalg_lstsq 1%Q P (values rf) = Raise ValueError)
         ∨ (∃ V, (linalg_solve 1%Q P (values rf) = Ok V
                  ∨ ∃ e0, linalg_solve 1%Q P (values rf) = Raise e0
                          ∧ MRP.is_singular_error e0 = true
                          ∧ linalg_lstsq 1%Q P (values rf) = Ok V)
                 ∧ nditer V = Raise ValueError)).
Proof.
  assert (Hne : MRP.input_keys mrp_absorbing ≠ []) by discriminate.
  split; [split; [exact Hne | reflexivity] |].
  exact (mrp_init_raises_only_numpy mrp_absorbing 1%Q mrp_absorbing_out
           ValueError Hne eq_refl).
Defined.

(** On [mrp_chain] the construction returns, with value 1 at each of the
    three non-terminal states. *)
Lemma mrp_chain_init :
  ∃ self : MRP.t,
    MRP.__init__ mrp_chain 1%Q = (mrp_chain_out, Ok self)
    ∧ MRP.terminal_states self = [4]
    ∧ MRP.value_function self = [(1, 1%Q); (2, 1%Q); (3, 1%Q)].
Proof. eexists. split_and!; reflexivity. Qed.


(** [mrp_states_in_input_order] on [mrp_shared]. *)
Lemma mrp_states_in_input_order_witness :
  MRP.__init__ mrp_shared 1%Q = (mrp_shared_out, Ok mrp_shared_obj)
  ∧ MRP.terminal_states mrp_shared_obj
    = filter (λ s, mrp_certain mrp_shared s = true) (MRP.input_keys mrp_shared)
  ∧ MRP.non_terminal_states mrp_shared_obj
    = filter (λ s, mrp_certain mrp_shared s = false) (MRP.input_keys mrp_shared).
Proof.
  split; [reflexivity |].
  exact (mrp_states_in_input_order mrp_shared 1%Q mrp_shared_out mrp_shared_obj eq_refl).
Defined.

(** [mrp_indexed_by_non_terminal] on [mrp_shared]. *)
Lemma mrp_indexed_by_non_terminal_witness :
  (NoDup (MRP.input_keys mrp_shared)
   ∧ MRP.__init__ mrp_shared 1%Q = (mrp_shared_out, Ok mrp_shared_obj))
  ∧ keys (MRP.state_transition_matrix mrp_shared_obj)
    = MRP.non_terminal_states mrp_shared_obj
  ∧ keys (MRP.reward_matrix mrp_shared_obj) = MRP.non_terminal_states mrp_shared_obj
  ∧ keys (MRP.reward_function mrp_shared_obj) = MRP.non_terminal_states mrp_shared_obj
  ∧ length (values (MRP.reward_function mrp_shared_obj))
    = length (MRP.non_terminal_states mrp_shared_obj)
  ∧ (∃ P, MRP.P_matrix (MRP.state_transition_matrix mrp_shared_obj)
            (MRP.non_terminal_states mrp_shared_obj) = Ok P
          ∧ length P = length (MRP.non_terminal_states mrp_shared_obj)
          ∧ Forall (λ r, length r = length (MRP.non_terminal_states mrp_shared_obj)) P)
  ∧ (∃ k, keys (MRP.value_function mrp_shared_obj)
          = take k (MRP.non_terminal_states mrp_shared_obj)).
Proof.
  assert (Hk : NoDup (MRP.input_keys mrp_shared)) by compute_done.
  split; [split; [exact Hk | reflexivity] |].
  exact (mrp_indexed_by_non_terminal mrp_shared 1%Q mrp_shared_out mrp_shared_obj
           Hk eq_refl).
Defined.

(** [mrp_stored_rows] on state 1 of [mrp_shared]. *)
Lemma mrp_stored_rows_witness :
  (MRP.__init__ mrp_shared 1%Q = (mrp_shared_out, Ok mrp_shared_obj)
   ∧ 1 ∈ MRP.non_terminal_states mrp_shared_obj)
  ∧ ∃ prow rrow,
      get 1 (MRP.state_transition_matrix mrp_shared_obj) = Some prow
      ∧ get 1 (MRP.reward_matrix mrp_shared_obj) = Some rrow
      ∧ (∀ s2, get s2 prow = mrp_probability mrp_shared 1 s2)
      ∧ (∀ s2, get s2 rrow = stored_reward mrp_shared 1 s2).
Proof.
  assert (H1 : 1 ∈ MRP.non_terminal_states mrp_shared_obj) by compute_done.
  split; [split; [reflexivity | exact H1] |].
  exact (mrp_stored_rows mrp_shared 1%Q mrp_shared_out mrp_shared_obj 1 eq_refl H1).
Defined.

(** [mrp_transition_reward_query] on [mrp_shared]: from the terminal
    state 2, and from the non-terminal state 1. *)
Lemma mrp_transition_reward_query_witness :
  (MRP.__init__ mrp_shared 1%Q = (mrp_shared_out, Ok mrp_shared_obj)
   ∧ (2 ∉ MRP.non_terminal_states mrp_shared_obj)
   ∧ 1 ∈ MRP.non_terminal_states mrp_shared_obj)
  ∧ MRP.get_state_transition_reward mrp_shared_obj 2 2 = Raise AttributeError
  ∧ MRP.get_state_transition_reward mrp_shared_obj 1 2 = Ok 5%Q.
Proof.
  assert (H2 : 2 ∉ MRP.non_terminal_states mrp_shared_obj) by compute_done.
  assert (H1 : 1 ∈ MRP.non_terminal_states mrp_shared_obj) by compute_done.
  split; [split_and!; [reflexivity | exact H2 | exact H1] |]. split.
  - exact (proj1 (mrp_transition_reward_query mrp_shared 1%Q mrp_shared_out
                    mrp_shared_obj 2 2 eq_refl) H2).
  - exact (proj2 (mrp_transition_reward_query mrp_shared 1%Q mrp_shared_out
                    mrp_shared_obj 1 2 eq_refl) H1).
Defined.

(** [mrp_encodings_agree_when_closed] on the entries of [mrp_shared]. *)
Lemma mrp_encodings_agree_when_closed_witness :
  (distinct_rows shared_rows ∧ closed_input shared_rows)
  ∧ ((∃ out e,
        MRP.__init__ (MRP.STSff shared_rows) 1%Q = (out, Raise e)
        ∧ MRP.__init__ (MRP.SSTff (to_fine shared_rows)) 1%Q = (out, Raise e))
     ∨ (∃ out (shared fine : MRP.t),
          MRP.__init__ (MRP.STSff shared_rows) 1%Q = (out, Ok shared)
          ∧ MRP.__init__ (MRP.SSTff (to_fine shared_rows)) 1%Q = (out, Ok fine)
          ∧ MRP.terminal_states shared = MRP.terminal_states fine
          ∧ MRP.non_terminal_states shared = MRP.non_terminal_states fine
          ∧ MRP.state_transition_matrix shared = MRP.state_transition_matrix fine
          ∧ MRP.reward_function shared = MRP.reward_function fine
          ∧ MRP.value_function shared = MRP.value_function fine)).
Proof.
  assert (Hd : distinct_rows shared_rows).
  { unfold distinct_rows, shared_rows. repeat constructor; compute_done. }
  assert (Hc : closed_input shared_rows).
  { unfold closed_input, shared_rows. repeat constructor; compute_done. }
  split; [split; [exact Hd | exact Hc] |].
  exact (mrp_encodings_agree_when_closed shared_rows 1%Q Hd Hc).
Defined.

(** [mrp_sample_trajectory] on one sample of [mrp_shared] from state 1. *)
Lemma mrp_sample_trajectory_witness :
  MRP.get_random_sample 1 mrp_shared_obj () (Some 1)
  = Some (mrp_shared_sample_out, Ok ([1; 2], 5%Q))
  ∧ ∃ visited last s0,
      [1; 2] = visited ++ [last]
      ∧ head [1; 2] = Some s0
      ∧ s0 = 1
      ∧ Forall (λ s, s ∈ MRP.non_terminal_states mrp_shared_obj) visited
      ∧ (last ∉ MRP.non_terminal_states mrp_shared_obj)
      ∧ follows (MRP.state_transition_matrix mrp_shared_obj) [1; 2]
      ∧ 5%Q = discounted_return (MRP.gamma mrp_shared_obj)
                (MRP.reward_function mrp_shared_obj) visited 0 fzero.
Proof.
  split; [reflexivity |].
  exact (mrp_sample_trajectory 1 mrp_shared_obj () (Some 1)
           mrp_shared_sample_out [1; 2] 5%Q eq_refl).
Defined.

(** [mrp_sample_step_on_non_terminal] on state 1 of [mrp_shared]. *)
Lemma mrp_sample_step_on_non_terminal_witness :
  (MRP.__init__ mrp_shared 1%Q = (mrp_shared_out, Ok mrp_shared_obj)
   ∧ 1 ∈ MRP.non_terminal_states mrp_shared_obj)
  ∧ ∃ r row,
      MRP.get_expected_reward mrp_shared_obj 1 = Some r
      ∧ get 1 (MRP.state_transition_matrix mrp_shared_obj) = Some row
      ∧ (∀ s2, get s2 row = mrp_probability mrp_shared 1 s2)
      ∧ MRP.sample_step mrp_shared_obj () 1 0%Q 0
        = ([PrintStates (keys row); PrintProbs (values row)],
           match np_random_choice () (length (keys row)) (values row) with
           | Ok (i, g') =>
               match keys row !! i with
               | Some next =>
                   Ok (next,
                       fadd 0%Q (fmul (fpow (MRP.gamma mrp_shared_obj) 0) r), g')
               | None => Raise ValueError
               end
           | Raise e => Raise e
           end).
Proof.
  assert (H1 : 1 ∈ MRP.non_terminal_states mrp_shared_obj) by compute_done.
  split; [split; [reflexivity | exact H1] |].
  exact (mrp_sample_step_on_non_terminal mrp_shared 1%Q mrp_shared_out
           mrp_shared_obj () 1 0%Q 0 eq_refl H1).
Defined.

(** [mrp_expected_reward_formula] on state 1 of [mrp_open_shared], whose
    only destination is not a source key. *)
Lemma mrp_expected_reward_formula_witness :
  (MRP.__init__ mrp_open_shared 1%Q = (mrp_open_shared_out, Ok mrp_open_shared_obj)
   ∧ 1 ∈ MRP.non_terminal_states mrp_open_shared_obj)
  ∧ ∃ prow,
      get 1 (MRP.state_transition_matrix mrp_open_shared_obj) = Some prow
      ∧ (∀ s2, get s2 prow = mrp_probability mrp_open_shared 1 s2)
      ∧ MRP.get_expected_reward mrp_open_shared_obj 1
        = Some (round5 (expected_sum mrp_open_shared 1 (keys prow))).
Proof.
  assert (H1 : 1 ∈ MRP.non_terminal_states mrp_open_shared_obj) by compute_done.
  split; [split; [reflexivity | exact H1] |].
  exact (mrp_expected_reward_formula mrp_open_shared 1%Q mrp_open_shared_out
           mrp_open_shared_obj 1 eq_refl H1).
Defined.

(** [mdp_states_and_actions] on [mdp_stay_or_go]. *)
Lemma mdp_states_and_actions_witness :
  MDP.__init__ mdp_stay_or_go 1%Q = Ok mdp_stay_or_go_obj
  ∧ NoDup (MDP.all_actions mdp_stay_or_go_obj)
  ∧ (∀ a, a ∈ MDP.all_actions mdp_stay_or_go_obj ↔
          ∃ s, (s, a) ∈ MDP.input_keys mdp_stay_or_go)
  ∧ NoDup (MDP.all_states mdp_stay_or_go_obj)
  ∧ (∀ s, s ∈ MDP.all_states mdp_stay_or_go_obj ↔
          MDP.is_source mdp_stay_or_go s ∨ MDP.is_destination mdp_stay_or_go s)
  ∧ (∃ s0 a0 rest, MDP.input_keys mdp_stay_or_go = (s0, a0) :: rest
                   ∧ head (MDP.all_states mdp_stay_or_go_obj) = Some s0
                   ∧ head (MDP.all_actions mdp_stay_or_go_obj) = Some a0).
Proof.
  split; [reflexivity |].
  exact (mdp_states_and_actions mdp_stay_or_go 1%Q mdp_stay_or_go_obj eq_refl).
Defined.

(** [mdp_shared_construction_returns] on [input1] of mdp.py. *)
Lemma mdp_shared_construction_returns_witness :
  input1 ≠ [] ∧ ∃ self, MDP.__init__ (MDP.SATSff input1) 1%Q = Ok self.
Proof.
  assert (Hne : input1 ≠ []) by discriminate.
  split; [exact Hne |].
  exact (mdp_shared_construction_returns input1 1%Q Hne).
Defined.

(** [mdp_fine_first_non_terminal_returns] on [input2] of mdp.py. *)
Lemma mdp_fine_first_non_terminal_returns_witness :
  (first_key input2 = Ok (1, "a")
   ∧ MDP._categorize_states (MDP.SASTff input2)
       (MDP._get_all_states_and_actions (MDP.SASTff input2)).1
     = Ok ([1; 2; 3], [3], [1; 2])
   ∧ (1 ∉ [3]))
  ∧ ∃ self, MDP.__init__ (MDP.SASTff input2) 1%Q = Ok self
            ∧ MDP.all_states self = [1; 2; 3]
            ∧ MDP.terminal_states self = [3]
            ∧ MDP.non_terminal_states self = [1; 2].
Proof.
  assert (H1 : 1 ∉ [3]) by compute_done.
  split; [split_and!; [reflexivity | reflexivity | exact H1] |].
  exact (mdp_fine_first_non_terminal_returns input2 1%Q (1, "a")
           [1; 2; 3] [3] [1; 2] eq_refl eq_refl H1).
Defined.

(** [mdp_fine_stale_rows] on [input2] of mdp.py: the keys of the terminal
    state 3 are stored, [(3, "a")] with the rows of [(2, "c")] before it and
    [(3, "b")] with the rows of [(3, "a")]. *)
Lemma mdp_fine_stale_rows_witness :
  (MDP.__init__ (MDP.SASTff input2) 1%Q = Ok mdp_input2_obj
   ∧ (3, "b") ∈ keys input2
   ∧ NoDup (keys input2)
   ∧ keys input2
     = [(1, "a"); (1, "b"); (1, "c"); (2, "a")] ++ (2, "c") :: (3, "a") :: [(3, "b")]
   ∧ 3 ∈ MDP.terminal_states mdp_input2_obj)
  ∧ (MDP.Pair 3 "b" ∈ keys (MDP.transition_matrix mdp_input2_obj).1
     ∧ MDP.Pair 3 "b" ∈ keys (MDP.transition_matrix mdp_input2_obj).2)
  ∧ (get (MDP.Pair 3 "a") (MDP.transition_matrix mdp_input2_obj).1
       = get (MDP.Pair 2 "c") (MDP.transition_matrix mdp_input2_obj).1
     ∧ get (MDP.Pair 3 "a") (MDP.transition_matrix mdp_input2_obj).2
       = get (MDP.Pair 2 "c") (MDP.transition_matrix mdp_input2_obj).2).
Proof.
  assert (Hb : (3, "b") ∈ keys input2) by compute_done.
  assert (Hnd : NoDup (keys input2)) by compute_done.
  assert (H3 : 3 ∈ MDP.terminal_states mdp_input2_obj) by compute_done.
  assert (Hinit : MDP.__init__ (MDP.SASTff input2) 1%Q = Ok mdp_input2_obj)
    by reflexivity.
  split; [split_and!; [exact Hinit | exact Hb | exact Hnd | reflexivity | exact H3] |].
  destruct (@mdp_fine_stale_rows nat string _ _ Q_numeric input2 1%Q mdp_input2_obj
              Hinit) as [Hstored Hstale].
  split.
  - exact (Hstored (3, "b") Hb).
  - exact (Hstale Hnd [(1, "a"); (1, "b"); (1, "c"); (2, "a")] (2, "c") (3, "a")
             [(3, "b")] eq_refl H3).
Defined.

(** [mdp_queries_return_input] on the key [(1, "go")] of [mdp_stay_or_go]. *)
Lemma mdp_queries_return_input_witness :
  (MDP.__init__ mdp_stay_or_go 1%Q = Ok mdp_stay_or_go_obj
   ∧ (1, "go") ∈ MDP.input_keys mdp_stay_or_go
   ∧ (1 ∉ MDP.terminal_states mdp_stay_or_go_obj))
  ∧ (∀ s1, MDP.query_Pr mdp_stay_or_go_obj 1 "go" s1
           = Ok (mdp_probability mdp_stay_or_go (1, "go") s1))
  ∧ ∃ rrow, MDP.query_R mdp_stay_or_go_obj 1 (Some "go") = Ok (Some rrow)
            ∧ ∀ s1, get s1 rrow = mdp_reward mdp_stay_or_go (1, "go") s1.
Proof.
  assert (Hk : (1, "go") ∈ MDP.input_keys mdp_stay_or_go) by compute_done.
  assert (H1 : 1 ∉ MDP.terminal_states mdp_stay_or_go_obj) by compute_done.
  split; [split_and!; [reflexivity | exact Hk | exact H1] |].
  exact (mdp_queries_return_input mdp_stay_or_go 1%Q mdp_stay_or_go_obj 1 "go"
           eq_refl Hk H1).
Defined.

(** [mdp_query_successor_destinations] on [mdp_stay_or_go]: on the key
    [(1, "go")], and on [(2, "go")], under which nothing is stored. *)
Lemma mdp_query_successor_destinations_witness :
  (MDP.__init__ mdp_stay_or_go 1%Q = Ok mdp_stay_or_go_obj
   ∧ (1, "go") ∈ MDP.input_keys mdp_stay_or_go
   ∧ (1 ∉ MDP.terminal_states mdp_stay_or_go_obj)
   ∧ (MDP.Pair 2 "go" ∉ keys (MDP.transition_matrix mdp_stay_or_go_obj).1))
  ∧ (∃ l, MDP.query_successor mdp_stay_or_go_obj 1 "go" = Ok l ∧ NoDup l
          ∧ ∀ s1, s1 ∈ l ↔ is_Some (mdp_probability mdp_stay_or_go (1, "go") s1))
  ∧ MDP.query_successor mdp_stay_or_go_obj 2 "go" = Raise AttributeError.
Proof.
  assert (Hk : (1, "go") ∈ MDP.input_keys mdp_stay_or_go) by compute_done.
  assert (H1 : 1 ∉ MDP.terminal_states mdp_stay_or_go_obj) by compute_done.
  assert (H2 : MDP.Pair 2 "go" ∉ keys (MDP.transition_matrix mdp_stay_or_go_obj).1).
  { apply get_None_key. reflexivity. }
  assert (Hinit : MDP.__init__ mdp_stay_or_go 1%Q = Ok mdp_stay_or_go_obj)
    by reflexivity.
  split; [split_and!; [exact Hinit | exact Hk | exact H1 | exact H2] |].
  destruct (@mdp_query_successor_destinations nat string _ _ Q_numeric
              mdp_stay_or_go 1%Q mdp_stay_or_go_obj Hinit) as [Hstored Hunknown].
  split; [exact (Hstored 1 "go" Hk H1) | exact (Hunknown 2 "go" H2)].
Defined.

(** [mdp_query_R_default_action] on [mdp_stay_or_go], whose first key has
    the action ["stay"]. *)
Lemma mdp_query_R_default_action_witness :
  (MDP.__init__ mdp_stay_or_go 1%Q = Ok mdp_stay_or_go_obj
   ∧ MDP.input_keys mdp_stay_or_go = (1, "stay") :: [(1, "go")])
  ∧ ∀ s, MDP.query_R mdp_stay_or_go_obj s None
         = MDP.query_R mdp_stay_or_go_obj s (Some "stay")
         ∧ MDP.query_R mdp_stay_or_go_obj s None
           = Ok (get (MDP.Pair s "stay") (MDP.transition_matrix mdp_stay_or_go_obj).2).
Proof.
  split; [split; reflexivity |].
  exact (mdp_query_R_default_action mdp_stay_or_go 1%Q mdp_stay_or_go_obj
           1 "stay" [(1, "go")] eq_refl eq_refl).
Defined.
End further_examples.
